(** * multi-ui CLI: a shallow embedding of the two command-line programs

    The repository ships two variants of the same command-line tool.  The
    older one (module [Legacy]) stores only the language preference and
    writes into a fixed [multi-ui/components] directory; the newer one
    (module [Current]) also stores a component path, installs the Babel
    presets during [setup] and classifies fetch failures.

    The programs are effectful: they read and write files, print to the
    console, prompt the user, spawn [npm] and issue one HTTP GET.  The
    embedding threads an explicit [World] (file system and a chronological
    trace of observable events) through a small state-and-exception monad,
    and takes the collaborators (remote host, prompt, installer, Babel) as
    an environment record.

    The repository also carries two of the components the tool delivers,
    an accordion and a multi-select dropdown.  Their state logic (the
    handlers that compute the next value of each [useState] cell) is
    embedded as pure functions on the state. *)

From Stdlib Require Import String Ascii List ZArith Lia Bool.
From stdpp Require Import base gmap strings list fin_maps pretty.

Set Warnings "-abstract-large-number,-register-all".

(** String append computes on literal prefixes throughout this file. *)
#[local] Arguments String.append !s1 s2 : simpl nomatch.

(* ===================================================================== *)
(** * JavaScript strings *)
(* ===================================================================== *)

(** A string is held as the bytes of its UTF-8 encoding.  What the programs
    do to a string (splitting at [_] or [/], gluing, comparing with a
    literal) acts on ASCII characters and carries over to the bytes.  The
    one exception is [toLowerCase], which is exact on ASCII strings only:
    the case tables of the other scripts are not part of this development,
    and what is proved of a lower-cased name is proved of ASCII names. *)

Module Js.

Definition lower_ascii (c : ascii) : ascii :=
  let n := nat_of_ascii c in
  if (65 <=? n)%nat && (n <=? 90)%nat then ascii_of_nat (n + 32) else c.

(** [String.prototype.toLowerCase], on ASCII strings. *)
Fixpoint toLowerCase (s : string) : string :=
  match s with
  | EmptyString => EmptyString
  | String c r => String (lower_ascii c) (toLowerCase r)
  end.

(** [s.split(sep)] for a one-character separator: never the empty list. *)
Fixpoint split (sep : ascii) (s : string) : list string :=
  match s with
  | EmptyString => [EmptyString]
  | String c r =>
      if Ascii.eqb c sep then EmptyString :: split sep r
      else match split sep r with
           | h :: t => String c h :: t
           | [] => [String c EmptyString]
           end
  end.

(** [arr[0]] of a list of strings; [undefined] cannot arise for [split]. *)
Definition first (l : list string) : string :=
  match l with
  | h :: _ => h
  | [] => EmptyString
  end.

(** [arr.join(sep)]. *)
Fixpoint join (sep : string) (l : list string) : string :=
  match l with
  | [] => EmptyString
  | [x] => x
  | x :: r => x +:+ sep +:+ join sep r
  end.

Fixpoint contains (c : ascii) (s : string) : bool :=
  match s with
  | EmptyString => false
  | String a r => Ascii.eqb a c || contains c r
  end.

Fixpoint startsWith (p s : string) : bool :=
  match p, s with
  | EmptyString, _ => true
  | String a p', String b s' => Ascii.eqb a b && startsWith p' s'
  | String _ _, EmptyString => false
  end.

Definition endsWith (p s : string) : bool :=
  startsWith (String.rev p) (String.rev s).

(** [s.slice(n)]. *)
Fixpoint drop (n : nat) (s : string) : string :=
  match n, s with
  | O, _ => s
  | S n', String _ r => drop n' r
  | S _, EmptyString => EmptyString
  end.

(** [s.replace(pat, by)] with a string pattern: first occurrence only. *)
Fixpoint replace (pat by_ s : string) : string :=
  if startsWith pat s then by_ +:+ drop (String.length pat) s
  else match s with
       | EmptyString => EmptyString
       | String c r => String c (replace pat by_ r)
       end.

(** Decimal rendering of a number in a template literal. *)
Definition of_nat (n : nat) : string := pretty n.

End Js.

(* ===================================================================== *)
(** * Node's [path] module (POSIX flavour) *)
(* ===================================================================== *)

Module Path.

Definition slash : ascii := "/"%char.

Definition isAbsolute (p : string) : bool :=
  match p with
  | String c _ => Ascii.eqb c slash
  | EmptyString => false
  end.

Definition hasTrailingSlash (p : string) : bool :=
  match String.rev p with
  | String c _ => Ascii.eqb c slash
  | EmptyString => false
  end.

(** One step of [normalizeString]: [stack] holds the segments kept so far,
    most recent first. *)
Definition step (allowAboveRoot : bool) (stack : list string) (seg : string)
  : list string :=
  if String.eqb seg "" then stack
  else if String.eqb seg "." then stack
  else if String.eqb seg ".." then
    match stack with
    | top :: rest =>
        if String.eqb top ".." then seg :: stack else rest
    | [] => if allowAboveRoot then [seg] else []
    end
  else seg :: stack.

Definition normSegs (allowAboveRoot : bool) (stack : list string)
  (segs : list string) : list string :=
  fold_left (step allowAboveRoot) segs stack.

(** [path.normalize]. *)
Definition normalize (p : string) : string :=
  if String.eqb p "" then "."
  else
    let abs := isAbsolute p in
    let body := Js.join "/" (rev (normSegs (negb abs) [] (Js.split slash p))) in
    if String.eqb body "" then
      if abs then "/" else if hasTrailingSlash p then "./" else "."
    else
      let body := if hasTrailingSlash p then body +:+ "/" else body in
      if abs then "/" +:+ body else body.

(** [path.join(...args)]: empty arguments are skipped, the rest is glued
    with "/" and normalised. *)
Definition join (args : list string) : string :=
  let parts := filter (fun a => a ≠ "") args in
  match parts with
  | [] => "."
  | _ => normalize (Js.join "/" parts)
  end.

(** [path.extname] of a file name without directory part. *)
Fixpoint lastDot (s : string) (i : nat) (found : option nat) : option nat :=
  match s with
  | EmptyString => found
  | String c r =>
      lastDot r (S i) (if Ascii.eqb c "."%char then Some i else found)
  end.

Definition extname (name : string) : string :=
  match lastDot name 0 None with
  | None => ""
  | Some 0 => ""
  | Some i => if String.eqb name ".." then "" else Js.drop i name
  end.

End Path.


(* ===================================================================== *)
(** * JSON: the values, [JSON.stringify] and [JSON.parse] *)
(* ===================================================================== *)

Module Json.

(** JavaScript values as far as the programs meet them.  A number keeps
    its lexeme: no arithmetic is ever done on one. *)
Inductive value :=
| Undefined
| Null
| Bool (b : bool)
| Num (lexeme : string)
| Str (s : string)
| Arr (items : list value)
| Obj (members : list (string * value)).

Definition nl : string := String (ascii_of_nat 10) EmptyString.
Definition dquote : ascii := ascii_of_nat 34.
Definition backslash : ascii := ascii_of_nat 92.

(** A string holding one double quote. *)
Definition q : string := String dquote EmptyString.

Definition hexDigit (n : nat) : ascii :=
  if (n <? 10)%nat then ascii_of_nat (48 + n) else ascii_of_nat (87 + n).

(** [QuoteJSONString] on one code unit. *)
Definition escapeChar (c : ascii) : string :=
  let n := nat_of_ascii c in
  if Ascii.eqb c dquote then String backslash (String dquote "")
  else if Ascii.eqb c backslash then String backslash (String backslash "")
  else if (n =? 8)%nat then String backslash "b"
  else if (n =? 9)%nat then String backslash "t"
  else if (n =? 10)%nat then String backslash "n"
  else if (n =? 12)%nat then String backslash "f"
  else if (n =? 13)%nat then String backslash "r"
  else if (n <? 32)%nat then
    String backslash
      (String "u" (String "0" (String "0"
         (String (hexDigit (n / 16)) (String (hexDigit (n mod 16)) "")))))
  else String c "".

(** The escaped characters of [s], followed by [rest]. *)
Fixpoint escapeOnto (s rest : string) : string :=
  match s with
  | EmptyString => rest
  | String c r => escapeChar c +:+ escapeOnto r rest
  end.

Definition quoteOnto (s rest : string) : string :=
  String dquote (escapeOnto s (String dquote rest)).

(** The members of an object of string-valued properties, printed the way
    [JSON.stringify(obj, null, 2)] prints them, followed by [rest]. *)
Fixpoint membersOnto (ms : list (string * string)) (rest : string) : string :=
  match ms with
  | [] => rest
  | [(k, v)] => "  " +:+ quoteOnto k (": " +:+ quoteOnto v (nl +:+ rest))
  | (k, v) :: more =>
      "  " +:+ quoteOnto k (": " +:+ quoteOnto v ("," +:+ nl +:+ membersOnto more rest))
  end.

(** [JSON.stringify(obj, null, 2)] for an object whose properties are all
    strings, given in insertion order. *)
Definition stringify (ms : list (string * string)) : string :=
  match ms with
  | [] => "{}"
  | _ => "{" +:+ nl +:+ membersOnto ms "}"
  end.

(** ** Lexer *)

Inductive token :=
| TLBrace | TRBrace | TLBracket | TRBracket | TColon | TComma
| TStr (s : string) | TNum (lexeme : string) | TTrue | TFalse | TNull.

Inductive mode :=
| Top
| InStr (acc : string)
| Esc (acc : string)
| Uni (acc : string) (digits : list nat)
| Hi (acc : string) (high : nat)
| HiEsc (acc : string) (high : nat)
| HiUni (acc : string) (high : nat) (digits : list nat)
| InNum (acc : string)
| InWord (acc : string).

Definition snoc (s : string) (c : ascii) : string := s +:+ String c "".

Definition isWs (c : ascii) : bool :=
  let n := nat_of_ascii c in
  (n =? 32)%nat || (n =? 9)%nat || (n =? 10)%nat || (n =? 13)%nat.

Definition isDigit (c : ascii) : bool :=
  let n := nat_of_ascii c in (48 <=? n)%nat && (n <=? 57)%nat.

Definition isNumChar (c : ascii) : bool :=
  isDigit c || Ascii.eqb c "-" || Ascii.eqb c "+" || Ascii.eqb c "."
  || Ascii.eqb c "e" || Ascii.eqb c "E".

Definition isLower (c : ascii) : bool :=
  let n := nat_of_ascii c in (97 <=? n)%nat && (n <=? 122)%nat.

Definition hexValue (c : ascii) : option nat :=
  let n := nat_of_ascii c in
  if (48 <=? n)%nat && (n <=? 57)%nat then Some (n - 48)
  else if (97 <=? n)%nat && (n <=? 102)%nat then Some (n - 87)
  else if (65 <=? n)%nat && (n <=? 70)%nat then Some (n - 55)
  else None.

(** UTF-8 bytes of a code point. *)
Definition utf8 (n : nat) : string :=
  if (n <? 128)%nat then String (ascii_of_nat n) ""
  else if (n <? 2048)%nat then
    String (ascii_of_nat (192 + n / 64))
      (String (ascii_of_nat (128 + n mod 64)) "")
  else if (n <? 65536)%nat then
    String (ascii_of_nat (224 + n / 4096))
      (String (ascii_of_nat (128 + (n / 64) mod 64))
         (String (ascii_of_nat (128 + n mod 64)) ""))
  else
    String (ascii_of_nat (240 + n / 262144))
      (String (ascii_of_nat (128 + (n / 4096) mod 64))
         (String (ascii_of_nat (128 + (n / 64) mod 64))
            (String (ascii_of_nat (128 + n mod 64)) ""))).

(** Escaped surrogate halves, [\uD800] to [\uDBFF] and [\uDC00] to
    [\uDFFF].  A high half followed by a low half is one code point beyond
    the Basic Multilingual Plane.  A half on its own is legal JSON; the
    JavaScript string then holds a lone surrogate, which every use the
    programs make of a string (a file name, the content of a file, a line
    on the console) turns into U+FFFD, and which equals no literal of the
    programs.  It is held as U+FFFD from the start. *)
Definition isHigh (n : nat) : bool := (55296 <=? n)%nat && (n <=? 56319)%nat.
Definition isLow (n : nat) : bool := (56320 <=? n)%nat && (n <=? 57343)%nat.
Definition surrogatePair (high low : nat) : nat :=
  65536 + (high - 55296) * 1024 + (low - 56320).
Definition replacement : string := Eval cbv in utf8 65533.

(** The JSON number grammar, as a small automaton over the lexeme. *)
Inductive numState := NStart | NMinus | NZero | NInt | NDot | NFrac | NExp | NExpSign | NExpDigits.

Definition numStep (st : numState) (c : ascii) : option numState :=
  let d := isDigit c in
  let z := Ascii.eqb c "0" in
  let e := Ascii.eqb c "e" || Ascii.eqb c "E" in
  match st with
  | NStart => if Ascii.eqb c "-" then Some NMinus
              else if z then Some NZero else if d then Some NInt else None
  | NMinus => if z then Some NZero else if d then Some NInt else None
  | NZero => if Ascii.eqb c "." then Some NDot else if e then Some NExp else None
  | NInt => if d then Some NInt
            else if Ascii.eqb c "." then Some NDot else if e then Some NExp else None
  | NDot => if d then Some NFrac else None
  | NFrac => if d then Some NFrac else if e then Some NExp else None
  | NExp => if d then Some NExpDigits
            else if Ascii.eqb c "-" || Ascii.eqb c "+" then Some NExpSign else None
  | NExpSign => if d then Some NExpDigits else None
  | NExpDigits => if d then Some NExpDigits else None
  end.

Fixpoint numRun (st : numState) (s : string) : option numState :=
  match s with
  | EmptyString => Some st
  | String c r => match numStep st c with
                  | Some st' => numRun st' r
                  | None => None
                  end
  end.

Definition validNumber (s : string) : bool :=
  match numRun NStart s with
  | Some NZero | Some NInt | Some NFrac | Some NExpDigits => true
  | _ => false
  end.

Definition finishNum (acc : string) (toks : list token) : option (list token) :=
  if validNumber acc then Some (TNum acc :: toks) else None.

Definition finishWord (acc : string) (toks : list token) : option (list token) :=
  if String.eqb acc "true" then Some (TTrue :: toks)
  else if String.eqb acc "false" then Some (TFalse :: toks)
  else if String.eqb acc "null" then Some (TNull :: toks)
  else None.

(** Tokens are accumulated most recent first. *)
Definition lexTop (c : ascii) (toks : list token) : option (mode * list token) :=
  if isWs c then Some (Top, toks)
  else if Ascii.eqb c "{" then Some (Top, TLBrace :: toks)
  else if Ascii.eqb c "}" then Some (Top, TRBrace :: toks)
  else if Ascii.eqb c "[" then Some (Top, TLBracket :: toks)
  else if Ascii.eqb c "]" then Some (Top, TRBracket :: toks)
  else if Ascii.eqb c ":" then Some (Top, TColon :: toks)
  else if Ascii.eqb c "," then Some (Top, TComma :: toks)
  else if Ascii.eqb c dquote then Some (InStr "", toks)
  else if isDigit c || Ascii.eqb c "-" then Some (InNum (String c ""), toks)
  else if isLower c then Some (InWord (String c ""), toks)
  else None.

Definition lexEscape (acc : string) (c : ascii) : option mode :=
  if Ascii.eqb c dquote then Some (InStr (snoc acc dquote))
  else if Ascii.eqb c backslash then Some (InStr (snoc acc backslash))
  else if Ascii.eqb c "/" then Some (InStr (snoc acc "/"))
  else if Ascii.eqb c "b" then Some (InStr (snoc acc (ascii_of_nat 8)))
  else if Ascii.eqb c "f" then Some (InStr (snoc acc (ascii_of_nat 12)))
  else if Ascii.eqb c "n" then Some (InStr (snoc acc (ascii_of_nat 10)))
  else if Ascii.eqb c "r" then Some (InStr (snoc acc (ascii_of_nat 13)))
  else if Ascii.eqb c "t" then Some (InStr (snoc acc (ascii_of_nat 9)))
  else if Ascii.eqb c "u" then Some (Uni acc [])
  else None.

(** Inside a string literal, [acc] read so far. *)
Definition lexInStr (acc : string) (c : ascii) (toks : list token)
  : option (mode * list token) :=
  if Ascii.eqb c dquote then Some (Top, TStr acc :: toks)
  else if Ascii.eqb c backslash then Some (Esc acc, toks)
  else if (nat_of_ascii c <? 32)%nat then None
  else Some (InStr (snoc acc c), toks).

(** The code unit of a [\u] escape is complete. *)
Definition lexUnit (acc : string) (n : nat) : mode :=
  if isHigh n then Hi acc n
  else if isLow n then InStr (acc +:+ replacement)
  else InStr (acc +:+ utf8 n).

(** The same, right after an escaped high half. *)
Definition lexUnitAfterHigh (acc : string) (high n : nat) : mode :=
  if isLow n then InStr (acc +:+ utf8 (surrogatePair high n))
  else lexUnit (acc +:+ replacement) n.

Definition lexStep (m : mode) (c : ascii) (toks : list token)
  : option (mode * list token) :=
  match m with
  | Top => lexTop c toks
  | InStr acc => lexInStr acc c toks
  | Esc acc =>
      match lexEscape acc c with
      | Some m' => Some (m', toks)
      | None => None
      end
  | Uni acc ds =>
      match hexValue c with
      | None => None
      | Some h =>
          match ds with
          | [d1; d2; d3] => Some (lexUnit acc (((d1 * 16 + d2) * 16 + d3) * 16 + h), toks)
          | _ => Some (Uni acc (ds ++ [h]), toks)
          end
      end
  | Hi acc high =>
      if Ascii.eqb c backslash then Some (HiEsc acc high, toks)
      else lexInStr (acc +:+ replacement) c toks
  | HiEsc acc high =>
      if Ascii.eqb c "u" then Some (HiUni acc high [], toks)
      else match lexEscape (acc +:+ replacement) c with
           | Some m' => Some (m', toks)
           | None => None
           end
  | HiUni acc high ds =>
      match hexValue c with
      | None => None
      | Some h =>
          match ds with
          | [d1; d2; d3] =>
              Some (lexUnitAfterHigh acc high (((d1 * 16 + d2) * 16 + d3) * 16 + h), toks)
          | _ => Some (HiUni acc high (ds ++ [h]), toks)
          end
      end
  | InNum acc =>
      if isNumChar c then Some (InNum (snoc acc c), toks)
      else match finishNum acc toks with
           | Some toks' => lexTop c toks'
           | None => None
           end
  | InWord acc =>
      if isLower c then Some (InWord (snoc acc c), toks)
      else match finishWord acc toks with
           | Some toks' => lexTop c toks'
           | None => None
           end
  end.

Fixpoint lexGo (m : mode) (s : string) (toks : list token) : option (list token) :=
  match s with
  | EmptyString =>
      match m with
      | Top => Some (rev toks)
      | InNum acc => option_map (@rev token) (finishNum acc toks)
      | InWord acc => option_map (@rev token) (finishWord acc toks)
      | _ => None
      end
  | String c r =>
      match lexStep m c toks with
      | Some (m', toks') => lexGo m' r toks'
      | None => None
      end
  end.

Definition lex (s : string) : option (list token) := lexGo Top s [].

(** ** Parser *)

Fixpoint parseValue (fuel : nat) (ts : list token) : option (value * list token) :=
  match fuel with
  | O => None
  | S f =>
      match ts with
      | TStr s :: r => Some (Str s, r)
      | TNum n :: r => Some (Num n, r)
      | TTrue :: r => Some (Bool true, r)
      | TFalse :: r => Some (Bool false, r)
      | TNull :: r => Some (Null, r)
      | TLBrace :: TRBrace :: r => Some (Obj [], r)
      | TLBrace :: r => parseMembers f r []
      | TLBracket :: TRBracket :: r => Some (Arr [], r)
      | TLBracket :: r => parseItems f r []
      | _ => None
      end
  end
with parseMembers (fuel : nat) (ts : list token) (acc : list (string * value))
  : option (value * list token) :=
  match fuel with
  | O => None
  | S f =>
      match ts with
      | TStr k :: TColon :: r =>
          match parseValue f r with
          | Some (v, TComma :: r') => parseMembers f r' ((k, v) :: acc)
          | Some (v, TRBrace :: r') => Some (Obj (rev ((k, v) :: acc)), r')
          | _ => None
          end
      | _ => None
      end
  end
with parseItems (fuel : nat) (ts : list token) (acc : list value)
  : option (value * list token) :=
  match fuel with
  | O => None
  | S f =>
      match parseValue f ts with
      | Some (v, TComma :: r') => parseItems f r' (v :: acc)
      | Some (v, TRBracket :: r') => Some (Arr (rev (v :: acc)), r')
      | _ => None
      end
  end.

(** [JSON.parse]: [None] stands for the [SyntaxError] it throws. *)
Definition parse (s : string) : option value :=
  match lex s with
  | None => None
  | Some ts =>
      match parseValue (S (length ts)) ts with
      | Some (v, []) => Some v
      | _ => None
      end
  end.

(** Property read [o.k]: the last member of that name wins; any other
    primitive has no such own property.  [None] stands for the [TypeError]
    of reading a property of [null] or [undefined]. *)
Fixpoint lookupLast (k : string) (ms : list (string * value)) (found : value) : value :=
  match ms with
  | [] => found
  | (k', v) :: r => lookupLast k r (if String.eqb k' k then v else found)
  end.

Definition getProp (o : value) (k : string) : option value :=
  match o with
  | Undefined | Null => None
  | Obj ms => Some (lookupLast k ms Undefined)
  | _ => Some Undefined
  end.

(** [v === s] for a string literal [s]. *)
Definition isString (v : value) (s : string) : bool :=
  match v with
  | Str x => String.eqb x s
  | _ => false
  end.

End Json.

(* ===================================================================== *)
(** * The world: file system, observable events, exceptions *)
(* ===================================================================== *)

(** A resolved path: the segments below the root directory. *)
Abbreviation fspath := (list string).

Inductive stream := Stdout | Stderr.

(** What an observer of one run can see the program do, in the order it
    happens.  What a child process does on its own account (the files it
    writes, its traffic) is no event of the run: its files are in the file
    system it leaves behind. *)
Inductive event :=
| Console (st : stream) (text : string)   (* console.log / warn / error *)
| Exec (command : string)                 (* child_process.exec *)
| Asked (questions : list string)         (* inquirer.prompt *)
| HttpGet (url : string)                  (* axios.get *)
| FsMkdir (dir : fspath)                  (* a successful recursive mkdir *)
| FsWrite (file : fspath).                (* a successful file write *)

(** The content of a file is held as text: what [readFileSync(p, "utf8")]
    returns and what [writeFileSync] is given. *)
Record World := mkWorld {
  files : gmap fspath string;
  dirs : gset fspath;
  trace : list event
}.

(** A thrown value: an [Error] object (an axios error carries the status
    of the response it got, if any), or a bare string. *)
Inductive thrown :=
| Err (name message : string) (responseStatus : option nat)
| Thrown (s : string).

(** [error.message]; a string has no such property. *)
Definition messageOf (e : thrown) : string :=
  match e with
  | Err _ m _ => m
  | Thrown _ => "undefined"
  end.

(** [error.response?.status]. *)
Definition responseStatusOf (e : thrown) : option nat :=
  match e with
  | Err _ _ r => r
  | Thrown _ => None
  end.

(** How [console.error("...", error)] shows the value itself (the stack
    trace that follows an [Error]'s first line is left out). *)
Definition inspect (e : thrown) : string :=
  match e with
  | Err n m _ => n +:+ ": " +:+ m
  | Thrown s => s
  end.

Inductive outcome (A : Type) :=
| Ret (a : A)
| Throw (e : thrown).
Arguments Ret {A} a.
Arguments Throw {A} e.

(** Computations: a world in, an outcome and a world out.  [await] on a
    promise that rejects is a [Throw]. *)
Definition M (A : Type) : Type := World -> outcome A * World.

Definition ret {A} (a : A) : M A := fun w => (Ret a, w).
Definition throw {A} (e : thrown) : M A := fun w => (Throw e, w).
Definition bind {A B} (m : M A) (k : A -> M B) : M B :=
  fun w => match m w with
           | (Ret a, w') => k a w'
           | (Throw e, w') => (Throw e, w')
           end.
Definition tryCatch {A} (m : M A) (handler : thrown -> M A) : M A :=
  fun w => match m w with
           | (Ret a, w') => (Ret a, w')
           | (Throw e, w') => handler e w'
           end.

Notation "'let*' x ':=' m 'in' k" := (bind m (fun x => k))
  (at level 10, x name, m at level 100, k at level 200).

Definition emit (e : event) : M unit :=
  fun w => (Ret tt, mkWorld (files w) (dirs w) (trace w ++ [e])).

Definition console_log (text : string) : M unit := emit (Console Stdout text).
Definition console_warn (text : string) : M unit := emit (Console Stderr text).
Definition console_error (text : string) : M unit := emit (Console Stderr text).

(** Where a value of unknown shape must be a string. *)
Definition orThrow {A} (o : option A) (e : thrown) : M A :=
  match o with
  | Some a => ret a
  | None => throw e
  end.

(* ===================================================================== *)
(** * Node's [fs] and fs-extra *)
(* ===================================================================== *)

Module Fs.

(** Path resolution.  Every path the programs hand to [fs] is built from
    [process.cwd()], hence absolute: ".." at the root stays at the root.
    Symbolic links are not modelled.  Resolution is by the text of the
    path, which is what the operating system does with a normalised path,
    as [path.join] returns it; the one path the programs glue together
    themselves (the output file of the legacy [add]) is normalised when the
    component name holds no separator.  An operation fails for the reasons
    written out below and for no other: permissions, quotas and the limits
    the system puts on names are not modelled. *)
Definition resolve (p : string) : fspath :=
  rev (Path.normSegs false [] (Js.split Path.slash p)).

Definition isFile (w : World) (k : fspath) : bool :=
  bool_decide (is_Some (files w !! k)).

(** The root directory always exists. *)
Definition isDir (w : World) (k : fspath) : bool :=
  bool_decide (k = [] ∨ k ∈ dirs w).

Definition parent (k : fspath) : fspath := removelast k.

(** All initial segments of a path, the root first, the path itself last. *)
Fixpoint prefixes (k : fspath) : list fspath :=
  match k with
  | [] => [[]]
  | x :: r => [] :: map (cons x) (prefixes r)
  end.

Definition enoent (op p : string) : thrown :=
  Err "Error" ("ENOENT: no such file or directory, " +:+ op +:+ " '" +:+ p +:+ "'") None.
Definition eisdir (op p : string) : thrown :=
  Err "Error" ("EISDIR: illegal operation on a directory, " +:+ op +:+ " '" +:+ p +:+ "'") None.
Definition enotdir (op p : string) : thrown :=
  Err "Error" ("ENOTDIR: not a directory, " +:+ op +:+ " '" +:+ p +:+ "'") None.
Definition eexist (op p : string) : thrown :=
  Err "Error" ("EEXIST: file already exists, " +:+ op +:+ " '" +:+ p +:+ "'") None.
(** Opening a directory for reading succeeds; the read that follows fails,
    and its error names no path. *)
Definition eisdirRead : thrown :=
  Err "Error" "EISDIR: illegal operation on a directory, read" None.

Definition existsSync (p : string) : M bool :=
  fun w => let k := resolve p in (Ret (isFile w k || isDir w k), w).

Definition readFileSync (p : string) : M string :=
  fun w =>
    let k := resolve p in
    match files w !! k with
    | Some content => (Ret content, w)
    | None => if isDir w k then (Throw eisdirRead, w)
              else (Throw (enoent "open" p), w)
    end.

(** [fs.writeFileSync]: creates or overwrites; the parent directory must
    exist. *)
Definition writeFileSync (p content : string) : M unit :=
  fun w =>
    let k := resolve p in
    if isDir w k then (Throw (eisdir "open" p), w)
    else if isDir w (parent k) then
      (Ret tt, mkWorld (<[k := content]> (files w)) (dirs w) (trace w ++ [FsWrite k]))
    else if existsb (isFile w) (prefixes (parent k)) then (Throw (enotdir "open" p), w)
    else (Throw (enoent "open" p), w).

(** [mkdir -p] of the resolved directory [k] (named [p] in messages):
    fails when a regular file sits on the way. *)
Definition mkdirAt (op p : string) (k : fspath) : M unit :=
  fun w =>
    if isFile w k then (Throw (eexist op p), w)
    else if existsb (isFile w) (prefixes k) then (Throw (enotdir op p), w)
    else (Ret tt, mkWorld (files w) (dirs w ∪ list_to_set (prefixes k))
                   (trace w ++ [FsMkdir k])).

Definition mkdirp (op p : string) : M unit := mkdirAt op p (resolve p).

(** fs-extra's [ensureDirSync]. *)
Definition ensureDirSync (p : string) : M unit := mkdirp "mkdir" p.

(** [fs.mkdirSync(p, { recursive: true })]. *)
Definition mkdirSyncRecursive (p : string) : M unit := mkdirp "mkdir" p.

(** fs-extra's [outputFileSync]: makes the directory of the file when it is
    not there, then writes. *)
Definition outputFileSync (p content : string) : M unit :=
  fun w =>
    let d := parent (resolve p) in
    if isFile w d || isDir w d then writeFileSync p content w
    else match mkdirAt "mkdir" p d w with
         | (Ret _, w') => writeFileSync p content w'
         | (Throw e, w') => (Throw e, w')
         end.

(** The entries of a directory, by name, in the order the directory
    yields them. *)
Definition children (w : World) (k : fspath) : list string :=
  omap (fun c : fspath => if bool_decide (c ≠ [] ∧ parent c = k) then last c else None)
       (elements (dom (files w) ∪ dirs w)).

Definition readdirSync (p : string) : M (list string) :=
  fun w =>
    let k := resolve p in
    if isDir w k then (Ret (children w k), w)
    else if isFile w k then (Throw (enotdir "scandir" p), w)
    else (Throw (enoent "scandir" p), w).

End Fs.

(* ===================================================================== *)
(** * The collaborators *)
(* ===================================================================== *)

(** What the remote host (and the network on the way) does with a GET.
    [body] is the payload as text, decompressed and decoded. *)
Inductive reply :=
| Http (status : nat) (statusText : string) (body : string)
| NetworkError (message : string).

(** The two entries of the prompt's language list. *)
Inductive choice := JavaScript | TypeScript.

Definition label (c : choice) : string :=
  match c with
  | JavaScript => "JavaScript"
  | TypeScript => "TypeScript"
  end.

Record answers := mkAnswers { language : choice; directory : string }.

Inductive execResult :=
| ExecOk
| ExecFailed (stderr : string).

(** The environment of a run.  [babel] is given the value the program
    passes as code, whatever its type.  [npm] is how the child process
    ends; when it ends well, [installed] is the file system it leaves
    behind (the packages under [node_modules], the manifest, the lock
    file), as a function of the world it started in.  An installation that
    fails rolls back what it created. *)
Record Env := mkEnv {
  cwd : string;                                      (* process.cwd() *)
  remote : string -> reply;                          (* the static file host *)
  babel : Json.value -> string -> string + string;   (* code, filename; inr: throws *)
  prompt : answers + thrown;                         (* inquirer.prompt; inr: rejects *)
  npm : execResult;                                  (* the npm install child process *)
  installed : World -> World                         (* files and dirs after it succeeded *)
}.

Record response := mkResponse { status : nat; statusText : string; data : Json.value }.

(** The byte-order mark U+FEFF. *)
Definition bom : string :=
  String (ascii_of_nat 239) (String (ascii_of_nat 187) (String (ascii_of_nat 191) "")).

(** axios' [stripBOM], applied by its Node adapter to the response text. *)
Definition stripBOM (content : string) : string :=
  if Js.startsWith bom content then Js.drop 3 content else content.

(** axios' default [transformResponse]: a non-empty text that parses as
    JSON is replaced by the parsed value; any other text is kept. *)
Definition transformResponse (data : string) : Json.value :=
  if String.eqb data "" then Json.Str data
  else match Json.parse data with
       | Some v => v
       | None => Json.Str data
       end.

(** [response.data] for a payload [body]. *)
Definition responseData (body : string) : Json.value :=
  transformResponse (stripBOM body).

(** How the message of an [ERR_INVALID_ARG_TYPE] names what it received
    (a number is shown by its lexeme). *)
Definition received (v : Json.value) : string :=
  match v with
  | Json.Undefined => "undefined"
  | Json.Null => "null"
  | Json.Bool true => "type boolean (true)"
  | Json.Bool false => "type boolean (false)"
  | Json.Num n => "type number (" +:+ n +:+ ")"
  | Json.Str _ => "type string"
  | Json.Arr _ => "an instance of Array"
  | Json.Obj _ => "an instance of Object"
  end.

Section Collaborators.

Context (E : Env).

(** [axios.get(url)] with the client's defaults: a status outside 2xx
    rejects with an error that carries the response; a transport failure
    rejects with an error that carries none. *)
Definition axios_get (url : string) : M response :=
  let* _ := emit (HttpGet url) in
  match remote E url with
  | Http st txt body =>
      if (200 <=? st)%nat && (st <? 300)%nat
      then ret (mkResponse st txt (responseData body))
      else throw (Err "AxiosError"
                    ("Request failed with status code " +:+ Js.of_nat st) (Some st))
  | NetworkError msg => throw (Err "AxiosError" msg None)
  end.

(** [babel.transformSync(code, { presets, filename }).code]. *)
Definition babel_transformSync (code : Json.value) (filename : string) : M string :=
  match babel E code filename with
  | inl out => ret out
  | inr msg => throw (Err "SyntaxError" msg None)
  end.

(** [fs.writeFileSync(file, data)] for data of any type: what is not a
    string is refused before the file is opened. *)
Definition fs_writeFileSync (p : string) (data : Json.value) : M unit :=
  match data with
  | Json.Str content => Fs.writeFileSync p content
  | _ => throw (Err "TypeError"
                  ("The " +:+ Json.q +:+ "data" +:+ Json.q
                   +:+ " argument must be of type string or an instance of Buffer, "
                   +:+ "TypedArray, or DataView. Received " +:+ received data) None)
  end.

(** [inquirer.prompt(questions)]; the questions are named by their keys. *)
Definition inquirer_prompt (questions : list string) : M answers :=
  let* _ := emit (Asked questions) in
  match prompt E with
  | inl a => ret a
  | inr e => throw e
  end.

(** [exec(command, callback)]: the child process runs to its end, then
    the callback gets [(error, stderr)]. *)
Definition exec (command : string) : M execResult :=
  fun w =>
    match npm E with
    | ExecOk =>
        (Ret ExecOk,
         mkWorld (files (installed E w)) (dirs (installed E w)) (trace w ++ [Exec command]))
    | ExecFailed stderr =>
        (Ret (ExecFailed stderr), mkWorld (files w) (dirs w) (trace w ++ [Exec command]))
    end.

Definition JSON_parse (text : string) : M Json.value :=
  orThrow (Json.parse text) (Err "SyntaxError" "Unexpected token in JSON" None).

(** [path.join] checks, from the left, that every argument is a string. *)
Fixpoint firstNonString (args : list Json.value) : option Json.value :=
  match args with
  | [] => None
  | Json.Str _ :: r => firstNonString r
  | v :: _ => Some v
  end.

Definition path_join (args : list Json.value) : M string :=
  match firstNonString args with
  | Some v =>
      throw (Err "TypeError" ("The " +:+ Json.q +:+ "path" +:+ Json.q
                              +:+ " argument must be of type string. Received "
                              +:+ received v) None)
  | None =>
      ret (Path.join (omap (fun v => match v with Json.Str s => Some s | _ => None end) args))
  end.

End Collaborators.

(** [process.argv.slice(2)] destructured as [[action, componentName]]:
    a missing position is [undefined]. *)
Definition argAt (argv : list string) (i : nat) : option string := argv !! i.

(** Truthiness of a possibly missing string argument. *)
Definition truthy (a : option string) : bool :=
  match a with
  | Some s => negb (String.eqb s "")
  | None => false
  end.

Definition nl : string := Json.nl.

(* ===================================================================== *)
(** * The current program *)
(* ===================================================================== *)

Module Current.

Definition DEFAULT_COMPONENT_PATH : string := "src/app/".
Definition GITHUB_REPO : string := "om0852/multi-ui".
Definition COMPONENTS_PATH : string := "src/app".

Definition usage : string :=
  nl +:+ "Usage:" +:+ nl
  +:+ "  npx multi-ui setup          - Set up the project (choose language and path)" +:+ nl
  +:+ "  npx multi-ui add <ComponentName> - Create a new component" +:+ nl
  +:+ "      ".

Definition missingName : string :=
  "Please provide a component name. Usage: npx multi-ui add <ComponentName>".

Definition installCommand : string :=
  "npm install --save-dev @babel/preset-react @babel/preset-typescript".

Definition noPreference : string :=
  "No preference found. Defaulting to TypeScript and default folder structure.".

(** The URL [fetchComponentFromGitHub] builds. *)
Definition componentBaseName (componentName : string) : string :=
  Js.first (Js.split "_" (Js.toLowerCase componentName)).

Definition componentUrl (componentName : string) : string :=
  "https://raw.githubusercontent.com/" +:+ GITHUB_REPO +:+ "/main/app/"
  +:+ componentBaseName componentName +:+ "/_components/" +:+ componentName +:+ ".tsx".

Definition notFoundMessage (componentName url : string) : string :=
  "Component '" +:+ componentName +:+ "' not found at path: " +:+ url +:+ nl
  +:+ "Please check the component name and path.".

(** The object [setupProject] serialises. *)
Definition configOf (lang componentPath : string) : list (string * string) :=
  [("language", lang); ("componentPath", componentPath)].

Definition defaultPreference : Json.value :=
  Json.Obj [("language", Json.Str "typescript");
            ("componentPath", Json.Str (DEFAULT_COMPONENT_PATH +:+ "multi-ui/components"))].

Section Program.

Context (E : Env).

Definition CONFIG_FILE : string := Path.join [cwd E; "multi-ui.config.json"].

(** [fs.writeFileSync(CONFIG_FILE, JSON.stringify(config, null, 2))]. *)
Definition writeConfig (config : list (string * string)) : M unit :=
  Fs.writeFileSync CONFIG_FILE (Json.stringify config).

Definition installBabelPresets : M unit :=
  let* r := exec E installCommand in
  match r with
  | ExecFailed stderr => throw (Thrown ("Error installing Babel presets: " +:+ stderr))
  | ExecOk => ret tt
  end.

Definition setupProject : M unit :=
  tryCatch
    (let* a := inquirer_prompt E ["language"; "directory"] in
     let resolvedPath := Path.join [directory a; "multi-ui"; "components"] in
     let config := configOf (Js.toLowerCase (label (language a))) resolvedPath in
     let* _ := writeConfig config in
     console_log ("Setup complete! Language: " +:+ label (language a)
                  +:+ ", Components Path: " +:+ resolvedPath))
    (fun error => console_error ("Setup failed: " +:+ messageOf error)).

Definition getPreference : M Json.value :=
  let* present := Fs.existsSync CONFIG_FILE in
  if present then
    let* text := Fs.readFileSync CONFIG_FILE in
    let* config := JSON_parse text in
    ret config
  else
    let* _ := console_warn noPreference in
    ret defaultPreference.

Definition fetchComponentFromGitHub (componentName : string) : M Json.value :=
  let url := componentUrl componentName in
  tryCatch
    (let* response := axios_get E url in
     if (status response =? 200)%nat then ret (data response)
     else throw (Err "Error" ("Failed to fetch component: " +:+ statusText response) None))
    (fun error =>
       if bool_decide (responseStatusOf error = Some 404)
       then throw (Err "Error" (notFoundMessage componentName url) None)
       else throw (Err "Error" ("Error fetching component: " +:+ messageOf error) None)).

Definition convertTsxToJsx (tsxCode : Json.value) (fileName : string) : M string :=
  babel_transformSync E tsxCode fileName.

(** Destructuring [{ language, componentPath }] out of the preference. *)
Definition destructure (pref : Json.value) : M (Json.value * Json.value) :=
  let e := Err "TypeError" "Cannot destructure property 'language'" None in
  let* lang := orThrow (Json.getProp pref "language") e in
  let* componentPath := orThrow (Json.getProp pref "componentPath") e in
  ret (lang, componentPath).

Definition extensionOf (lang : Json.value) : string :=
  if Json.isString lang "javascript" then "jsx" else "tsx".

(** The two path constants of [createComponent]. *)
Definition componentDirOf (componentPath : string) : string :=
  Path.join [cwd E; componentPath].

Definition componentFileOf (componentDir componentName extension : string) : string :=
  Path.join [componentDir; componentName +:+ "." +:+ extension].

(** The [try] block of [createComponent]. *)
Definition tryBlock (componentName : string) (lang : Json.value) (componentDir : string)
  : M unit :=
  let extension := extensionOf lang in
  let* _ := Fs.ensureDirSync componentDir in
  let componentFile := componentFileOf componentDir componentName extension in
  let* _ := console_log ("Fetching " +:+ componentName +:+ " from GitHub...") in
  let* componentCode := fetchComponentFromGitHub componentName in
  let* _ :=
    if Json.isString lang "javascript" then
      let* jsxCode := convertTsxToJsx componentCode (componentName +:+ ".tsx") in
      Fs.writeFileSync componentFile jsxCode
    else fs_writeFileSync componentFile componentCode in
  console_log ("Component created at: " +:+ componentFile).

Definition createComponent (componentName : string) : M unit :=
  let* pref := getPreference in
  let* lc := destructure pref in
  let* componentDir := path_join [Json.Str (cwd E); snd lc] in
  tryCatch (tryBlock componentName (fst lc) componentDir)
    (fun error => console_error ("Error creating component: " +:+ messageOf error)).

(** The [switch (action)] of the CLI handler, case by case. *)
Definition main (argv : list string) : M unit :=
  let action := argAt argv 0 in
  let componentName := argAt argv 1 in
  if bool_decide (action = Some "setup") then
    let* _ := installBabelPresets in
    setupProject
  else if bool_decide (action = Some "add") then
    if negb (truthy componentName) then console_error missingName
    else createComponent (default "" componentName)
  else console_log usage.

(** The script's last statement: [main().catch(...)]. *)
Definition run (argv : list string) : M unit :=
  tryCatch (main argv)
    (fun error => console_error ("Unexpected error: " +:+ messageOf error)).

End Program.

End Current.

(* ===================================================================== *)
(** * The legacy program *)
(* ===================================================================== *)

Module Legacy.

Definition GITHUB_REPO : string := "om0852/multi-ui".
Definition COMPONENTS_PATH : string := "src/app".

Definition usage : string :=
  "Usage:" +:+ nl
  +:+ "  npx multi-ui setup         - Set up the project" +:+ nl
  +:+ "  npx multi-ui add <ComponentName> - Create a new component".

Definition noPreference : string := "No preference found. Defaulting to TypeScript.".

Definition componentUrl (componentName : string) : string :=
  "https://raw.githubusercontent.com/" +:+ GITHUB_REPO +:+ "/main/" +:+ COMPONENTS_PATH
  +:+ "/" +:+ Js.first (Js.split "_" (Js.toLowerCase componentName))
  +:+ "/_components/" +:+ componentName +:+ ".tsx".

Section Program.

Context (E : Env).

Definition preferenceFile : string := Path.join [cwd E; "multi-ui.config.json"].

(** [fs.writeFileSync(preferenceFile, JSON.stringify(preference, null, 2))]. *)
Definition writePreference (preference : list (string * string)) : M unit :=
  Fs.writeFileSync preferenceFile (Json.stringify preference).

Definition setupProject : M unit :=
  tryCatch
    (let* a := inquirer_prompt E ["language"] in
     let preference := [("language", Js.toLowerCase (label (language a)))] in
     let* _ := writePreference preference in
     console_log ("Project setup complete! Language preference saved: "
                  +:+ label (language a)))
    (fun error => console_error ("Error during setup: " +:+ inspect error)).

Definition getPreference : M Json.value :=
  let* present := Fs.existsSync preferenceFile in
  if present then
    let* text := Fs.readFileSync preferenceFile in
    let* preference := JSON_parse text in
    orThrow (Json.getProp preference "language")
      (Err "TypeError" "Cannot read properties of null (reading 'language')" None)
  else
    let* _ := console_warn noPreference in
    ret (Json.Str "typescript").

Definition fetchComponentFromGitHub (componentName : string) : M Json.value :=
  tryCatch
    (let url := componentUrl componentName in
     let* response := axios_get E url in
     if (status response =? 200)%nat then ret (data response)
     else throw (Err "Error" ("Failed to fetch component from GitHub: "
                              +:+ Js.of_nat (status response)) None))
    (fun error =>
       let* _ := console_error ("Error fetching component from GitHub: " +:+ messageOf error) in
       throw error).

(** The body of the [forEach] callback. *)
Definition convertOne (inputDir outputDir file : string) : M unit :=
  let ext := Path.extname file in
  if String.eqb ext ".tsx" then
    let filePath := Path.join [inputDir; file] in
    let outputFilePath := Path.join [outputDir; Js.replace ".tsx" ".jsx" file] in
    let* code := Fs.readFileSync filePath in
    let* transformed := babel_transformSync E (Json.Str code) file in
    let* _ := Fs.outputFileSync outputFilePath transformed in
    console_log ("Converted: " +:+ file +:+ " -> " +:+ outputFilePath)
  else ret tt.

Fixpoint forEach {A} (l : list A) (f : A -> M unit) : M unit :=
  match l with
  | [] => ret tt
  | x :: r => let* _ := f x in forEach r f
  end.

Definition convertTsxToJsx (inputDir outputDir : string) : M unit :=
  let* entries := Fs.readdirSync inputDir in
  forEach entries (convertOne inputDir outputDir).

Definition createComponent (componentName : string) : M unit :=
  tryCatch
    (let* lang := getPreference in
     let extension := if Json.isString lang "javascript" then "jsx" else "tsx" in
     let componentPath := Path.join [cwd E; "multi-ui"; "components"] in
     let componentFile := componentPath +:+ "/" +:+ componentName +:+ "." +:+ extension in
     let* present := Fs.existsSync componentPath in
     let* _ := if negb present then Fs.mkdirSyncRecursive componentPath else ret tt in
     let* _ := console_log ("Fetching " +:+ componentName +:+ " from GitHub...") in
     let* componentCode := fetchComponentFromGitHub componentName in
     if Json.isString lang "javascript" then
       let* _ := console_log ("Converting " +:+ componentName +:+ " to JavaScript...") in
       let inputDir := Path.join [cwd E; "multi-ui"; "components"; componentName] in
       let outputDir := Path.join [cwd E; "multi-ui"; "components"; "converted"] in
       convertTsxToJsx inputDir outputDir
     else
       let* _ := fs_writeFileSync componentFile componentCode in
       console_log (componentName +:+ " created at " +:+ componentFile))
    (fun error => console_error ("Error creating component: " +:+ inspect error)).

Definition main (argv : list string) : M unit :=
  let action := argAt argv 0 in
  let componentName := argAt argv 1 in
  if bool_decide (action = Some "setup") then setupProject
  else if bool_decide (action = Some "add") && truthy componentName
  then createComponent (default "" componentName)
  else console_log usage.

(** The script's last statement: [main()]. *)
Definition run (argv : list string) : M unit := main argv.

End Program.

End Legacy.

(* ===================================================================== *)
(** * A sample project *)
(* ===================================================================== *)

Module Demo.

Definition home : fspath := ["home"; "user"; "project"].

(** A fresh project directory: no files yet. *)
Definition project : World :=
  mkWorld ∅ (list_to_set (Fs.prefixes home)) [].

Definition source : string := "export default function Button(){}".

(** A stand-in for Babel: it marks the source it was given, and refuses
    the empty source and what is no source at all. *)
Definition transform (code : Json.value) (filename : string) : string + string :=
  match code with
  | Json.Str text =>
      if String.eqb text "" then inr ("Unexpected token in " +:+ filename)
      else inl ("/* " +:+ filename +:+ " */ " +:+ text)
  | _ => inr ("Unexpected token in " +:+ filename)
  end.

(** A stand-in for a successful [npm install --save-dev]: a manifest, a
    lock file and the packages. *)
Definition npmInstall (w : World) : World :=
  mkWorld
    (<[home ++ ["package.json"] := "{ manifest }"]>
       (<[home ++ ["package-lock.json"] := "{ lock }"]>
          (<[home ++ ["node_modules"; ".package-lock.json"] := "{ lock }"]> (files w))))
    (dirs w ∪ {[ home ++ ["node_modules"] ]})
    (trace w).

Definition env (r : reply) (c : choice) (d : string) (n : execResult) : Env :=
  mkEnv "/home/user/project" (fun _ => r) transform (inl (mkAnswers c d)) n npmInstall.

(** The environment of the end-to-end scenarios. *)
Definition scenario (r : reply) : Env := env r TypeScript "app/" ExecOk.

(** The same, with an installation step that fails. *)
Definition brokenInstall : Env :=
  env (Http 200 "OK" source) TypeScript "app/" (ExecFailed "npm ERR! network").

(** The same project once [setup] stored a preference. *)
Definition configured (lang componentPath : string) : World :=
  mkWorld {[ home ++ ["multi-ui.config.json"]
             := Json.stringify [("language", lang); ("componentPath", componentPath)] ]}
    (list_to_set (Fs.prefixes home)) [].

(** The project once the legacy [setup] stored a language. *)
Definition legacyConfigured (lang : string) : World :=
  mkWorld {[ home ++ ["multi-ui.config.json"] := Json.stringify [("language", lang)] ]}
    (list_to_set (Fs.prefixes home)) [].

(** The project with a regular file where the component directory of the
    default preference should go. *)
Definition blocked : World :=
  mkWorld {[ home ++ ["src"] := "not a directory" ]} (list_to_set (Fs.prefixes home)) [].

Definition ok : reply := Http 200 "OK" source.
Definition notFound : reply := Http 404 "Not Found" "404: Not Found".
Definition noContent : reply := Http 204 "No Content" "".

End Demo.

(* ===================================================================== *)
(** * Vocabulary of the statements *)
(* ===================================================================== *)

(** The world a computation leaves behind, and what it returned. *)
Definition after {A} (m : M A) (w : World) : World := snd (m w).
Definition result {A} (m : M A) (w : World) : outcome A := fst (m w).


(** A path segment that names an entry: not empty, not "." or "..", and
    free of separators. *)
Definition plain (seg : string) : Prop :=
  seg ≠ "" ∧ seg ≠ "." ∧ seg ≠ ".." ∧ Js.contains Path.slash seg = false.

(** Resolution of [b] relative to the resolved directory [base]. *)
Definition resolveFrom (base : fspath) (b : string) : fspath :=
  rev (Path.normSegs false (rev base) (Js.split Path.slash b)).

(** [k] lies in the directory [d] or below it. *)
Definition inside (d k : fspath) : Prop := d `prefix_of` k.

(** The world with one more GET logged. *)
Definition requested (w : World) (url : string) : World :=
  mkWorld (files w) (dirs w) (trace w ++ [HttpGet url]).

(** The message that the generic fetch error of the current program
    wraps: the status text of a 2xx answer other than 200, the client's
    message for any other status, the transport's message otherwise. *)
Definition underlying (r : reply) : string :=
  match r with
  | Http st txt _ =>
      if (200 <=? st)%nat && (st <? 300)%nat then "Failed to fetch component: " +:+ txt
      else "Request failed with status code " +:+ Js.of_nat st
  | NetworkError msg => msg
  end.

(** The preference that an [add] started in [w] reads has this language
    and this component path. *)
Definition stored (E : Env) (w : World) (lang : Json.value) (componentPath : string) : Prop :=
  ∃ pref, result (Current.getPreference E) w = Ret pref
          ∧ Json.getProp pref "language" = Some lang
          ∧ Json.getProp pref "componentPath" = Some (Json.Str componentPath).

(** No regular file sits at [p] or on the way to it. *)
Definition mkdirPossible (w : World) (p : string) : Prop :=
  existsb (Fs.isFile w) (Fs.prefixes (Fs.resolve p)) = false.

(** The world once [p] and its ancestors are directories. *)
Definition madeDir (w : World) (p : string) : World :=
  mkWorld (files w) (dirs w ∪ list_to_set (Fs.prefixes (Fs.resolve p))) (trace w).

(** The parent of [p] is a directory and [p] itself is not one. *)
Definition writePossible (w : World) (p : string) : Prop :=
  Fs.isDir w (Fs.resolve p) = false ∧ Fs.isDir w (Fs.parent (Fs.resolve p)) = true.

(** Text that [fs] takes as part of a path: it holds no NUL character. *)
Definition pathText (s : string) : Prop := Js.contains (ascii_of_nat 0) s = false.

(** The payload reaches the program as the host sent it: axios finds no
    byte-order mark to strip and no JSON to parse. *)
Definition verbatim (body : string) : Prop := responseData body = Json.Str body.


(** The progress line of [createComponent]. *)
Definition fetching (N : string) : event :=
  Console Stdout ("Fetching " +:+ N +:+ " from GitHub...").

(** The run prints the usage text on standard output, does nothing else
    and ends normally. *)
Definition printsUsage (E : Env) (argv : list string) (w : World) : Prop :=
  Current.run E argv w
  = (Ret tt, mkWorld (files w) (dirs w) (trace w ++ [Console Stdout Current.usage])).

(** The events a run appended to the trace. *)
Definition said (w w' : World) (evs : list event) : Prop := trace w' = trace w ++ evs.

(** Every event a computation appends satisfies [P], whatever the world
    it starts in. *)
Definition emitsOnly {A} (P : event -> Prop) (m : M A) : Prop :=
  ∀ w, ∃ evs, said w (after m w) evs ∧ Forall P evs.

(** Not the spawning of a child process. *)
Definition notExec (e : event) : Prop := ∀ c, e ≠ Exec c.

(** During a [setup] run the prompt was shown and the preference file
    written: the steps that follow the installation were not blocked. *)
Definition setupContinues (E : Env) (w : World) : Prop :=
  ∃ evs, said w (after (Current.run E ["setup"]) w) evs
         ∧ In (Asked ["language"; "directory"]) evs
         ∧ In (FsWrite (Fs.resolve (Current.CONFIG_FILE E))) evs.

(* ===================================================================== *)
(** * The bundled components: their state logic *)
(* ===================================================================== *)

(** [arr.includes(x)]. *)
Definition includes {A} `{EqDecision A} (l : list A) (x : A) : bool :=
  bool_decide (x ∈ l).

(** [arr.filter(item => item !== x)]. *)
Definition without {A} `{EqDecision A} (l : list A) (x : A) : list A :=
  filter (fun item => item ≠ x) l.

Module Accordion.

(** [useState([])]. *)
Definition initial : list nat := [].

(** [handleClick], as the next value of [openIndexes]. *)
Definition handleClick (allowMultiple : bool) (openIndexes : list nat) (index : nat)
  : list nat :=
  if allowMultiple then
    if includes openIndexes index then without openIndexes index
    else openIndexes ++ [index]
  else
    if includes openIndexes index then [] else [index].

(** The [isOpen] property an item is rendered with. *)
Definition isOpen (openIndexes : list nat) (index : nat) : bool :=
  includes openIndexes index.

End Accordion.

Module Dropdown_5.

Definition options : list string :=
  ["Option 1"; "Option 2"; "Option 3"; "Option 4"; "Option 5"; "Option 6"; "Option 7"].

(** The three [useState] cells. *)
Record state := mkState {
  isOpen : bool;
  selectedOptions : list string;
  selectAllChecked : bool
}.

Definition initial : state := mkState false [] false.

Definition toggleDropdown (s : state) : state :=
  mkState (negb (isOpen s)) (selectedOptions s) (selectAllChecked s).

(** [isChecked] is [e.target.checked]. *)
Definition handleSelectAllChange (isChecked : bool) (s : state) : state :=
  mkState (isOpen s) (if isChecked then options else []) isChecked.

Definition handleOptionChange (option : string) (s : state) : state :=
  let prev := selectedOptions s in
  mkState (isOpen s)
    (if includes prev option then without prev option else prev ++ [option])
    (selectAllChecked s).


(** The document's click listener.  Whether each ref is mounted and whether
    it contains the click's target is the DOM's to say. *)
Definition handleClickOutside (buttonMounted inButton menuMounted inMenu : bool) (s : state)
  : state :=
  if buttonMounted && negb inButton && menuMounted && negb inMenu
  then mkState false (selectedOptions s) (selectAllChecked s)
  else s.

(** What the rendered checkbox of [option] shows. *)
Definition checked (s : state) (option : string) : bool :=
  includes (selectedOptions s) option.

End Dropdown_5.

(** ** Vocabulary for the components *)

(** The accordion after a series of clicks on a fresh mount.  [handleClick]
    reads [openIndexes] from its closure: each click is handled after the
    render that followed the one before. *)
Definition clicks (allowMultiple : bool) (cs : list nat) : list nat :=
  fold_left (Accordion.handleClick allowMultiple) cs Accordion.initial.

(** What a user can do to the dropdown. *)
Inductive gesture :=
| PressButton
| TickSelectAll (isChecked : bool)
| TickOption (option : string)
| ClickElsewhere (buttonMounted inButton menuMounted inMenu : bool).

Definition react (s : Dropdown_5.state) (g : gesture) : Dropdown_5.state :=
  match g with
  | PressButton => Dropdown_5.toggleDropdown s
  | TickSelectAll b => Dropdown_5.handleSelectAllChange b s
  | TickOption o => Dropdown_5.handleOptionChange o s
  | ClickElsewhere bm ib mm im => Dropdown_5.handleClickOutside bm ib mm im s
  end.

(** The menu only renders checkboxes for the options it has. *)
Definition offered (g : gesture) : Prop :=
  match g with
  | TickOption o => o ∈ Dropdown_5.options
  | _ => True
  end.

(** The URLs of the GETs among some events. *)
Definition gets (evs : list event) : list string :=
  omap (fun e => match e with HttpGet u => Some u | _ => None end) evs.

Definition notGet (e : event) : Prop := ∀ u, e ≠ HttpGet u.

(** A computation issues no GET, or exactly one, to [url]. *)
Definition atMostOneGet {A} (url : string) (m : M A) : Prop :=
  ∀ w, ∃ evs, said w (after m w) evs ∧ (gets evs = [] ∨ gets evs = [url]).

(** The dropdown after a series of gestures on a fresh mount. *)
Definition gestures (gs : list gesture) : Dropdown_5.state :=
  fold_left react gs Dropdown_5.initial.

(** The value of the last tick of the select-all box, starting from
    [flag]. *)
Fixpoint lastSelectAll (gs : list gesture) (flag : bool) : bool :=
  match gs with
  | [] => flag
  | TickSelectAll b :: r => lastSelectAll r b
  | _ :: r => lastSelectAll r flag
  end.

(** The selection holds no option twice and only options of the menu. *)
Definition tidy (s : Dropdown_5.state) : Prop :=
  NoDup (Dropdown_5.selectedOptions s)
  ∧ ∀ o, o ∈ Dropdown_5.selectedOptions s → o ∈ Dropdown_5.options.

(** The world once a program that makes [p] only when nothing is there has
    made sure of it. *)
Definition ensured (w : World) (p : string) : World :=
  if Fs.isDir w (Fs.resolve p) then w else madeDir w p.

Example split_ex1 : Js.split "_" "dropdown_5" = ["dropdown"; "5"].
Proof. reflexivity. Qed.
Example split_ex2 : Js.split "_" "" = [""].
Proof. reflexivity. Qed.
Example join_ex1 : Path.join ["app/"; "multi-ui"; "components"] = "app/multi-ui/components".
Proof. vm_compute. reflexivity. Qed.
Example join_ex2 : Path.join ["/home/u"; "../../../x"; "a.tsx"] = "/x/a.tsx".
Proof. vm_compute. reflexivity. Qed.
Example join_ex3 : Path.join [""; "multi-ui"; "components"] = "multi-ui/components".
Proof. vm_compute. reflexivity. Qed.
Example join_ex4 : Path.join ["a"; "../../b/"] = "../b/".
Proof. vm_compute. reflexivity. Qed.
Example ext_ex : map Path.extname ["a.tsx"; ".tsx"; "..tsx"; ".."; "a"; "a."; "x.y.tsx"]
  = [".tsx"; ""; ".tsx"; ""; ""; "."; ".tsx"].
Proof. vm_compute. reflexivity. Qed.
Example replace_ex : Js.replace ".tsx" ".jsx" "a.tsx.tsx" = "a.jsx.tsx".
Proof. vm_compute. reflexivity. Qed.

Example json_ex1 :
  Json.stringify [("language", "typescript"); ("componentPath", "app/multi-ui/components")]
  = "{" +:+ Json.nl +:+ "  " +:+ Json.q +:+ "language" +:+ Json.q +:+ ": " +:+ Json.q
    +:+ "typescript" +:+ Json.q +:+ "," +:+ Json.nl +:+ "  " +:+ Json.q +:+ "componentPath"
    +:+ Json.q +:+ ": " +:+ Json.q +:+ "app/multi-ui/components" +:+ Json.q +:+ Json.nl +:+ "}".
Proof. vm_compute. reflexivity. Qed.
Example json_ex2 :
  Json.parse (Json.stringify [("language", "type" +:+ Json.q +:+ "s\cript"
    +:+ Json.nl); ("componentPath", "app/multi-ui/components")])
  = Some (Json.Obj [("language", Json.Str ("type" +:+ Json.q +:+ "s\cript" +:+ Json.nl));
                    ("componentPath", Json.Str "app/multi-ui/components")]).
Proof. vm_compute. reflexivity. Qed.
Example json_ex3 :
  Json.parse ("{ " +:+ Json.q +:+ "a" +:+ Json.q +:+ ": [1, -2.5e3, true, null, {" +:+ Json.q
    +:+ "b" +:+ Json.q +:+ ": " +:+ Json.q +:+ "A\n" +:+ Json.q +:+ "}], " +:+ Json.q +:+ "a"
    +:+ Json.q +:+ ": {} }")
  = Some (Json.Obj [("a", Json.Arr [Json.Num "1"; Json.Num "-2.5e3"; Json.Bool true; Json.Null;
                                    Json.Obj [("b", Json.Str ("A" +:+ Json.nl))]]);
                    ("a", Json.Obj [])]).
Proof. vm_compute. reflexivity. Qed.
Example json_ex4 :
  map Json.parse ["{"; "01"; "tru"; "{" +:+ Json.q +:+ "a" +:+ Json.q
    +:+ ":1,}"; "1 2"; EmptyString]
  = [None; None; None; None; None; None].
Proof. vm_compute. reflexivity. Qed.

(* ===================================================================== *)
(** * Strings and paths *)
(* ===================================================================== *)

Section StringFacts.

Lemma app_empty_r (s : string) : s +:+ "" = s.
Proof. induction s as [|c s IH]; simpl; [reflexivity | now rewrite IH]. Qed.

Lemma app_assoc_str (a b c : string) : (a +:+ b) +:+ c = a +:+ (b +:+ c).
Proof. induction a as [|x a IH]; simpl; [reflexivity | now rewrite IH]. Qed.

Lemma split_nonempty c s : Js.split c s ≠ [].
Proof.
  destruct s as [|a s]; simpl; [discriminate |].
  destruct (Ascii.eqb a c); [discriminate |].
  destruct (Js.split c s); discriminate.
Qed.

Lemma split_app c a b :
  Js.split c (a +:+ String c b) = Js.split c a ++ Js.split c b.
Proof.
  induction a as [|x a IH]; simpl.
  - now rewrite Ascii.eqb_refl.
  - destruct (Ascii.eqb x c); [now rewrite IH |].
    rewrite IH. pose proof (split_nonempty c a) as Hne.
    destruct (Js.split c a); [contradiction | reflexivity].
Qed.

Lemma split_without c s : Js.contains c s = false → Js.split c s = [s].
Proof.
  induction s as [|a s IH]; simpl; [reflexivity |].
  intros H. apply orb_false_iff in H as [Ha Hs].
  rewrite Ha, (IH Hs). reflexivity.
Qed.

Lemma split_free c s : Forall (fun x => Js.contains c x = false) (Js.split c s).
Proof.
  induction s as [|a s IH]; simpl.
  - constructor; [reflexivity | constructor].
  - destruct (Ascii.eqb a c) eqn:Ha.
    + constructor; [reflexivity | exact IH].
    + destruct (Js.split c s) as [|h t]; inversion IH; subst;
        constructor; simpl; try rewrite Ha; auto.
Qed.

Lemma split_join (l : list string) :
  l ≠ [] → Forall (fun x => Js.contains Path.slash x = false) l →
  Js.split Path.slash (Js.join "/" l) = l.
Proof.
  induction l as [|x l IH]; [congruence |]. intros _ Hall.
  inversion Hall as [|? ? Hx Hl]; subst.
  destruct l as [|y r].
  - simpl. now apply split_without.
  - change (Js.join "/" (x :: y :: r)) with (x +:+ String Path.slash (Js.join "/" (y :: r))).
    rewrite split_app, (split_without _ _ Hx), IH; [reflexivity | discriminate | exact Hl].
Qed.







End StringFacts.

Section PathFacts.

Lemma string_eqb_neq (a b : string) : a ≠ b → String.eqb a b = false.
Proof. intros H. now apply String.eqb_neq. Qed.

Lemma step_plain b st seg : plain seg → Path.step b st seg = seg :: st.
Proof.
  intros (H1 & H2 & H3 & _). unfold Path.step.
  now rewrite !string_eqb_neq.
Qed.

Lemma normSegs_plain b st l :
  Forall plain l → Path.normSegs b st l = rev l ++ st.
Proof.
  unfold Path.normSegs. revert st.
  induction l as [|x l IH]; intros st Hall; simpl; [reflexivity |].
  inversion Hall; subst. rewrite step_plain, IH by assumption.
  now rewrite <- app_assoc.
Qed.

Lemma step_keeps_plain st seg :
  Forall plain st → Js.contains Path.slash seg = false →
  Forall plain (Path.step false st seg).
Proof.
  intros Hst Hseg. unfold Path.step.
  destruct (String.eqb seg "") eqn:E1; [assumption |].
  destruct (String.eqb seg ".") eqn:E2; [assumption |].
  destruct (String.eqb seg "..") eqn:E3.
  - destruct st as [|top rest]; [constructor |].
    inversion Hst as [|? ? Htop Hrest]; subst.
    destruct Htop as (_ & _ & Hdd & _).
    now rewrite (string_eqb_neq _ _ Hdd).
  - constructor; [| assumption].
    apply String.eqb_neq in E1, E2, E3. now repeat split.
Qed.

Lemma normSegs_keeps_plain st l :
  Forall plain st → Forall (fun x => Js.contains Path.slash x = false) l →
  Forall plain (Path.normSegs false st l).
Proof.
  unfold Path.normSegs. revert st.
  induction l as [|x l IH]; intros st Hst Hl; simpl; [assumption |].
  inversion Hl; subst. apply IH; [now apply step_keeps_plain | assumption].
Qed.

Lemma resolve_plain p : Forall plain (Fs.resolve p).
Proof.
  unfold Fs.resolve. apply Forall_rev.
  apply normSegs_keeps_plain; [constructor | apply split_free].
Qed.

Lemma resolveFrom_plain base b : Forall plain base → Forall plain (resolveFrom base b).
Proof.
  intros H. unfold resolveFrom. apply Forall_rev.
  apply normSegs_keeps_plain; [now apply Forall_rev | apply split_free].
Qed.

Lemma join_plain_empty (l : list string) :
  Forall plain l → Js.join "/" l = "" → l = [].
Proof.
  destruct l as [|x l]; [reflexivity |]. intros Hall Hj.
  inversion Hall as [|? ? (Hx & _) _]; subst.
  destruct l; simpl in Hj; [congruence |].
  destruct x; [congruence | discriminate].
Qed.

Lemma resolve_slash_l p : Fs.resolve (String Path.slash p) = Fs.resolve p.
Proof. reflexivity. Qed.

Lemma resolve_slash_r p : Fs.resolve (p +:+ "/") = Fs.resolve p.
Proof.
  unfold Fs.resolve, Path.normSegs.
  change (p +:+ "/") with (p +:+ String Path.slash "").
  rewrite split_app, fold_left_app. reflexivity.
Qed.

Lemma resolve_app p b :
  Fs.resolve (p +:+ String Path.slash b) = resolveFrom (Fs.resolve p) b.
Proof.
  unfold Fs.resolve, resolveFrom, Path.normSegs.
  now rewrite split_app, fold_left_app, rev_involutive.
Qed.

Lemma resolveFrom_root b : resolveFrom [] b = Fs.resolve b.
Proof. reflexivity. Qed.

Lemma resolveFrom_empty base : resolveFrom base "" = base.
Proof. unfold resolveFrom. simpl. apply rev_involutive. Qed.

Lemma resolveFrom_name base f : plain f → resolveFrom base f = base ++ [f].
Proof.
  intros Hf. unfold resolveFrom.
  destruct Hf as (H1 & H2 & H3 & H4).
  rewrite (split_without _ _ H4).
  unfold Path.normSegs. simpl. rewrite step_plain by now repeat split.
  simpl. now rewrite rev_involutive.
Qed.

(** Resolving a normalised absolute path gives what resolving the path
    itself gives. *)
Lemma resolve_normalize p :
  Path.isAbsolute p = true → Fs.resolve (Path.normalize p) = Fs.resolve p.
Proof.
  intros Habs. unfold Path.normalize.
  destruct p as [|c p']; [discriminate |].
  change (String.eqb (String c p') "") with false. cbv iota.
  rewrite Habs. cbn [negb].
  pose proof (resolve_plain (String c p')) as Hplain.
  unfold Fs.resolve in *.
  set (segs := Path.normSegs false [] (Js.split Path.slash (String c p'))) in *.
  destruct (String.eqb (Js.join "/" (rev segs)) "") eqn:Hb.
  - apply String.eqb_eq in Hb. rewrite (join_plain_empty _ Hplain Hb). reflexivity.
  - apply String.eqb_neq in Hb.
    assert (Hne : rev segs ≠ []) by (intros Hnil; rewrite Hnil in Hb; now apply Hb).
    assert (Hfree : Forall (fun x => Js.contains Path.slash x = false) (rev segs)).
    { eapply Forall_impl; [exact Hplain |]. now intros x (_ & _ & _ & Hx). }
    assert (Hbody : rev (Path.normSegs false [] (Js.split Path.slash (Js.join "/" (rev segs))))
                    = rev segs).
    { rewrite (split_join _ Hne Hfree), (normSegs_plain _ _ _ Hplain).
      now rewrite app_nil_r, rev_involutive. }
    destruct (Path.hasTrailingSlash (String c p')).
    + change ("/" +:+ (Js.join "/" (rev segs) +:+ "/"))
        with (String Path.slash (Js.join "/" (rev segs) +:+ "/")).
      fold (Fs.resolve (String Path.slash (Js.join "/" (rev segs) +:+ "/"))).
      rewrite resolve_slash_l, resolve_slash_r. exact Hbody.
    + change ("/" +:+ Js.join "/" (rev segs))
        with (String Path.slash (Js.join "/" (rev segs))).
      fold (Fs.resolve (String Path.slash (Js.join "/" (rev segs)))).
      rewrite resolve_slash_l. exact Hbody.
Qed.

Lemma normalize_absolute p :
  Path.isAbsolute p = true → Path.isAbsolute (Path.normalize p) = true.
Proof.
  intros Habs. unfold Path.normalize.
  destruct p as [|c p']; [discriminate |].
  change (String.eqb (String c p') "") with false. cbv iota. rewrite Habs.
  destruct (String.eqb _ ""); [reflexivity |].
  destruct (Path.hasTrailingSlash _); reflexivity.
Qed.

Lemma absolute_app a b : Path.isAbsolute a = true → Path.isAbsolute (a +:+ b) = true.
Proof. destruct a; [discriminate | now simpl]. Qed.

(** [path.join] of an absolute path and one more argument. *)
Lemma join2 a b :
  Path.isAbsolute a = true →
  Fs.resolve (Path.join [a; b]) = resolveFrom (Fs.resolve a) b
  ∧ Path.isAbsolute (Path.join [a; b]) = true.
Proof.
  intros Habs.
  assert (Ha : a ≠ "") by (intros ->; discriminate).
  unfold Path.join. rewrite filter_cons_True by exact Ha.
  destruct (decide (b = "")) as [-> | Hb].
  - rewrite filter_cons_False by (intros H; now apply H). simpl filter.
    cbn [Js.join]. rewrite resolveFrom_empty.
    split; [now apply resolve_normalize | now apply normalize_absolute].
  - rewrite filter_cons_True by exact Hb. simpl filter.
    change (Js.join "/" [a; b]) with (a +:+ String Path.slash b).
    split.
    + rewrite resolve_normalize by now apply absolute_app.
      apply resolve_app.
    + apply normalize_absolute. now apply absolute_app.
Qed.

Lemma join2_resolve a b :
  Path.isAbsolute a = true →
  Fs.resolve (Path.join [a; b]) = resolveFrom (Fs.resolve a) b.
Proof. intros H. now apply join2. Qed.

Lemma join2_absolute a b :
  Path.isAbsolute a = true → Path.isAbsolute (Path.join [a; b]) = true.
Proof. intros H. now apply join2. Qed.

(** The file name given to [path.join] is the last segment of the result
    when it is a plain name. *)
Lemma join2_name a f :
  Path.isAbsolute a = true → plain f →
  Fs.resolve (Path.join [a; f]) = Fs.resolve a ++ [f].
Proof. intros Ha Hf. rewrite join2_resolve by assumption. now apply resolveFrom_name. Qed.

End PathFacts.

(* ===================================================================== *)
(** * JSON: what is written is what is read *)
(* ===================================================================== *)

Section JsonFacts.

(** Lexing the escape of one character appends that character. *)
Lemma lex_escapeChar c rest acc toks :
  Json.lexGo (Json.InStr acc) (Json.escapeChar c +:+ rest) toks
  = Json.lexGo (Json.InStr (Json.snoc acc c)) rest toks.
Proof. destruct c as [[] [] [] [] [] [] [] []]; reflexivity. Qed.

(** Lexing an escaped string up to its closing quote yields the string. *)
Lemma lex_escapeOnto s rest acc toks :
  Json.lexGo (Json.InStr acc) (Json.escapeOnto s (String Json.dquote rest)) toks
  = Json.lexGo Json.Top rest (Json.TStr (acc +:+ s) :: toks).
Proof.
  revert acc. induction s as [|c s IH]; intros acc.
  - simpl. now rewrite app_empty_r.
  - cbn [Json.escapeOnto]. rewrite lex_escapeChar, IH.
    unfold Json.snoc. now rewrite app_assoc_str.
Qed.

Lemma lex_quoteOnto s rest toks :
  Json.lexGo Json.Top (Json.quoteOnto s rest) toks
  = Json.lexGo Json.Top rest (Json.TStr s :: toks).
Proof. unfold Json.quoteOnto. cbn [Json.lexGo Json.lexStep]. apply lex_escapeOnto. Qed.

(** One string member, then whatever follows. *)
Lemma lex_member k v rest toks :
  Json.lexGo Json.Top ("  " +:+ Json.quoteOnto k (": " +:+ Json.quoteOnto v rest)) toks
  = Json.lexGo Json.Top rest (Json.TStr v :: Json.TColon :: Json.TStr k :: toks).
Proof.
  change (Json.lexGo Json.Top ("  " +:+ Json.quoteOnto k (": " +:+ Json.quoteOnto v rest)) toks)
    with (Json.lexGo Json.Top (Json.quoteOnto k (": " +:+ Json.quoteOnto v rest)) toks).
  rewrite lex_quoteOnto.
  change (Json.lexGo Json.Top (": " +:+ Json.quoteOnto v rest) (Json.TStr k :: toks))
    with (Json.lexGo Json.Top (Json.quoteOnto v rest) (Json.TColon :: Json.TStr k :: toks)).
  apply lex_quoteOnto.
Qed.

(** [JSON.parse(JSON.stringify({ language, componentPath }, null, 2))]. *)
Theorem parse_stringify_two k1 v1 k2 v2 :
  Json.parse (Json.stringify [(k1, v1); (k2, v2)])
  = Some (Json.Obj [(k1, Json.Str v1); (k2, Json.Str v2)]).
Proof.
  unfold Json.parse, Json.lex, Json.stringify.
  cbn [Json.membersOnto].
  change (Json.lexGo Json.Top ("{" +:+ Json.nl +:+ ?x) [])
    with (Json.lexGo Json.Top x [Json.TLBrace]).
  rewrite lex_member.
  change (Json.lexGo Json.Top ("," +:+ Json.nl +:+ ?x) ?t)
    with (Json.lexGo Json.Top x (Json.TComma :: t)).
  rewrite lex_member. reflexivity.
Qed.

(** [JSON.parse(JSON.stringify({ language }, null, 2))]. *)
Theorem parse_stringify_one k v :
  Json.parse (Json.stringify [(k, v)]) = Some (Json.Obj [(k, Json.Str v)]).
Proof.
  unfold Json.parse, Json.lex, Json.stringify.
  cbn [Json.membersOnto].
  change (Json.lexGo Json.Top ("{" +:+ Json.nl +:+ ?x) [])
    with (Json.lexGo Json.Top x [Json.TLBrace]).
  rewrite lex_member. reflexivity.
Qed.

End JsonFacts.

(* ===================================================================== *)
(** * The file system *)
(* ===================================================================== *)

Section FsFacts.

Lemma prefixes_self (k : fspath) : In k (Fs.prefixes k).
Proof.
  induction k as [|x k IH]; simpl; [now left |].
  right. apply in_map_iff. now exists k.
Qed.

Lemma prefixes_prefix (k p : fspath) : In p (Fs.prefixes k) → p `prefix_of` k.
Proof.
  revert p. induction k as [|x k IH]; intros p; simpl.
  - intros [<- | []]. apply prefix_nil.
  - intros [<- | Hin]; [apply prefix_nil |].
    apply in_map_iff in Hin as (q & <- & Hq). apply prefix_cons, IH, Hq.
Qed.

Lemma isFile_spec w k : Fs.isFile w k = true ↔ is_Some (files w !! k).
Proof. unfold Fs.isFile. apply bool_decide_eq_true. Qed.

Lemma isDir_spec w k : Fs.isDir w k = true ↔ k = [] ∨ k ∈ dirs w.
Proof. unfold Fs.isDir. apply bool_decide_eq_true. Qed.

Lemma existsSync_pure p w : after (Fs.existsSync p) w = w.
Proof. reflexivity. Qed.

(** What [writeFileSync] does when the parent directory is there and the
    target is not a directory. *)
Lemma writeFileSync_ok p content w :
  Fs.isDir w (Fs.resolve p) = false →
  Fs.isDir w (Fs.parent (Fs.resolve p)) = true →
  Fs.writeFileSync p content w
  = (Ret tt, mkWorld (<[Fs.resolve p := content]> (files w)) (dirs w)
               (trace w ++ [FsWrite (Fs.resolve p)])).
Proof. intros H1 H2. unfold Fs.writeFileSync. cbv zeta. now rewrite H1, H2. Qed.

(** A failed write changes nothing. *)
Lemma writeFileSync_throw p content w e w' :
  Fs.writeFileSync p content w = (Throw e, w') → w' = w.
Proof.
  unfold Fs.writeFileSync. cbv zeta.
  destruct (Fs.isDir w (Fs.resolve p)); [congruence |].
  destruct (Fs.isDir w (Fs.parent (Fs.resolve p))); [discriminate |].
  destruct (existsb _ _); congruence.
Qed.

(** What the recursive mkdir does when no regular file is in the way. *)
Lemma mkdirp_ok op p w :
  existsb (Fs.isFile w) (Fs.prefixes (Fs.resolve p)) = false →
  Fs.mkdirp op p w
  = (Ret tt, mkWorld (files w) (dirs w ∪ list_to_set (Fs.prefixes (Fs.resolve p)))
               (trace w ++ [FsMkdir (Fs.resolve p)])).
Proof.
  intros H. unfold Fs.mkdirp, Fs.mkdirAt. rewrite H.
  assert (Fs.isFile w (Fs.resolve p) = false) as ->; [| reflexivity].
  destruct (Fs.isFile w (Fs.resolve p)) eqn:Hf; [| reflexivity].
  assert (existsb (Fs.isFile w) (Fs.prefixes (Fs.resolve p)) = true); [| congruence].
  apply existsb_exists. exists (Fs.resolve p). split; [apply prefixes_self | exact Hf].
Qed.

(** Whatever the recursive mkdir does, files stay; when it fails the world
    stays. *)
Lemma mkdirp_cases op p w :
  (∃ e, Fs.mkdirp op p w = (Throw e, w))
  ∨ Fs.mkdirp op p w
    = (Ret tt, mkWorld (files w) (dirs w ∪ list_to_set (Fs.prefixes (Fs.resolve p)))
                 (trace w ++ [FsMkdir (Fs.resolve p)])).
Proof.
  unfold Fs.mkdirp, Fs.mkdirAt.
  destruct (Fs.isFile w (Fs.resolve p)); [left; eauto |].
  destruct (existsb _ _); [left; eauto | now right].
Qed.

(** After the recursive mkdir, the directory and all its ancestors exist. *)
Lemma mkdirp_dirs (d : gset fspath) (k q : fspath) :
  In q (Fs.prefixes k) → q ∈ d ∪ list_to_set (Fs.prefixes k).
Proof.
  intros H. apply elem_of_union_r, elem_of_list_to_set, list_elem_of_In, H.
Qed.

End FsFacts.

(* ===================================================================== *)
(** * The preference store *)
(* ===================================================================== *)

Section PreferenceStore.

Context (E : Env).

Lemma config_name_plain : plain "multi-ui.config.json".
Proof. repeat split; discriminate. Qed.

(** The preference file sits directly in the working directory. *)
Lemma config_file_at_cwd :
  Path.isAbsolute (cwd E) = true →
  Fs.resolve (Current.CONFIG_FILE E) = Fs.resolve (cwd E) ++ ["multi-ui.config.json"].
Proof. intros H. apply join2_name; [exact H | exact config_name_plain]. Qed.

(** Reading finds what the last write stored. *)
Lemma getPreference_stored w text v :
  files w !! Fs.resolve (Current.CONFIG_FILE E) = Some text →
  Json.parse text = Some v →
  Current.getPreference E w = (Ret v, w).
Proof.
  intros Hfile Hparse.
  unfold Current.getPreference, bind, Fs.existsSync, Fs.readFileSync, JSON_parse, orThrow.
  cbv zeta.
  assert (Fs.isFile w (Fs.resolve (Current.CONFIG_FILE E)) = true) as ->.
  { apply isFile_spec. rewrite Hfile. eauto. }
  cbn [orb]. rewrite Hfile, Hparse. reflexivity.
Qed.

(** Reading never touches the file system, and says at most one thing. *)
Lemma getPreference_frame w :
  files (after (Current.getPreference E) w) = files w
  ∧ dirs (after (Current.getPreference E) w) = dirs w
  ∧ (trace (after (Current.getPreference E) w) = trace w
     ∨ trace (after (Current.getPreference E) w)
       = trace w ++ [Console Stderr Current.noPreference]).
Proof.
  unfold after, Current.getPreference, bind, Fs.existsSync, Fs.readFileSync, JSON_parse, orThrow.
  cbv zeta.
  destruct (Fs.isFile w _ || Fs.isDir w _).
  - destruct (files w !! _) as [text|].
    + destruct (Json.parse text); simpl; auto.
    + destruct (Fs.isDir w _); simpl; auto.
  - simpl. auto.
Qed.

End PreferenceStore.

(** C6: when nothing exists at the path of the preference file, reading the
    preference returns the default (language typescript, component path
    src/app/multi-ui/components) without raising, prints one warning on the
    error stream and leaves files and directories as they were. *)
Theorem getPreference_default (E : Env) (w : World) :
  result (Fs.existsSync (Current.CONFIG_FILE E)) w = Ret false →
  Current.getPreference E w
  = (Ret Current.defaultPreference,
     mkWorld (files w) (dirs w) (trace w ++ [Console Stderr Current.noPreference]))
  ∧ Json.getProp Current.defaultPreference "language" = Some (Json.Str "typescript")
  ∧ Json.getProp Current.defaultPreference "componentPath"
    = Some (Json.Str "src/app/multi-ui/components").
Proof.
  intros Hex. split; [| split; reflexivity].
  unfold Current.getPreference, bind.
  unfold result in Hex.
  destruct (Fs.existsSync (Current.CONFIG_FILE E) w) as [r w1] eqn:Hrun.
  assert (w1 = w) as -> by (unfold Fs.existsSync in Hrun; congruence).
  simpl in Hex. subst r. reflexivity.
Qed.

Lemma getPreference_default_witness :
  result (Fs.existsSync (Current.CONFIG_FILE (Demo.scenario Demo.ok)))
    Demo.project = Ret false
  ∧ Current.getPreference (Demo.scenario Demo.ok) Demo.project
    = (Ret Current.defaultPreference,
       mkWorld (files Demo.project) (dirs Demo.project)
         (trace Demo.project ++ [Console Stderr Current.noPreference])).
Proof.
  split; [vm_compute; reflexivity |].
  apply (getPreference_default (Demo.scenario Demo.ok) Demo.project).
  vm_compute; reflexivity.
Defined.

(** C4: for every preference object with the fields language and
    componentPath, writing it to the preference file and reading the
    preference back returns an object with exactly these two fields, their
    values unchanged; the read changes nothing. *)
Theorem preference_round_trip (E : Env) (w : World) (l c : string) :
  Fs.isDir w (Fs.resolve (Current.CONFIG_FILE E)) = false →
  Fs.isDir w (Fs.parent (Fs.resolve (Current.CONFIG_FILE E))) = true →
  let w1 := after (Current.writeConfig E (Current.configOf l c)) w in
  result (Current.writeConfig E (Current.configOf l c)) w = Ret tt
  ∧ Current.getPreference E w1
    = (Ret (Json.Obj [("language", Json.Str l); ("componentPath", Json.Str c)]), w1)
  ∧ result (let* pref := Current.getPreference E in Current.destructure pref) w1
    = Ret (Json.Str l, Json.Str c).
Proof.
  intros Hnd Hpd w1.
  assert (Hw : Current.writeConfig E (Current.configOf l c) w
               = (Ret tt, mkWorld (<[Fs.resolve (Current.CONFIG_FILE E)
                                     := Json.stringify (Current.configOf l c)]> (files w))
                            (dirs w)
                            (trace w ++ [FsWrite (Fs.resolve (Current.CONFIG_FILE E))]))).
  { unfold Current.writeConfig. now apply writeFileSync_ok. }
  assert (Hread : Current.getPreference E w1
                  = (Ret (Json.Obj [("language", Json.Str l); ("componentPath", Json.Str c)]), w1)).
  { apply getPreference_stored with (text := Json.stringify (Current.configOf l c)).
    - subst w1. unfold after. rewrite Hw. simpl. apply lookup_insert_eq.
    - apply parse_stringify_two. }
  split; [unfold result; now rewrite Hw |]. split; [exact Hread |].
  unfold result, bind. rewrite Hread. reflexivity.
Qed.

Lemma preference_round_trip_witness :
  Fs.isDir Demo.project (Fs.resolve (Current.CONFIG_FILE (Demo.scenario Demo.ok))) = false
  ∧ Fs.isDir Demo.project
      (Fs.parent (Fs.resolve (Current.CONFIG_FILE (Demo.scenario Demo.ok)))) = true
  ∧ result (let* pref := Current.getPreference (Demo.scenario Demo.ok) in
            Current.destructure pref)
      (after (Current.writeConfig (Demo.scenario Demo.ok)
                (Current.configOf "javascript" "lib/ui")) Demo.project)
    = Ret (Json.Str "javascript", Json.Str "lib/ui").
Proof.
  split; [vm_compute; reflexivity |]. split; [vm_compute; reflexivity |].
  apply (preference_round_trip (Demo.scenario Demo.ok) Demo.project "javascript" "lib/ui");
    vm_compute; reflexivity.
Defined.

(* ===================================================================== *)
(** * Setup *)
(* ===================================================================== *)

(** What a [setup] run does when the installation succeeds and the prompt
    is answered: the preference file is written into what the installation
    left. *)
Lemma current_setup_run (E : Env) (w : World) (L : choice) (D : string) :
  npm E = ExecOk →
  prompt E = inl (mkAnswers L D) →
  writePossible (installed E w) (Current.CONFIG_FILE E) →
  Current.run E ["setup"] w
  = (Ret tt,
     mkWorld
       (<[Fs.resolve (Current.CONFIG_FILE E)
          := Json.stringify [("language", Js.toLowerCase (label L));
                             ("componentPath", Path.join [D; "multi-ui"; "components"])]]>
          (files (installed E w)))
       (dirs (installed E w))
       (trace w ++ [Exec Current.installCommand;
                    Asked ["language"; "directory"];
                    FsWrite (Fs.resolve (Current.CONFIG_FILE E));
                    Console Stdout ("Setup complete! Language: " +:+ label L
                                    +:+ ", Components Path: "
                                    +:+ Path.join [D; "multi-ui"; "components"])])).
Proof.
  intros Hnpm Hprompt [Hnd Hpd].
  unfold Current.run, Current.main, tryCatch, bind, argAt. cbn [lookup list_lookup].
  rewrite bool_decide_eq_true_2 by reflexivity.
  unfold Current.installBabelPresets, Current.setupProject, tryCatch, bind, exec,
    inquirer_prompt, bind, emit, ret.
  rewrite Hnpm, Hprompt. cbn [fst snd files dirs trace language directory].
  unfold Current.writeConfig.
  rewrite writeFileSync_ok by (cbn [dirs]; assumption).
  unfold console_log, emit. cbn [files dirs trace].
  unfold Current.configOf. rewrite <- !app_assoc. reflexivity.
Qed.

(** Setup, then read: the preference that [setup] stored is the one an
    [add] reads. *)
Lemma setup_then_read (E : Env) (w : World) (L : choice) (D : string) :
  npm E = ExecOk →
  prompt E = inl (mkAnswers L D) →
  writePossible (installed E w) (Current.CONFIG_FILE E) →
  result (Current.getPreference E) (after (Current.run E ["setup"]) w)
  = Ret (Json.Obj [("language", Json.Str (Js.toLowerCase (label L)));
                   ("componentPath", Json.Str (Path.join [D; "multi-ui"; "components"]))]).
Proof.
  intros Hnpm Hprompt Hwr.
  unfold after, result. rewrite (current_setup_run E w L D Hnpm Hprompt Hwr). cbn [snd].
  erewrite getPreference_stored; [reflexivity | | apply parse_stringify_two].
  cbn [files]. apply lookup_insert_eq.
Qed.

(** C5: a [setup] run whose installation step succeeds and whose prompt is
    answered with language L and directory D writes the preference file in
    the working directory, into the tree the installation left: the file
    then holds the JSON object with exactly the fields language = L in
    lower case and componentPath = D joined with multi-ui/components, which
    is what the next read of the preference returns, and every other path
    holds what the installation left there. *)
Theorem setup_persists (E : Env) (w : World) (L : choice) (D : string) :
  npm E = ExecOk →
  prompt E = inl (mkAnswers L D) →
  writePossible (installed E w) (Current.CONFIG_FILE E) →
  result (Current.run E ["setup"]) w = Ret tt
  ∧ files (after (Current.run E ["setup"]) w) !! Fs.resolve (Current.CONFIG_FILE E)
    = Some (Json.stringify [("language", Js.toLowerCase (label L));
                            ("componentPath", Path.join [D; "multi-ui"; "components"])])
  ∧ (∀ k, k ≠ Fs.resolve (Current.CONFIG_FILE E) →
          files (after (Current.run E ["setup"]) w) !! k = files (installed E w) !! k)
  ∧ Json.parse (Json.stringify [("language", Js.toLowerCase (label L));
                                ("componentPath", Path.join [D; "multi-ui"; "components"])])
    = Some (Json.Obj [("language", Json.Str (Js.toLowerCase (label L)));
                      ("componentPath", Json.Str (Path.join [D; "multi-ui"; "components"]))])
  ∧ result (Current.getPreference E) (after (Current.run E ["setup"]) w)
    = Ret (Json.Obj [("language", Json.Str (Js.toLowerCase (label L)));
                     ("componentPath", Json.Str (Path.join [D; "multi-ui"; "components"]))])
  ∧ (Path.isAbsolute (cwd E) = true →
     Fs.resolve (Current.CONFIG_FILE E) = Fs.resolve (cwd E) ++ ["multi-ui.config.json"]).
Proof.
  intros Hnpm Hprompt Hwr.
  pose proof (setup_then_read E w L D Hnpm Hprompt Hwr) as Hread.
  unfold result, after in *. rewrite (current_setup_run E w L D Hnpm Hprompt Hwr) in *.
  cbn [fst snd files] in *.
  split; [reflexivity |]. split; [apply lookup_insert_eq |].
  split; [intros k Hk; now apply lookup_insert_ne |].
  split; [apply parse_stringify_two |]. split; [exact Hread | apply config_file_at_cwd].
Qed.

Lemma setup_persists_witness :
  npm (Demo.scenario Demo.ok) = ExecOk
  ∧ prompt (Demo.scenario Demo.ok) = inl (mkAnswers TypeScript "app/")
  ∧ files (after (Current.run (Demo.scenario Demo.ok) ["setup"]) Demo.project)
      !! (Demo.home ++ ["multi-ui.config.json"])
    = Some ("{" +:+ Json.nl +:+ "  " +:+ Json.q +:+ "language" +:+ Json.q +:+ ": " +:+ Json.q
            +:+ "typescript" +:+ Json.q +:+ "," +:+ Json.nl +:+ "  " +:+ Json.q
            +:+ "componentPath" +:+ Json.q +:+ ": " +:+ Json.q +:+ "app/multi-ui/components"
            +:+ Json.q +:+ Json.nl +:+ "}")
  ∧ files (after (Current.run (Demo.scenario Demo.ok) ["setup"]) Demo.project)
      !! (Demo.home ++ ["package.json"])
    = files (installed (Demo.scenario Demo.ok) Demo.project) !! (Demo.home ++ ["package.json"]).
Proof.
  split; [reflexivity |]. split; [reflexivity |].
  destruct (setup_persists (Demo.scenario Demo.ok) Demo.project TypeScript "app/"
              eq_refl eq_refl ltac:(split; vm_compute; reflexivity))
    as (_ & Hfile & Hrest & _).
  split; [exact Hfile |].
  apply Hrest. vm_compute. discriminate.
Defined.

(** The legacy store keeps the language: what is written is what is read. *)
Lemma legacy_round_trip (E : Env) (w : World) (l : string) :
  Fs.isDir w (Fs.resolve (Legacy.preferenceFile E)) = false →
  Fs.isDir w (Fs.parent (Fs.resolve (Legacy.preferenceFile E))) = true →
  result (Legacy.getPreference E) (after (Legacy.writePreference E [("language", l)]) w)
  = Ret (Json.Str l).
Proof.
  intros Hnd Hpd. unfold after, Legacy.writePreference.
  rewrite writeFileSync_ok by assumption. cbn [snd].
  unfold result, Legacy.getPreference, bind, Fs.existsSync, Fs.readFileSync, JSON_parse, orThrow.
  cbv zeta. cbn [files].
  assert (Fs.isFile (mkWorld (<[Fs.resolve (Legacy.preferenceFile E)
                                := Json.stringify [("language", l)]]> (files w)) (dirs w)
                       (trace w ++ [FsWrite (Fs.resolve (Legacy.preferenceFile E))]))
            (Fs.resolve (Legacy.preferenceFile E)) = true) as ->.
  { apply isFile_spec. cbn [files]. rewrite lookup_insert_eq. eauto. }
  cbn [orb fst snd files]. rewrite lookup_insert_eq. cbv beta iota.
  rewrite parse_stringify_one. reflexivity.
Qed.

(** The legacy setup stores the language alone. *)
Lemma legacy_setup_persists (E : Env) (w : World) (L : choice) (D : string) :
  prompt E = inl (mkAnswers L D) →
  Fs.isDir w (Fs.resolve (Legacy.preferenceFile E)) = false →
  Fs.isDir w (Fs.parent (Fs.resolve (Legacy.preferenceFile E))) = true →
  Legacy.run E ["setup"] w
  = (Ret tt,
     mkWorld (<[Fs.resolve (Legacy.preferenceFile E)
                := Json.stringify [("language", Js.toLowerCase (label L))]]> (files w))
       (dirs w)
       (trace w ++ [Asked ["language"];
                    FsWrite (Fs.resolve (Legacy.preferenceFile E));
                    Console Stdout ("Project setup complete! Language preference saved: "
                                    +:+ label L)])).
Proof.
  intros Hprompt Hnd Hpd.
  unfold Legacy.run, Legacy.main, argAt. cbn [lookup list_lookup].
  rewrite bool_decide_eq_true_2 by reflexivity.
  unfold Legacy.setupProject, tryCatch, bind, inquirer_prompt, bind, emit, ret.
  rewrite Hprompt. cbn [fst snd files dirs trace language directory].
  unfold Legacy.writePreference. rewrite writeFileSync_ok by assumption.
  unfold console_log, emit. cbn [files dirs trace].
  rewrite <- !app_assoc. reflexivity.
Qed.

(* ===================================================================== *)
(** * The remote fetch *)
(* ===================================================================== *)

Section Fetch.

Context (E : Env).

(** One GET, whatever the outcome. *)
Lemma fetch_world N w :
  after (Current.fetchComponentFromGitHub E N) w = requested w (Current.componentUrl N).
Proof.
  unfold after, Current.fetchComponentFromGitHub, tryCatch, axios_get, bind, emit, throw, ret.
  cbv zeta. cbn [fst snd].
  destruct (remote E (Current.componentUrl N)) as [st txt body | msg]; [| now case_bool_decide].
  destruct ((200 <=? st)%nat && (st <? 300)%nat); cbn [status statusText data].
  - destruct (st =? 200)%nat; [reflexivity | now case_bool_decide].
  - now case_bool_decide.
Qed.

Lemma fetch_ok N w txt body :
  remote E (Current.componentUrl N) = Http 200 txt body →
  result (Current.fetchComponentFromGitHub E N) w = Ret (responseData body).
Proof.
  intros H.
  unfold result, Current.fetchComponentFromGitHub, tryCatch, axios_get, bind, emit, throw, ret.
  cbv zeta. rewrite H. reflexivity.
Qed.

Lemma fetch_not_found N w txt body :
  remote E (Current.componentUrl N) = Http 404 txt body →
  result (Current.fetchComponentFromGitHub E N) w
  = Throw (Err "Error" (Current.notFoundMessage N (Current.componentUrl N)) None).
Proof.
  intros H.
  unfold result, Current.fetchComponentFromGitHub, tryCatch, axios_get, bind, emit, throw, ret.
  cbv zeta. rewrite H. reflexivity.
Qed.

Lemma fetch_other_status N w st txt body :
  remote E (Current.componentUrl N) = Http st txt body →
  st ≠ 200 → st ≠ 404 →
  result (Current.fetchComponentFromGitHub E N) w
  = Throw (Err "Error" ("Error fetching component: " +:+ underlying (Http st txt body)) None).
Proof.
  intros H H200 H404.
  unfold result, Current.fetchComponentFromGitHub, tryCatch, axios_get, bind, emit, throw, ret.
  cbv zeta. rewrite H. cbn [fst snd underlying].
  destruct ((200 <=? st)%nat && (st <? 300)%nat); cbn [status statusText data].
  - rewrite (proj2 (Nat.eqb_neq st 200) H200). cbn [responseStatusOf].
    now rewrite bool_decide_eq_false_2.
  - cbn [responseStatusOf].
    rewrite bool_decide_eq_false_2 by congruence. reflexivity.
Qed.

Lemma fetch_transport N w msg :
  remote E (Current.componentUrl N) = NetworkError msg →
  result (Current.fetchComponentFromGitHub E N) w
  = Throw (Err "Error" ("Error fetching component: " +:+ msg) None).
Proof.
  intros H.
  unfold result, Current.fetchComponentFromGitHub, tryCatch, axios_get, bind, emit, throw, ret.
  cbv zeta. rewrite H. reflexivity.
Qed.

(** Anything but a 200 makes the fetch throw. *)
Lemma fetch_failed N w :
  (∀ txt body, remote E (Current.componentUrl N) ≠ Http 200 txt body) →
  ∃ e, result (Current.fetchComponentFromGitHub E N) w = Throw e.
Proof.
  intros Hno.
  destruct (remote E (Current.componentUrl N)) as [st txt body | msg] eqn:Hr.
  - destruct (decide (st = 200)) as [-> | H200]; [now destruct (Hno txt body) |].
    destruct (decide (st = 404)) as [-> | H404].
    + eexists. eapply fetch_not_found, Hr.
    + eexists. eapply fetch_other_status; eauto.
  - eexists. eapply fetch_transport, Hr.
Qed.

Lemma legacy_fetch_trace N w :
  ∃ said, trace (after (Legacy.fetchComponentFromGitHub E N) w)
          = trace w ++ HttpGet (Legacy.componentUrl N) :: said
          ∧ Forall (fun e => ∃ st text, e = Console st text) said.
Proof.
  unfold after, Legacy.fetchComponentFromGitHub, tryCatch, axios_get, bind, emit, throw, ret,
    console_error, emit.
  cbv zeta. cbn [fst snd].
  destruct (remote E (Legacy.componentUrl N)) as [st txt body | msg].
  - destruct ((200 <=? st)%nat && (st <? 300)%nat); cbn [status statusText data].
    + destruct (st =? 200)%nat; cbn [snd trace].
      * exists []. split; [reflexivity | constructor].
      * eexists [_]. rewrite <- app_assoc. split; [reflexivity |].
        constructor; [eauto | constructor].
    + cbn [snd trace]. eexists [_]. rewrite <- app_assoc. split; [reflexivity |].
      constructor; [eauto | constructor].
  - cbn [snd trace]. eexists [_]. rewrite <- app_assoc. split; [reflexivity |].
    constructor; [eauto | constructor].
Qed.

End Fetch.





(* ===================================================================== *)
(** * Adding a component *)
(* ===================================================================== *)

(** [path.join(process.cwd(), componentPath)] for a component path of any
    type. *)
Lemma path_join_cwd (a : string) (v : Json.value) :
  path_join [Json.Str a; v]
  = match v with
    | Json.Str b => ret (Path.join [a; b])
    | _ => throw (Err "TypeError" ("The " +:+ Json.q +:+ "path" +:+ Json.q
                                   +:+ " argument must be of type string. Received "
                                   +:+ received v) None)
    end.
Proof. destruct v; reflexivity. Qed.

Section Add.

Context (E : Env).

Lemma fetch_run N w :
  Current.fetchComponentFromGitHub E N w
  = (result (Current.fetchComponentFromGitHub E N) w, requested w (Current.componentUrl N)).
Proof. rewrite <- (fetch_world E). unfold result, after. apply surjective_pairing. Qed.

(** What the fetch returns depends on the remote host alone. *)
Lemma fetch_result_any N w w' :
  result (Current.fetchComponentFromGitHub E N) w
  = result (Current.fetchComponentFromGitHub E N) w'.
Proof.
  unfold result, Current.fetchComponentFromGitHub, tryCatch, axios_get, bind, emit, throw, ret.
  cbv zeta. cbn [fst snd].
  destruct (remote E (Current.componentUrl N)) as [st txt body | msg]; [| now case_bool_decide].
  destruct ((200 <=? st)%nat && (st <? 300)%nat); cbn [status statusText data].
  - destruct (st =? 200)%nat; [reflexivity | now case_bool_decide].
  - now case_bool_decide.
Qed.

Lemma tryBlock_mkdir_failed N lang dir w e :
  Fs.ensureDirSync dir w = (Throw e, w) →
  Current.tryBlock E N lang dir w = (Throw e, w).
Proof. intros H. unfold Current.tryBlock, bind. cbv zeta. now rewrite H. Qed.


Lemma tryBlock_transform_failed N dir w code msg :
  mkdirPossible w dir →
  result (Current.fetchComponentFromGitHub E N) w = Ret code →
  babel E code (N +:+ ".tsx") = inr msg →
  Current.tryBlock E N (Json.Str "javascript") dir w
  = (Throw (Err "SyntaxError" msg None),
     mkWorld (files w) (dirs w ∪ list_to_set (Fs.prefixes (Fs.resolve dir)))
       (trace w ++ [FsMkdir (Fs.resolve dir); fetching N; HttpGet (Current.componentUrl N)])).
Proof.
  intros Hmk Hf Hb. unfold Current.tryBlock, bind. cbv zeta.
  unfold Fs.ensureDirSync. rewrite (mkdirp_ok _ _ _ Hmk).
  unfold console_log, emit. rewrite fetch_run.
  rewrite (fetch_result_any N _ w), Hf.
  cbn [Json.isString String.eqb Ascii.eqb Bool.eqb]. cbv iota.
  unfold Current.convertTsxToJsx, babel_transformSync. rewrite Hb.
  unfold requested, fetching, throw. cbn [files dirs trace]. now rewrite <- !app_assoc.
Qed.

Lemma tryBlock_written N lang dir w code content :
  mkdirPossible w dir →
  result (Current.fetchComponentFromGitHub E N) w = Ret code →
  (if Json.isString lang "javascript"
   then babel E code (N +:+ ".tsx") = inl content else code = Json.Str content) →
  writePossible (madeDir w dir) (Current.componentFileOf dir N (Current.extensionOf lang)) →
  Current.tryBlock E N lang dir w
  = (Ret tt,
     mkWorld
       (<[Fs.resolve (Current.componentFileOf dir N (Current.extensionOf lang)) := content]>
          (files w))
       (dirs w ∪ list_to_set (Fs.prefixes (Fs.resolve dir)))
       (trace w
        ++ [FsMkdir (Fs.resolve dir); fetching N; HttpGet (Current.componentUrl N);
            FsWrite (Fs.resolve (Current.componentFileOf dir N (Current.extensionOf lang)));
            Console Stdout ("Component created at: "
                            +:+ Current.componentFileOf dir N (Current.extensionOf lang))])).
Proof.
  intros Hmk Hf Hc [Hnd Hpd]. unfold Current.tryBlock, bind. cbv zeta.
  unfold Fs.ensureDirSync. rewrite (mkdirp_ok _ _ _ Hmk).
  unfold console_log, emit. rewrite fetch_run.
  rewrite (fetch_result_any N _ w), Hf.
  set (file := Current.componentFileOf dir N (Current.extensionOf lang)) in *.
  set (w3 := requested _ _).
  assert (Hwrite : Fs.writeFileSync file content w3
                   = (Ret tt, mkWorld (<[Fs.resolve file := content]> (files w3)) (dirs w3)
                                (trace w3 ++ [FsWrite (Fs.resolve file)]))).
  { apply writeFileSync_ok; [exact Hnd | exact Hpd]. }
  destruct (Json.isString lang "javascript").
  - unfold Current.convertTsxToJsx, babel_transformSync. rewrite Hc. unfold ret.
    rewrite Hwrite. subst w3. unfold requested, fetching. cbn [files dirs trace].
    now rewrite <- !app_assoc.
  - subst code. unfold fs_writeFileSync. rewrite Hwrite. subst w3.
    unfold requested, fetching. cbn [files dirs trace]. now rewrite <- !app_assoc.
Qed.

(** Once the preference is read, the rest runs in the world the read left. *)
Lemma createComponent_stored N w lang cp :
  stored E w lang cp →
  Current.createComponent E N w
  = tryCatch (Current.tryBlock E N lang (Current.componentDirOf E cp))
      (fun error => console_error ("Error creating component: " +:+ messageOf error))
      (after (Current.getPreference E) w).
Proof.
  intros (pref & Hres & Hlang & Hcp).
  unfold Current.createComponent, bind at 1.
  unfold result in Hres. unfold after.
  destruct (Current.getPreference E w) as [r w1]. simpl in Hres. subst r. cbn [snd].
  unfold Current.destructure, bind, orThrow. rewrite Hlang, Hcp.
  unfold ret, path_join, bind, orThrow. cbn [mapM fst snd]. reflexivity.
Qed.

Lemma run_add N w argv :
  argv = ["add"; N] → N ≠ "" →
  Current.run E argv w
  = tryCatch (Current.createComponent E N)
      (fun error => console_error ("Unexpected error: " +:+ messageOf error)) w.
Proof.
  intros -> HN. unfold Current.run, Current.main, argAt. cbn [lookup list_lookup].
  rewrite bool_decide_eq_false_2 by discriminate.
  rewrite bool_decide_eq_true_2 by reflexivity.
  unfold truthy. rewrite (string_eqb_neq _ _ HN). reflexivity.
Qed.

Lemma stored_mkdirPossible w lang cp dir :
  stored E w lang cp → mkdirPossible w dir →
  mkdirPossible (after (Current.getPreference E) w) dir.
Proof.
  intros _ H. unfold mkdirPossible in *.
  destruct (getPreference_frame E w) as (Hf & _ & _).
  unfold Fs.isFile in *. now rewrite Hf.
Qed.

End Add.

Section AddFacts.

Context (E : Env).

Lemma isDir_same w w' k : dirs w = dirs w' → Fs.isDir w k = Fs.isDir w' k.
Proof. intros H. unfold Fs.isDir. now rewrite H. Qed.

Lemma isFile_same w w' k : files w = files w' → Fs.isFile w k = Fs.isFile w' k.
Proof. intros H. unfold Fs.isFile. now rewrite H. Qed.

Lemma mkdirPossible_same w w' p : files w = files w' → mkdirPossible w p → mkdirPossible w' p.
Proof.
  intros H. unfold mkdirPossible.
  assert (Fs.isFile w' = Fs.isFile w) as ->; [| auto].
  unfold Fs.isFile. now rewrite H.
Qed.

Lemma writePossible_same w w' p : dirs w = dirs w' → writePossible w p → writePossible w' p.
Proof.
  intros H [H1 H2]. split; [rewrite <- H1 | rewrite <- H2]; symmetry; now apply isDir_same.
Qed.


Lemma writeFileSync_cases p content w :
  (∃ e, Fs.writeFileSync p content w = (Throw e, w))
  ∨ Fs.writeFileSync p content w
    = (Ret tt, mkWorld (<[Fs.resolve p := content]> (files w)) (dirs w)
                 (trace w ++ [FsWrite (Fs.resolve p)])).
Proof.
  unfold Fs.writeFileSync. cbv zeta.
  destruct (Fs.isDir w (Fs.resolve p)); [left; eauto |].
  destruct (Fs.isDir w (Fs.parent (Fs.resolve p))); [now right |].
  destruct (existsb _ _); left; eauto.
Qed.


(** A try block whose fetch fails writes no file. *)
Lemma tryBlock_failed_files N lang dir w :
  (∀ txt body, remote E (Current.componentUrl N) ≠ Http 200 txt body) →
  ∃ e, result (Current.tryBlock E N lang dir) w = Throw e
       ∧ files (after (Current.tryBlock E N lang dir) w) = files w.
Proof.
  intros Hno. unfold result, after.
  destruct (mkdirp_cases "mkdir" dir w) as [[e He] | Hok].
  - exists e. now rewrite (tryBlock_mkdir_failed E N lang dir w e He).
  - destruct (fetch_failed E N w Hno) as [e He]. exists e.
    unfold Current.tryBlock, bind. cbv zeta.
    unfold Fs.ensureDirSync. rewrite Hok.
    unfold console_log, emit. rewrite fetch_run.
    rewrite (fetch_result_any E N _ w), He. now cbn.
Qed.

(** An [add] whose fetch cannot succeed leaves every file as it was. *)
Lemma add_failed_files N w :
  (∀ txt body, remote E (Current.componentUrl N) ≠ Http 200 txt body) →
  files (after (Current.run E ["add"; N]) w) = files w.
Proof.
  intros Hno. unfold after, Current.run, Current.main, argAt. cbn [lookup list_lookup].
  rewrite bool_decide_eq_false_2 by discriminate.
  rewrite bool_decide_eq_true_2 by reflexivity.
  destruct (negb (truthy (Some N))); [reflexivity |].
  change (default "" (Some N)) with N.
  unfold tryCatch at 1, Current.createComponent, bind at 1.
  destruct (getPreference_frame E w) as (Hf & _ & _). unfold after in Hf.
  destruct (Current.getPreference E w) as [[pref | e] w1]; cbn [snd] in Hf; [| exact Hf].
  unfold Current.destructure, bind, orThrow.
  destruct (Json.getProp pref "language") as [lang |]; [| exact Hf].
  destruct (Json.getProp pref "componentPath") as [cp |]; [| exact Hf].
  unfold ret. cbn [fst snd]. rewrite path_join_cwd.
  destruct cp as [| | | | cp | |]; try exact Hf.
  unfold ret, tryCatch.
  destruct (tryBlock_failed_files N lang (Path.join [cwd E; cp]) w1 Hno) as (e & Hr & Hfiles).
  unfold result, after in Hr, Hfiles.
  destruct (Current.tryBlock E N lang (Path.join [cwd E; cp]) w1) as [r w2].
  cbn [fst snd] in *. subst r. cbn. congruence.
Qed.



End AddFacts.

(** The world an [add] leaves when the preference could be read. *)
Lemma run_add_stored (E : Env) (N : string) (w : World) (lang : Json.value) (cp : string) :
  N ≠ "" →
  stored E w lang cp →
  after (Current.run E ["add"; N]) w
  = after (tryCatch (Current.tryBlock E N lang (Current.componentDirOf E cp))
             (fun error => console_error ("Error creating component: " +:+ messageOf error)))
      (after (Current.getPreference E) w).
Proof.
  intros HN Hst. unfold after at 1. rewrite (run_add E N w _ eq_refl HN).
  unfold tryCatch at 1. rewrite (createComponent_stored E N w lang cp Hst).
  unfold after, tryCatch.
  destruct (Current.tryBlock E N lang (Current.componentDirOf E cp) _) as [[[] | e] w2];
    reflexivity.
Qed.

(** A source that Babel refuses: the [add] reports the failure and writes
    nothing. *)
Lemma add_transform_failed (E : Env) (N : string) (w : World) (cp txt B msg : string) :
  N ≠ "" →
  stored E w (Json.Str "javascript") cp →
  remote E (Current.componentUrl N) = Http 200 txt B →
  babel E (responseData B) (N +:+ ".tsx") = inr msg →
  mkdirPossible w (Current.componentDirOf E cp) →
  files (after (Current.run E ["add"; N]) w) = files w
  ∧ said (after (Current.getPreference E) w) (after (Current.run E ["add"; N]) w)
      [FsMkdir (Fs.resolve (Current.componentDirOf E cp)); fetching N;
       HttpGet (Current.componentUrl N);
       Console Stderr ("Error creating component: " +:+ msg)].
Proof.
  intros HN Hst Hrem Hb Hmk.
  destruct (getPreference_frame E w) as (Hf & _ & _).
  rewrite (run_add_stored E N w _ cp HN Hst).
  set (w1 := after (Current.getPreference E) w) in *.
  assert (Hmk1 : mkdirPossible w1 (Current.componentDirOf E cp))
    by (eapply mkdirPossible_same; [symmetry; exact Hf | exact Hmk]).
  unfold said, after, tryCatch.
  rewrite (tryBlock_transform_failed E N _ w1 _ msg Hmk1 (fetch_ok E N w1 txt B Hrem) Hb).
  unfold console_error, emit. cbn [snd files trace messageOf].
  split; [exact Hf | now rewrite <- !app_assoc].
Qed.

(** A successful [add]: the one file it writes, and what it says. *)
Lemma add_written (E : Env) (N : string) (w : World)
    (lang : Json.value) (cp txt B content : string) :
  N ≠ "" →
  stored E w lang cp →
  pathText cp →
  remote E (Current.componentUrl N) = Http 200 txt B →
  verbatim B →
  (if Json.isString lang "javascript"
   then babel E (Json.Str B) (N +:+ ".tsx") = inl content else content = B) →
  mkdirPossible w (Current.componentDirOf E cp) →
  writePossible (madeDir w (Current.componentDirOf E cp))
    (Current.componentFileOf (Current.componentDirOf E cp) N (Current.extensionOf lang)) →
  files (after (Current.run E ["add"; N]) w)
  = <[Fs.resolve (Current.componentFileOf (Current.componentDirOf E cp) N
                    (Current.extensionOf lang)) := content]> (files w)
  ∧ said (after (Current.getPreference E) w) (after (Current.run E ["add"; N]) w)
      [FsMkdir (Fs.resolve (Current.componentDirOf E cp)); fetching N;
       HttpGet (Current.componentUrl N);
       FsWrite (Fs.resolve (Current.componentFileOf (Current.componentDirOf E cp) N
                              (Current.extensionOf lang)));
       Console Stdout ("Component created at: "
                       +:+ Current.componentFileOf (Current.componentDirOf E cp) N
                             (Current.extensionOf lang))].
Proof.
  intros HN Hst _ Hrem Hverb Hc Hmk Hwr.
  destruct (getPreference_frame E w) as (Hf & Hd & _).
  rewrite (run_add_stored E N w lang cp HN Hst).
  set (w1 := after (Current.getPreference E) w) in *.
  assert (Hmk1 : mkdirPossible w1 (Current.componentDirOf E cp))
    by (eapply mkdirPossible_same; [symmetry; exact Hf | exact Hmk]).
  assert (Hwr1 : writePossible (madeDir w1 (Current.componentDirOf E cp))
                   (Current.componentFileOf (Current.componentDirOf E cp) N
                      (Current.extensionOf lang))).
  { eapply writePossible_same; [| exact Hwr]. unfold madeDir. cbn [dirs]. now rewrite Hd. }
  assert (Hfetch : result (Current.fetchComponentFromGitHub E N) w1 = Ret (Json.Str B))
    by (rewrite <- Hverb; eapply fetch_ok, Hrem).
  assert (Hc' : if Json.isString lang "javascript"
                then babel E (Json.Str B) (N +:+ ".tsx") = inl content
                else Json.Str B = Json.Str content)
    by (destruct (Json.isString lang "javascript"); [exact Hc | now subst]).
  unfold said, after, tryCatch.
  rewrite (tryBlock_written E N lang _ w1 _ content Hmk1 Hfetch Hc' Hwr1).
  cbn [snd files trace]. split; [now rewrite Hf | unfold fetching; reflexivity].
Qed.




(** The name ../../x, joined to a component directory at least two levels
    deep, names x.<ext> two levels above it. *)
Lemma escaping_file_path (E : Env) (cp : string) (lang : Json.value) :
  Path.isAbsolute (cwd E) = true →
  2 ≤ length (Fs.resolve (Current.componentDirOf E cp)) →
  Fs.resolve (Current.componentFileOf (Current.componentDirOf E cp) "../../x"
                (Current.extensionOf lang))
  = take (length (Fs.resolve (Current.componentDirOf E cp)) - 2)
      (Fs.resolve (Current.componentDirOf E cp))
    ++ ["x." +:+ Current.extensionOf lang]
  ∧ ¬ inside (Fs.resolve (Current.componentDirOf E cp))
        (Fs.resolve (Current.componentFileOf (Current.componentDirOf E cp) "../../x"
                       (Current.extensionOf lang))).
Proof.
  intros Habs Hlen.
  set (dir := Current.componentDirOf E cp) in *.
  assert (Hdabs : Path.isAbsolute dir = true) by now apply join2_absolute.
  pose proof (resolve_plain dir) as Hplain.
  assert (Heq : Fs.resolve (Current.componentFileOf dir "../../x" (Current.extensionOf lang))
                = take (length (Fs.resolve dir) - 2) (Fs.resolve dir)
                  ++ ["x." +:+ Current.extensionOf lang]).
  { unfold Current.componentFileOf. rewrite join2_resolve by exact Hdabs.
    unfold resolveFrom, Path.normSegs.
    assert (Hsplit : Js.split Path.slash ("../../x" +:+ "." +:+ Current.extensionOf lang)
                     = [".."; ".."; "x." +:+ Current.extensionOf lang])
      by (unfold Current.extensionOf; destruct (Json.isString lang "javascript"); reflexivity).
    rewrite Hsplit.
    remember (rev (Fs.resolve dir)) as st eqn:Hst.
    assert (Hbase : Fs.resolve dir = rev st) by (rewrite Hst; now rewrite rev_involutive).
    clear Hst. rewrite Hbase in Hlen, Hplain |- *. clear Hbase.
    rewrite length_rev in Hlen. rewrite length_rev.
    apply Forall_rev in Hplain. rewrite rev_involutive in Hplain.
    destruct st as [|a [|b r]]; [simpl in Hlen; lia.. |].
    inversion Hplain as [|? ? (_ & _ & Ha & _) Hr]; subst.
    inversion Hr as [|? ? (_ & _ & Hb & _) _]; subst.
    cbn [fold_left]. unfold Path.step at 3. cbn [String.eqb Ascii.eqb Bool.eqb].
    rewrite (string_eqb_neq _ _ Ha). unfold Path.step at 2. cbn [String.eqb Ascii.eqb Bool.eqb].
    rewrite (string_eqb_neq _ _ Hb).
    rewrite step_plain.
    2:{ unfold Current.extensionOf.
        destruct (Json.isString lang "javascript"); repeat split; discriminate. }
    cbn [rev length]. rewrite <- !app_assoc. cbn [app].
    replace (S (S (length r)) - 2) with (length (rev r)) by (rewrite length_rev; lia).
    now rewrite take_app_length. }
  split; [exact Heq |].
  unfold inside. intros Hpre. apply prefix_length in Hpre.
  rewrite Heq, length_app, length_take in Hpre. cbn [length] in Hpre. lia.
Qed.

(* ===================================================================== *)
(** * What a run can append to the trace *)
(* ===================================================================== *)

Section Emits.

Context (P : event → Prop).

Lemma emitsOnly_ret {A} (a : A) : emitsOnly P (ret a).
Proof. intros w. exists []. split; [unfold said; cbn; now rewrite app_nil_r | constructor]. Qed.

Lemma emitsOnly_throw {A} (e : thrown) : emitsOnly P (@throw A e).
Proof. intros w. exists []. split; [unfold said; cbn; now rewrite app_nil_r | constructor]. Qed.

Lemma emitsOnly_emit (e : event) : P e → emitsOnly P (emit e).
Proof. intros He w. exists [e]. split; [reflexivity | now repeat constructor]. Qed.

Lemma emitsOnly_bind {A B} (m : M A) (k : A → M B) :
  emitsOnly P m → (∀ a, emitsOnly P (k a)) → emitsOnly P (bind m k).
Proof.
  intros Hm Hk w. destruct (Hm w) as (evs & Hsaid & Hall).
  unfold said, after, bind in *.
  destruct (m w) as [[a | e] w1]; cbn [snd] in *.
  - destruct (Hk a w1) as (evs' & Hsaid' & Hall'). unfold said, after in Hsaid'.
    exists (evs ++ evs'). split; [rewrite Hsaid', Hsaid; now rewrite app_assoc |].
    now apply Forall_app.
  - now exists evs.
Qed.

Lemma emitsOnly_tryCatch {A} (m : M A) (h : thrown → M A) :
  emitsOnly P m → (∀ e, emitsOnly P (h e)) → emitsOnly P (tryCatch m h).
Proof.
  intros Hm Hh w. destruct (Hm w) as (evs & Hsaid & Hall).
  unfold said, after, tryCatch in *.
  destruct (m w) as [[a | e] w1]; cbn [snd] in *.
  - now exists evs.
  - destruct (Hh e w1) as (evs' & Hsaid' & Hall'). unfold said, after in Hsaid'.
    exists (evs ++ evs'). split; [rewrite Hsaid', Hsaid; now rewrite app_assoc |].
    now apply Forall_app.
Qed.

Lemma emitsOnly_if {A} (b : bool) (m1 m2 : M A) :
  emitsOnly P m1 → emitsOnly P m2 → emitsOnly P (if b then m1 else m2).
Proof. now destruct b. Qed.

Lemma emitsOnly_orThrow {A} (o : option A) (e : thrown) : emitsOnly P (orThrow o e).
Proof. destruct o; [apply emitsOnly_ret | apply emitsOnly_throw]. Qed.

(** A computation that leaves the trace alone. *)
Lemma emitsOnly_silent {A} (m : M A) :
  (∀ w, trace (after m w) = trace w) → emitsOnly P m.
Proof.
  intros H w. exists []. split; [unfold said; rewrite H; now rewrite app_nil_r | constructor].
Qed.

Lemma emitsOnly_existsSync p : emitsOnly P (Fs.existsSync p).
Proof. now apply emitsOnly_silent. Qed.

Lemma emitsOnly_readFileSync p : emitsOnly P (Fs.readFileSync p).
Proof.
  apply emitsOnly_silent. intros w. unfold after, Fs.readFileSync. cbv zeta.
  destruct (files w !! _); [reflexivity |]. now destruct (Fs.isDir w _).
Qed.

Lemma emitsOnly_readdirSync p : emitsOnly P (Fs.readdirSync p).
Proof.
  apply emitsOnly_silent. intros w. unfold after, Fs.readdirSync. cbv zeta.
  destruct (Fs.isDir w _); [reflexivity |]. now destruct (Fs.isFile w _).
Qed.

Lemma emitsOnly_writeFileSync p content :
  (∀ k, P (FsWrite k)) → emitsOnly P (Fs.writeFileSync p content).
Proof.
  intros HP w. unfold said, after.
  destruct (writeFileSync_cases p content w) as [[e ->] | ->]; cbn [snd trace].
  - exists []. split; [now rewrite app_nil_r | constructor].
  - eexists [_]. split; [reflexivity | repeat constructor; apply HP].
Qed.

Lemma emitsOnly_exec (E : Env) command : P (Exec command) → emitsOnly P (exec E command).
Proof.
  intros HP w. exists [Exec command]. unfold said, after, exec.
  split; [destruct (npm E); reflexivity | now repeat constructor].
Qed.

Lemma emitsOnly_fs_writeFileSync p data :
  (∀ k, P (FsWrite k)) → emitsOnly P (fs_writeFileSync p data).
Proof.
  intros HP. unfold fs_writeFileSync.
  destruct data; try apply emitsOnly_throw. now apply emitsOnly_writeFileSync.
Qed.

Lemma emitsOnly_mkdirAt op p k : (∀ d, P (FsMkdir d)) → emitsOnly P (Fs.mkdirAt op p k).
Proof.
  intros HP w. unfold said, after, Fs.mkdirAt.
  destruct (Fs.isFile w k); cbn [snd].
  - exists []. split; [now rewrite app_nil_r | constructor].
  - destruct (existsb _ _); cbn [snd trace].
    + exists []. split; [now rewrite app_nil_r | constructor].
    + eexists [_]. split; [reflexivity | repeat constructor; apply HP].
Qed.

Lemma emitsOnly_outputFileSync p content :
  (∀ k, P (FsWrite k)) → (∀ d, P (FsMkdir d)) →
  emitsOnly P (Fs.outputFileSync p content).
Proof.
  intros HW HM w. unfold Fs.outputFileSync. unfold said, after. cbv zeta.
  destruct (_ || _).
  - apply (emitsOnly_writeFileSync p content HW w).
  - destruct (emitsOnly_mkdirAt "mkdir" p (Fs.parent (Fs.resolve p)) HM w)
      as (evs & Hsaid & Hall).
    unfold said, after in Hsaid.
    destruct (Fs.mkdirAt "mkdir" p (Fs.parent (Fs.resolve p)) w) as [[[] | e] w1];
      cbn [snd] in *.
    + destruct (emitsOnly_writeFileSync p content HW w1) as (evs' & Hsaid' & Hall').
      unfold said, after in Hsaid'.
      exists (evs ++ evs'). split; [rewrite Hsaid', Hsaid; now rewrite app_assoc |].
      now apply Forall_app.
    + now exists evs.
Qed.

Lemma emitsOnly_forEach {A} (l : list A) (f : A → M unit) :
  (∀ x, emitsOnly P (f x)) → emitsOnly P (Legacy.forEach l f).
Proof.
  intros Hf. induction l as [|x l IH]; cbn [Legacy.forEach].
  - apply emitsOnly_ret.
  - apply emitsOnly_bind; [apply Hf | intros _; exact IH].
Qed.

End Emits.

Section LegacySpawnsNothing.

Context (E : Env).

Lemma notExec_console st text : notExec (Console st text).
Proof. intros c. discriminate. Qed.

Lemma notExec_asked qs : notExec (Asked qs).
Proof. intros c. discriminate. Qed.

Lemma notExec_get url : notExec (HttpGet url).
Proof. intros c. discriminate. Qed.

Lemma notExec_mkdir d : notExec (FsMkdir d).
Proof. intros c. discriminate. Qed.

Lemma notExec_write k : notExec (FsWrite k).
Proof. intros c. discriminate. Qed.

(** One step of the syntax-directed proof that a computation spawns no
    child process. *)
Ltac quiet :=
  first
    [ apply emitsOnly_ret
    | apply emitsOnly_throw
    | apply emitsOnly_orThrow
    | apply emitsOnly_existsSync
    | apply emitsOnly_readFileSync
    | apply emitsOnly_readdirSync
    | apply emitsOnly_writeFileSync; intros; apply notExec_write
    | apply emitsOnly_fs_writeFileSync; intros; apply notExec_write
    | apply emitsOnly_mkdirAt; intros; apply notExec_mkdir
    | apply emitsOnly_outputFileSync; intros; [apply notExec_write | apply notExec_mkdir]
    | apply emitsOnly_emit;
      first [apply notExec_console | apply notExec_asked | apply notExec_get]
    | apply emitsOnly_bind; [| intros]
    | apply emitsOnly_tryCatch; [| intros]
    | apply emitsOnly_if
    | apply emitsOnly_forEach; intros
    | progress unfold babel_transformSync, axios_get, inquirer_prompt
    | match goal with
      | |- emitsOnly _ (match ?x with _ => _ end) => destruct x
      end ].

Lemma legacy_fetch_quiet N : emitsOnly notExec (Legacy.fetchComponentFromGitHub E N).
Proof.
  unfold Legacy.fetchComponentFromGitHub, console_error. repeat quiet.
Qed.

Lemma legacy_convert_quiet inputDir outputDir :
  emitsOnly notExec (Legacy.convertTsxToJsx E inputDir outputDir).
Proof.
  unfold Legacy.convertTsxToJsx, Legacy.convertOne, console_log. repeat quiet.
Qed.

(** The legacy program spawns no child process, whatever its arguments. *)
Lemma legacy_spawns_nothing argv : emitsOnly notExec (Legacy.run E argv).
Proof.
  unfold Legacy.run, Legacy.main.
  repeat apply emitsOnly_if.
  - unfold Legacy.setupProject, Legacy.writePreference, console_log, console_error.
    repeat quiet.
  - unfold Legacy.createComponent, Legacy.getPreference, JSON_parse,
      Fs.mkdirSyncRecursive, Fs.mkdirp, console_log, console_warn, console_error.
    repeat quiet;
      first [apply legacy_fetch_quiet | apply legacy_convert_quiet].
  - unfold console_log. repeat quiet.
Qed.

End LegacySpawnsNothing.

(* ===================================================================== *)
(** * The command line *)
(* ===================================================================== *)

Section Dispatch.

Context (E : Env).

Lemma current_other_action argv w :
  argAt argv 0 ≠ Some "setup" → argAt argv 0 ≠ Some "add" →
  printsUsage E argv w.
Proof.
  intros Hs Ha. unfold printsUsage, Current.run, Current.main, tryCatch.
  now rewrite !bool_decide_eq_false_2 by assumption.
Qed.

Lemma current_add_without_name argv w :
  argAt argv 0 = Some "add" → truthy (argAt argv 1) = false →
  Current.run E argv w
  = (Ret tt, mkWorld (files w) (dirs w) (trace w ++ [Console Stderr Current.missingName])).
Proof.
  intros Ha Hn. unfold Current.run, Current.main, tryCatch.
  rewrite bool_decide_eq_false_2 by (rewrite Ha; discriminate).
  rewrite bool_decide_eq_true_2 by exact Ha.
  now rewrite Hn.
Qed.

Lemma legacy_usage argv w :
  argAt argv 0 ≠ Some "setup" →
  (argAt argv 0 = Some "add" → truthy (argAt argv 1) = false) →
  Legacy.run E argv w
  = (Ret tt, mkWorld (files w) (dirs w) (trace w ++ [Console Stdout Legacy.usage])).
Proof.
  intros Hs Ha. unfold Legacy.run, Legacy.main.
  rewrite bool_decide_eq_false_2 by assumption.
  case_bool_decide as Hadd; [rewrite (Ha Hadd) |]; reflexivity.
Qed.

(** A failed installation ends the run before [setupProject] starts. *)
Lemma current_install_failed w stderr :
  npm E = ExecFailed stderr →
  Current.run E ["setup"] w
  = (Ret tt, mkWorld (files w) (dirs w)
               (trace w ++ [Exec Current.installCommand;
                            Console Stderr ("Unexpected error: " +:+ "undefined")])).
Proof.
  intros Hnpm. unfold Current.run, Current.main, tryCatch, argAt. cbn [lookup list_lookup].
  rewrite bool_decide_eq_true_2 by reflexivity.
  unfold bind, Current.installBabelPresets, bind, exec, bind, emit, ret.
  rewrite Hnpm. unfold throw, console_error, emit. cbn [files dirs trace messageOf].
  now rewrite <- app_assoc.
Qed.

End Dispatch.

(** C8, as the program has it: for every invocation whose action is neither
    [setup] nor [add], a missing action included, the current program
    prints the usage text on standard output, does nothing else and ends
    normally; [add] without a component name prints a request for the name
    on the error stream instead.  The legacy program prints its usage text
    on standard output in both cases. *)
Theorem usage_dispatch (E : Env) (argv : list string) (w : World) :
  (argAt argv 0 ≠ Some "setup" → argAt argv 0 ≠ Some "add" → printsUsage E argv w)
  ∧ (argAt argv 0 = Some "add" → truthy (argAt argv 1) = false →
     Current.run E argv w
     = (Ret tt, mkWorld (files w) (dirs w) (trace w ++ [Console Stderr Current.missingName])))
  ∧ (argAt argv 0 ≠ Some "setup" →
     (argAt argv 0 = Some "add" → truthy (argAt argv 1) = false) →
     Legacy.run E argv w
     = (Ret tt, mkWorld (files w) (dirs w) (trace w ++ [Console Stdout Legacy.usage]))).
Proof.
  split; [apply current_other_action |].
  split; [apply current_add_without_name | apply legacy_usage].
Qed.

Lemma usage_dispatch_witness :
  (argAt ["help"] 0 ≠ Some "setup" ∧ argAt ["help"] 0 ≠ Some "add"
   ∧ printsUsage (Demo.scenario Demo.ok) ["help"] Demo.project)
  ∧ (argAt ["add"] 0 = Some "add" ∧ truthy (argAt ["add"] 1) = false
     ∧ Current.run (Demo.scenario Demo.ok) ["add"] Demo.project
       = (Ret tt, mkWorld (files Demo.project) (dirs Demo.project)
                    (trace Demo.project ++ [Console Stderr Current.missingName])))
  ∧ (argAt ["add"] 0 ≠ Some "setup"
     ∧ Legacy.run (Demo.scenario Demo.ok) ["add"] Demo.project
       = (Ret tt, mkWorld (files Demo.project) (dirs Demo.project)
                    (trace Demo.project ++ [Console Stdout Legacy.usage]))).
Proof.
  split; [| split].
  - split; [discriminate |]. split; [discriminate |].
    apply (usage_dispatch (Demo.scenario Demo.ok) ["help"] Demo.project); discriminate.
  - split; [reflexivity |]. split; [reflexivity |].
    apply (usage_dispatch (Demo.scenario Demo.ok) ["add"] Demo.project); reflexivity.
  - split; [discriminate |].
    apply (usage_dispatch (Demo.scenario Demo.ok) ["add"] Demo.project);
      [discriminate | reflexivity].
Defined.

(** C8 as stated fails: [add] without a name is an invocation that is
    neither [setup] nor [add] with a name, and the current program does not
    print the usage text on standard output for it. *)
Lemma add_without_name_is_not_usage :
  argAt ["add"] 0 ≠ Some "setup"
  ∧ truthy (argAt ["add"] 1) = false
  ∧ ¬ printsUsage (Demo.scenario Demo.ok) ["add"] Demo.project.
Proof.
  split; [discriminate |]. split; [reflexivity |].
  unfold printsUsage.
  rewrite (current_add_without_name (Demo.scenario Demo.ok) ["add"] Demo.project eq_refl eq_refl).
  intros H. injection H as H. discriminate.
Qed.

(** C7, as the program has it: in the current program a failure of the
    installation step surfaces as one line on the error stream and ends
    [setup] there: no prompt is shown, nothing is written.  The legacy
    program never spawns the installation, whatever its arguments. *)
Theorem install_failure_aborts_setup (E : Env) (w : World) (stderr : string) :
  npm E = ExecFailed stderr →
  (∃ detail,
     Current.run E ["setup"] w
     = (Ret tt, mkWorld (files w) (dirs w)
                  (trace w ++ [Exec Current.installCommand;
                               Console Stderr ("Unexpected error: " +:+ detail)])))
  ∧ ¬ setupContinues E w
  ∧ (∀ argv, emitsOnly notExec (Legacy.run E argv)).
Proof.
  intros Hnpm.
  pose proof (current_install_failed E w stderr Hnpm) as Hrun.
  split; [eexists; exact Hrun |].
  split; [| apply legacy_spawns_nothing].
  unfold setupContinues, said, after. rewrite Hrun. cbn [snd trace].
  intros (evs & Hsaid & Hin & _). apply app_inv_head in Hsaid. subst evs.
  destruct Hin as [H | [H | []]]; discriminate.
Qed.

Lemma install_failure_aborts_setup_witness :
  npm Demo.brokenInstall = ExecFailed "npm ERR! network"
  ∧ ¬ setupContinues Demo.brokenInstall
        Demo.project.
Proof.
  split; [reflexivity |].
  apply (install_failure_aborts_setup
           Demo.brokenInstall
           Demo.project "npm ERR! network").
  reflexivity.
Defined.

(** C7 as stated fails: with a failing installation the current [setup]
    neither prompts nor writes the preference. *)
Lemma install_failure_blocks_setup :
  npm Demo.brokenInstall
  = ExecFailed "npm ERR! network"
  ∧ trace (after (Current.run Demo.brokenInstall ["setup"]) Demo.project)
    = [Exec Current.installCommand; Console Stderr "Unexpected error: undefined"]
  ∧ files (after (Current.run Demo.brokenInstall ["setup"]) Demo.project)
    = files Demo.project
  ∧ ¬ setupContinues Demo.brokenInstall
        Demo.project.
Proof.
  split; [reflexivity |].
  unfold setupContinues, said, after.
  rewrite (current_install_failed Demo.brokenInstall Demo.project "npm ERR! network" eq_refl).
  cbn [snd trace files].
  split; [reflexivity |]. split; [reflexivity |].
  intros (evs & Hsaid & Hin & _). apply app_inv_head in Hsaid. subst evs.
  destruct Hin as [H | [H | []]]; discriminate.
Qed.

(* ===================================================================== *)
(** * Names without a separator *)
(* ===================================================================== *)

Section PlainNames.

Context (E : Env).

Lemma contains_app c a b : Js.contains c (a +:+ b) = Js.contains c a || Js.contains c b.
Proof.
  induction a as [|x a IH]; simpl; [reflexivity |]. now rewrite IH, orb_assoc.
Qed.

Lemma length_app_str a b : String.length (a +:+ b) = String.length a + String.length b.
Proof. induction a as [|x a IH]; simpl; [reflexivity | now rewrite IH]. Qed.

(** A name without a separator, with its extension, is a plain segment. *)
Lemma file_name_plain N lang :
  Js.contains Path.slash N = false → plain (N +:+ "." +:+ Current.extensionOf lang).
Proof.
  intros HN.
  assert (Hlen : 4 ≤ String.length (N +:+ "." +:+ Current.extensionOf lang)).
  { rewrite length_app_str. unfold Current.extensionOf.
    destruct (Json.isString lang "javascript"); simpl; lia. }
  repeat split.
  - intros H. rewrite H in Hlen. simpl in Hlen. lia.
  - intros H. rewrite H in Hlen. simpl in Hlen. lia.
  - intros H. rewrite H in Hlen. simpl in Hlen. lia.
  - rewrite contains_app, HN. unfold Current.extensionOf.
    destruct (Json.isString lang "javascript"); reflexivity.
Qed.

(** For such a name the output file sits directly in the component
    directory, so making the directory is all the write needs. *)
Lemma plain_name_writePossible w cp N lang :
  Path.isAbsolute (cwd E) = true →
  Js.contains Path.slash N = false →
  Fs.isDir w (Fs.resolve (Current.componentFileOf (Current.componentDirOf E cp) N
                            (Current.extensionOf lang))) = false →
  Fs.resolve (Current.componentFileOf (Current.componentDirOf E cp) N (Current.extensionOf lang))
  = Fs.resolve (Current.componentDirOf E cp) ++ [N +:+ "." +:+ Current.extensionOf lang]
  ∧ writePossible (madeDir w (Current.componentDirOf E cp))
      (Current.componentFileOf (Current.componentDirOf E cp) N (Current.extensionOf lang)).
Proof.
  intros Habs HN Hnd.
  set (dir := Current.componentDirOf E cp) in *.
  assert (Hk : Fs.resolve (Current.componentFileOf dir N (Current.extensionOf lang))
               = Fs.resolve dir ++ [N +:+ "." +:+ Current.extensionOf lang]).
  { unfold Current.componentFileOf. apply join2_name.
    - now apply join2_absolute.
    - now apply file_name_plain. }
  split; [exact Hk |].
  unfold writePossible. rewrite Hk in *. split.
  - apply not_true_is_false. intros Hd. apply isDir_spec in Hd as [Hd | Hd].
    + now destruct (Fs.resolve dir).
    + unfold madeDir in Hd. cbn [dirs] in Hd. apply elem_of_union in Hd as [Hd | Hd].
      * assert (Fs.isDir w (Fs.resolve dir ++ [N +:+ "." +:+ Current.extensionOf lang]) = true)
          by (apply isDir_spec; now right).
        congruence.
      * apply elem_of_list_to_set, list_elem_of_In, prefixes_prefix, prefix_length in Hd.
        rewrite length_app in Hd. simpl in Hd. lia.
  - apply isDir_spec. right. unfold madeDir, Fs.parent. cbn [dirs].
    rewrite removelast_last. apply mkdirp_dirs, prefixes_self.
Qed.

End PlainNames.

(* ===================================================================== *)
(** * Instances *)
(* ===================================================================== *)


Lemma demo_stored (r : reply) (l c : string) :
  stored (Demo.scenario r) (Demo.configured l c) (Json.Str l) c.
Proof.
  exists (Json.Obj [("language", Json.Str l); ("componentPath", Json.Str c)]).
  split; [| split; reflexivity].
  unfold result. erewrite getPreference_stored; [reflexivity | | apply parse_stringify_two].
  reflexivity.
Qed.





(** C10: the component name goes into the output path as it is, and the
    file is written where the path leads.  For the name ../../x, in a project
    whose component directory lies at least two levels below the root, a
    successful [add] writes x.<ext> two levels above the component
    directory, hence outside it. *)
Theorem name_escapes_component_directory (E : Env) (w : World) (lang : Json.value)
    (cp txt B content : string) :
  Path.isAbsolute (cwd E) = true →
  2 ≤ length (Fs.resolve (Current.componentDirOf E cp)) →
  stored E w lang cp →
  pathText cp →
  remote E (Current.componentUrl "../../x") = Http 200 txt B →
  verbatim B →
  (if Json.isString lang "javascript"
   then babel E (Json.Str B) ("../../x" +:+ ".tsx") = inl content else content = B) →
  mkdirPossible w (Current.componentDirOf E cp) →
  writePossible (madeDir w (Current.componentDirOf E cp))
    (Current.componentFileOf (Current.componentDirOf E cp) "../../x"
       (Current.extensionOf lang)) →
  files (after (Current.run E ["add"; "../../x"]) w)
    !! (take (length (Fs.resolve (Current.componentDirOf E cp)) - 2)
          (Fs.resolve (Current.componentDirOf E cp))
        ++ ["x." +:+ Current.extensionOf lang])
  = Some content
  ∧ In (FsWrite (take (length (Fs.resolve (Current.componentDirOf E cp)) - 2)
                   (Fs.resolve (Current.componentDirOf E cp))
                 ++ ["x." +:+ Current.extensionOf lang]))
       (trace (after (Current.run E ["add"; "../../x"]) w))
  ∧ ¬ inside (Fs.resolve (Current.componentDirOf E cp))
        (take (length (Fs.resolve (Current.componentDirOf E cp)) - 2)
           (Fs.resolve (Current.componentDirOf E cp))
         ++ ["x." +:+ Current.extensionOf lang]).
Proof.
  intros Habs Hlen Hst Hcp Hrem Hverb Hc Hmk Hwr.
  destruct (escaping_file_path E cp lang Habs Hlen) as [Hpath Hout].
  destruct (add_written E "../../x" w lang cp txt B content ltac:(discriminate)
              Hst Hcp Hrem Hverb Hc Hmk Hwr) as [Hfiles Hsaid].
  rewrite <- Hpath. split; [| split; [| exact Hout]].
  - rewrite Hfiles. apply lookup_insert_eq.
  - unfold said in Hsaid. rewrite Hsaid. apply in_or_app. right. simpl. tauto.
Qed.

Lemma name_escapes_component_directory_witness :
  (Path.isAbsolute (cwd (Demo.scenario Demo.ok)) = true
   ∧ stored (Demo.scenario Demo.ok) (Demo.configured "typescript" "app/multi-ui/components")
       (Json.Str "typescript") "app/multi-ui/components"
   ∧ verbatim Demo.source)
  ∧ files (after (Current.run (Demo.scenario Demo.ok) ["add"; "../../x"])
             (Demo.configured "typescript" "app/multi-ui/components"))
      !! (Demo.home ++ ["app"; "x.tsx"])
    = Some Demo.source
  ∧ ¬ inside (Demo.home ++ ["app"; "multi-ui"; "components"]) (Demo.home ++ ["app"; "x.tsx"]).
Proof.
  assert (Hverb : verbatim Demo.source) by (vm_compute; reflexivity).
  split; [split; [reflexivity | split; [apply demo_stored | exact Hverb]] |].
  destruct (name_escapes_component_directory (Demo.scenario Demo.ok)
              (Demo.configured "typescript" "app/multi-ui/components")
              (Json.Str "typescript") "app/multi-ui/components" "OK" Demo.source Demo.source
              eq_refl ltac:(vm_compute; lia) (demo_stored _ _ _) eq_refl eq_refl Hverb eq_refl
              ltac:(vm_compute; reflexivity) ltac:(split; vm_compute; reflexivity))
    as (Hfile & _ & Hout).
  split; [exact Hfile | exact Hout].
Defined.

(* ===================================================================== *)
(** * The legacy program *)
(* ===================================================================== *)

Section LegacyFacts.

Context (E : Env).

Lemma legacy_getPreference_frame w :
  files (after (Legacy.getPreference E) w) = files w
  ∧ dirs (after (Legacy.getPreference E) w) = dirs w.
Proof.
  unfold after, Legacy.getPreference, bind, Fs.existsSync, Fs.readFileSync, JSON_parse, orThrow.
  cbv zeta.
  destruct (Fs.isFile w _ || Fs.isDir w _).
  - destruct (files w !! _) as [text|].
    + destruct (Json.parse text) as [v|]; [| simpl; auto].
      unfold ret. destruct (Json.getProp v "language"); simpl; auto.
    + destruct (Fs.isDir w _); simpl; auto.
  - simpl. auto.
Qed.

Lemma legacy_fetch_failed N w :
  (∀ txt body, remote E (Legacy.componentUrl N) ≠ Http 200 txt body) →
  ∃ e, result (Legacy.fetchComponentFromGitHub E N) w = Throw e
       ∧ files (after (Legacy.fetchComponentFromGitHub E N) w) = files w
       ∧ dirs (after (Legacy.fetchComponentFromGitHub E N) w) = dirs w.
Proof.
  intros Hno.
  unfold result, after, Legacy.fetchComponentFromGitHub, tryCatch, axios_get, bind, emit,
    throw, ret, console_error, emit.
  cbv zeta. cbn [fst snd].
  destruct (remote E (Legacy.componentUrl N)) as [st txt body | msg] eqn:Hr.
  - destruct ((200 <=? st)%nat && (st <? 300)%nat); cbn [status statusText data].
    + destruct (st =? 200)%nat eqn:H200.
      * apply Nat.eqb_eq in H200. subst. now destruct (Hno txt body).
      * eexists. repeat split.
    + eexists. repeat split.
  - eexists. repeat split.
Qed.

(** In the legacy program too, a failed fetch finds the component
    directory in place and leaves every file as it was. *)
Lemma legacy_directory_before_fetch N w lang :
  N ≠ "" →
  result (Legacy.getPreference E) w = Ret lang →
  (∀ txt body, remote E (Legacy.componentUrl N) ≠ Http 200 txt body) →
  mkdirPossible w (Path.join [cwd E; "multi-ui"; "components"]) →
  Fs.isDir (after (Legacy.run E ["add"; N]) w)
    (Fs.resolve (Path.join [cwd E; "multi-ui"; "components"])) = true
  ∧ files (after (Legacy.run E ["add"; N]) w) = files w.
Proof.
  intros HN Hpref Hno Hmk.
  cut (∃ w', Legacy.run E ["add"; N] w = (Ret tt, w')
             ∧ Fs.isDir w' (Fs.resolve (Path.join [cwd E; "multi-ui"; "components"])) = true
             ∧ files w' = files w).
  { intros (w' & Hrun & Hdir & Hfiles). unfold after. now rewrite Hrun. }
  unfold Legacy.run, Legacy.main, argAt. cbn [lookup list_lookup].
  rewrite bool_decide_eq_false_2 by discriminate.
  rewrite bool_decide_eq_true_2 by reflexivity.
  unfold truthy. rewrite (string_eqb_neq _ _ HN). cbn [negb andb].
  change (default "" (Some N)) with N.
  destruct (legacy_getPreference_frame w) as (Hf & Hd).
  unfold Legacy.createComponent, tryCatch, bind at 1.
  unfold result, after in Hpref, Hf, Hd.
  destruct (Legacy.getPreference E w) as [r w1]. cbn [fst snd] in *. subst r.
  set (dir := Path.join [cwd E; "multi-ui"; "components"]) in *.
  assert (Hmk1 : mkdirPossible w1 dir)
    by (eapply mkdirPossible_same; [symmetry; exact Hf | exact Hmk]).
  assert (Hnofile : Fs.isFile w1 (Fs.resolve dir) = false).
  { destruct (Fs.isFile w1 (Fs.resolve dir)) eqn:Hfile; [| reflexivity].
    unfold mkdirPossible in Hmk1.
    assert (existsb (Fs.isFile w1) (Fs.prefixes (Fs.resolve dir)) = true); [| congruence].
    apply existsb_exists. exists (Fs.resolve dir). split; [apply prefixes_self | exact Hfile]. }
  assert (Hstep : ∃ w2,
            (if negb (Fs.isFile w1 (Fs.resolve dir) || Fs.isDir w1 (Fs.resolve dir))
             then Fs.mkdirSyncRecursive dir else ret tt) w1 = (Ret tt, w2)
            ∧ files w2 = files w1 ∧ Fs.isDir w2 (Fs.resolve dir) = true).
  { rewrite Hnofile. cbn [orb].
    destruct (Fs.isDir w1 (Fs.resolve dir)) eqn:Hdir; cbn [negb].
    - exists w1. repeat split; auto.
    - eexists. unfold Fs.mkdirSyncRecursive. rewrite (mkdirp_ok _ _ _ Hmk1).
      repeat split. apply isDir_spec. right. cbn [dirs]. apply mkdirp_dirs, prefixes_self. }
  destruct Hstep as (w2 & Hstep & Hf2 & Hd2).
  cbv zeta. unfold bind at 1, Fs.existsSync. cbv zeta. cbv beta iota.
  unfold bind at 1. rewrite Hstep.
  unfold bind at 1, console_log, emit.
  set (w3 := mkWorld (files w2) (dirs w2) _).
  destruct (legacy_fetch_failed N w3 Hno) as (e & Hr & Hff & Hfd).
  unfold bind. unfold result, after in Hr, Hff, Hfd.
  destruct (Legacy.fetchComponentFromGitHub E N w3) as [r w4]. cbn [fst snd] in *. subst r.
  unfold console_error, emit. eexists. split; [reflexivity |]. cbn [files dirs].
  split.
  - rewrite (isDir_same _ w2); [exact Hd2 |]. cbn [dirs]. rewrite Hfd. reflexivity.
  - rewrite Hff. subst w3. cbn [files]. congruence.
Qed.

End LegacyFacts.

(* ===================================================================== *)
(** * The scenarios of the specification, run *)
(* ===================================================================== *)

(** Scenario 2: a TypeScript project gets the body as it came. *)
Example scenario_add_typescript :
  map_to_list (files (after (Current.run (Demo.scenario Demo.ok) ["add"; "Button_1"])
                        (Demo.configured "typescript" "app/multi-ui/components")))
  = [(Demo.home ++ ["app"; "multi-ui"; "components"; "Button_1.tsx"], Demo.source);
     (Demo.home ++ ["multi-ui.config.json"],
      Json.stringify [("language", "typescript");
                      ("componentPath", "app/multi-ui/components")])].
Proof. vm_compute. reflexivity. Qed.

(** Scenario 4: a missing component, from start to end. *)
Example scenario_add_missing :
  Current.run (Demo.scenario Demo.notFound) ["add"; "Missing_1"]
    (Demo.configured "typescript" "app/multi-ui/components")
  = (Ret tt,
     mkWorld (files (Demo.configured "typescript" "app/multi-ui/components"))
       (dirs (Demo.configured "typescript" "app/multi-ui/components")
        ∪ list_to_set (Fs.prefixes (Demo.home ++ ["app"; "multi-ui"; "components"])))
       [FsMkdir (Demo.home ++ ["app"; "multi-ui"; "components"]);
        fetching "Missing_1";
        HttpGet "https://raw.githubusercontent.com/om0852/multi-ui/main/app/missing/_components/Missing_1.tsx";
        Console Stderr
          ("Error creating component: Component 'Missing_1' not found at path: "
           +:+ "https://raw.githubusercontent.com/om0852/multi-ui/main/app/missing/_components/Missing_1.tsx"
           +:+ nl +:+ "Please check the component name and path.")]).
Proof. vm_compute. reflexivity. Qed.

(** A body that is JSON text reaches the program parsed: an array is no
    content for a file. *)
Example scenario_array_body :
  trace (after (Current.run (Demo.scenario (Http 200 "OK" "[1, 2]")) ["add"; "Button_1"])
           (Demo.configured "typescript" "lib"))
  = [FsMkdir (Demo.home ++ ["lib"]);
     fetching "Button_1";
     HttpGet "https://raw.githubusercontent.com/om0852/multi-ui/main/app/button/_components/Button_1.tsx";
     Console Stderr
       ("Error creating component: The " +:+ Json.q +:+ "data" +:+ Json.q
        +:+ " argument must be of type string or an instance of Buffer, TypedArray, "
        +:+ "or DataView. Received an instance of Array")].
Proof. vm_compute. reflexivity. Qed.

(** A byte-order mark in front of the body does not reach the file. *)
Example scenario_bom_body :
  files (after (Current.run (Demo.scenario (Http 200 "OK" (bom +:+ Demo.source)))
                  ["add"; "Button_1"])
           (Demo.configured "typescript" "lib"))
    !! (Demo.home ++ ["lib"; "Button_1.tsx"])
  = Some Demo.source.
Proof. vm_compute. reflexivity. Qed.

(** A setup, from start to end: the preference file goes into what the
    installation left. *)
Example scenario_setup :
  map fst (map_to_list (files (after (Current.run (Demo.scenario Demo.ok) ["setup"])
                                 Demo.project)))
  ≡ₚ [Demo.home ++ ["multi-ui.config.json"]; Demo.home ++ ["package.json"];
      Demo.home ++ ["package-lock.json"];
      Demo.home ++ ["node_modules"; ".package-lock.json"]]
  ∧ trace (after (Current.run (Demo.scenario Demo.ok) ["setup"]) Demo.project)
    = [Exec Current.installCommand; Asked ["language"; "directory"];
       FsWrite (Demo.home ++ ["multi-ui.config.json"]);
       Console Stdout "Setup complete! Language: TypeScript, Components Path: app/multi-ui/components"].
Proof.
  split; [| vm_compute; reflexivity].
  apply (bool_decide_unpack _). vm_compute. exact I.
Qed.

(** Two escaped surrogate halves are one character; a half on its own is
    the replacement character. *)
Example json_ex5 :
  Json.parse (Json.q +:+ "\ud83d\ude00" +:+ Json.q) = Some (Json.Str (Json.utf8 128512))
  ∧ Json.parse (Json.q +:+ "\ud83d" +:+ Json.q) = Some (Json.Str Json.replacement)
  ∧ Json.parse (Json.q +:+ "\ude00\ud83d" +:+ Json.q)
    = Some (Json.Str (Json.replacement +:+ Json.replacement)).
Proof. vm_compute. repeat split; reflexivity. Qed.

(** A source that Babel refuses: nothing is written. *)
Example scenario_transform_fails :
  files (after (Current.run (Demo.scenario (Http 200 "OK" "")) ["add"; "Button_1"])
           (Demo.configured "javascript" "app/multi-ui/components"))
  = files (Demo.configured "javascript" "app/multi-ui/components").
Proof. vm_compute. reflexivity. Qed.

(** A name with a separator whose directory is not there: the write fails. *)
Example scenario_nested_name :
  trace (after (Current.run (Demo.scenario Demo.ok) ["add"; "a/b"]) Demo.project)
  = [Console Stderr Current.noPreference;
     FsMkdir (Demo.home ++ ["src"; "app"; "multi-ui"; "components"]);
     fetching "a/b";
     HttpGet "https://raw.githubusercontent.com/om0852/multi-ui/main/app/a/b/_components/a/b.tsx";
     Console Stderr
       "Error creating component: ENOENT: no such file or directory, open '/home/user/project/src/app/multi-ui/components/a/b.tsx'"].
Proof. vm_compute. reflexivity. Qed.

(** A name that climbs out of the component directory: the file lands in
    the project root. *)
Example scenario_escaping_name :
  map_to_list (files (after (Current.run (Demo.scenario Demo.ok) ["add"; "../../../../x"])
                        Demo.project))
  = [(Demo.home ++ ["x.tsx"], Demo.source)].
Proof. vm_compute. reflexivity. Qed.

(** A regular file in the way of the component directory: no request. *)
Example scenario_blocked_directory :
  trace (after (Current.run (Demo.scenario Demo.ok) ["add"; "Button_1"]) Demo.blocked)
  = [Console Stderr Current.noPreference;
     Console Stderr
       "Error creating component: ENOTDIR: not a directory, mkdir '/home/user/project/src/app/multi-ui/components'"].
Proof. vm_compute. reflexivity. Qed.

(** The legacy program, TypeScript: the body goes to the fixed directory. *)
Example legacy_add_typescript :
  map_to_list (files (after (Legacy.run (Demo.scenario Demo.ok) ["add"; "Button_1"])
                        (Demo.legacyConfigured "typescript")))
  = [(Demo.home ++ ["multi-ui"; "components"; "Button_1.tsx"], Demo.source);
     (Demo.home ++ ["multi-ui.config.json"], Json.stringify [("language", "typescript")])].
Proof. vm_compute. reflexivity. Qed.

(** The legacy program, JavaScript: the fetched body is never written;
    the run ends in the directory scan of its converter. *)
Example legacy_add_javascript :
  Legacy.run (Demo.scenario Demo.ok) ["add"; "Button_1"] (Demo.legacyConfigured "javascript")
  = (Ret tt,
     mkWorld (files (Demo.legacyConfigured "javascript"))
       (dirs (Demo.legacyConfigured "javascript")
        ∪ list_to_set (Fs.prefixes (Demo.home ++ ["multi-ui"; "components"])))
       [FsMkdir (Demo.home ++ ["multi-ui"; "components"]);
        fetching "Button_1";
        HttpGet "https://raw.githubusercontent.com/om0852/multi-ui/main/src/app/button/_components/Button_1.tsx";
        Console Stdout "Converting Button_1 to JavaScript...";
        Console Stderr
          "Error creating component: Error: ENOENT: no such file or directory, scandir '/home/user/project/multi-ui/components/Button_1'"]).
Proof. vm_compute. reflexivity. Qed.

(** The legacy program does not tell a 404 from other failures. *)
Example legacy_add_missing :
  trace (after (Legacy.run (Demo.scenario Demo.notFound) ["add"; "Missing_1"])
           (Demo.legacyConfigured "typescript"))
  = [FsMkdir (Demo.home ++ ["multi-ui"; "components"]);
     fetching "Missing_1";
     HttpGet "https://raw.githubusercontent.com/om0852/multi-ui/main/src/app/missing/_components/Missing_1.tsx";
     Console Stderr "Error fetching component from GitHub: Request failed with status code 404";
     Console Stderr "Error creating component: AxiosError: Request failed with status code 404"].
Proof. vm_compute. reflexivity. Qed.

(** The legacy program glues the name into the path as well. *)
Example legacy_escaping_name :
  map_to_list (files (after (Legacy.run (Demo.scenario Demo.ok) ["add"; "../x"])
                        (Demo.legacyConfigured "typescript")))
  = [(Demo.home ++ ["multi-ui"; "x.tsx"], Demo.source);
     (Demo.home ++ ["multi-ui.config.json"], Json.stringify [("language", "typescript")])].
Proof. vm_compute. reflexivity. Qed.

(* ===================================================================== *)
(** * Further properties of the two programs *)
(* ===================================================================== *)

Section Boundaries.

Context (E : Env).

(** A [try] whose [catch] only prints ends normally. *)
Lemma tryCatch_prints (m : M unit) (f : thrown → string) (w : World) :
  result (tryCatch m (fun e => console_error (f e))) w = Ret tt.
Proof.
  unfold result, tryCatch. destruct (m w) as [[[] | e] w1]; reflexivity.
Qed.

End Boundaries.

(** X1: neither program ever ends in an unhandled rejection: whatever the
    arguments, the environment and the file system, the entry point returns
    normally.  The current one has a [catch] on [main()]; the legacy one
    calls [main()] bare, and each of its operations catches everything
    itself. *)
Theorem entry_points_never_reject (E : Env) (argv : list string) (w : World) :
  result (Current.run E argv) w = Ret tt ∧ result (Legacy.run E argv) w = Ret tt.
Proof.
  split.
  - unfold Current.run. apply tryCatch_prints.
  - unfold Legacy.run, Legacy.main.
    destruct (bool_decide (argAt argv 0 = Some "setup")).
    + unfold Legacy.setupProject. apply tryCatch_prints.
    + destruct (bool_decide (argAt argv 0 = Some "add") && truthy (argAt argv 1)).
      * unfold Legacy.createComponent. apply tryCatch_prints.
      * reflexivity.
Qed.

(** X2: a preference file written by the legacy [setup] is of no use to the
    current [add].  It holds a language and no component path, so
    [path.join] is handed [undefined] and throws before the [try] block is
    entered: the run prints that one error through the top-level handler
    and does nothing else (no directory made, no request, no file written). *)
Theorem add_after_legacy_setup (E : Env) (N l : string) (w : World) :
  N ≠ "" →
  files w !! Fs.resolve (Current.CONFIG_FILE E) = Some (Json.stringify [("language", l)]) →
  Legacy.preferenceFile E = Current.CONFIG_FILE E
  ∧ Current.run E ["add"; N] w
    = (Ret tt,
       mkWorld (files w) (dirs w)
         (trace w ++ [Console Stderr
                        ("Unexpected error: The " +:+ Json.q +:+ "path" +:+ Json.q
                         +:+ " argument must be of type string. Received undefined")])).
Proof.
  intros HN Hfile. split; [reflexivity |].
  rewrite (run_add E N w _ eq_refl HN).
  unfold tryCatch, Current.createComponent, bind at 1.
  rewrite (getPreference_stored E w _ _ Hfile (parse_stringify_one "language" l)).
  unfold Current.destructure, bind, orThrow, ret. cbn [Json.getProp Json.lookupLast String.eqb
    Ascii.eqb Bool.eqb fst snd].
  rewrite path_join_cwd. reflexivity.
Qed.

Lemma add_after_legacy_setup_witness :
  files (after (Legacy.run (Demo.scenario Demo.ok) ["setup"]) Demo.project)
    !! Fs.resolve (Current.CONFIG_FILE (Demo.scenario Demo.ok))
  = Some (Json.stringify [("language", "typescript")])
  ∧ trace (after (Current.run (Demo.scenario Demo.ok) ["add"; "Button_1"])
             (after (Legacy.run (Demo.scenario Demo.ok) ["setup"]) Demo.project))
    = trace (after (Legacy.run (Demo.scenario Demo.ok) ["setup"]) Demo.project)
      ++ [Console Stderr
            ("Unexpected error: The " +:+ Json.q +:+ "path" +:+ Json.q
             +:+ " argument must be of type string. Received undefined")].
Proof.
  assert (H : files (after (Legacy.run (Demo.scenario Demo.ok) ["setup"]) Demo.project)
                !! Fs.resolve (Current.CONFIG_FILE (Demo.scenario Demo.ok))
              = Some (Json.stringify [("language", "typescript")]))
    by (vm_compute; reflexivity).
  split; [exact H |].
  unfold after at 1.
  rewrite (proj2 (add_after_legacy_setup (Demo.scenario Demo.ok) "Button_1" "typescript"
                    (after (Legacy.run (Demo.scenario Demo.ok) ["setup"]) Demo.project)
                    ltac:(discriminate) H)).
  reflexivity.
Defined.

Section LanguageMatch.

Context (E : Env).

Lemma isString_other lang s : lang ≠ Json.Str s → Json.isString lang s = false.
Proof.
  intros H. destruct lang as [| | | | x | |]; try reflexivity.
  cbn [Json.isString]. apply string_eqb_neq. congruence.
Qed.

End LanguageMatch.

(** X3: the language test is an exact match on the string javascript.  For
    any other stored value (typescript, a different capitalisation, a
    number, nothing at all) a successful [add] writes the body as it came,
    into <name>.tsx, and Babel has no say in the result. *)
Theorem add_other_language (E : Env) (N : string) (w : World)
    (lang : Json.value) (cp txt B : string) :
  N ≠ "" →
  stored E w lang cp →
  pathText cp →
  lang ≠ Json.Str "javascript" →
  remote E (Current.componentUrl N) = Http 200 txt B →
  verbatim B →
  mkdirPossible w (Current.componentDirOf E cp) →
  writePossible (madeDir w (Current.componentDirOf E cp))
    (Current.componentFileOf (Current.componentDirOf E cp) N "tsx") →
  files (after (Current.run E ["add"; N]) w)
  = <[Fs.resolve (Current.componentFileOf (Current.componentDirOf E cp) N "tsx") := B]>
      (files w).
Proof.
  intros HN Hst Hcp Hlang Hrem Hverb Hmk Hwr.
  pose proof (isString_other lang "javascript" Hlang) as Hjs.
  assert (Hext : Current.extensionOf lang = "tsx")
    by (unfold Current.extensionOf; now rewrite Hjs).
  rewrite <- Hext in *.
  apply (add_written E N w lang cp txt B B HN Hst Hcp Hrem Hverb ltac:(now rewrite Hjs)
           Hmk Hwr).
Qed.

Lemma add_other_language_witness :
  stored (Demo.scenario Demo.ok) (Demo.configured "JavaScript" "lib") (Json.Str "JavaScript") "lib"
  ∧ verbatim Demo.source
  ∧ files (after (Current.run (Demo.scenario Demo.ok) ["add"; "Button_1"])
             (Demo.configured "JavaScript" "lib"))
    !! (Demo.home ++ ["lib"; "Button_1.tsx"]) = Some Demo.source.
Proof.
  assert (Hverb : verbatim Demo.source) by (vm_compute; reflexivity).
  split; [apply demo_stored |]. split; [exact Hverb |].
  rewrite (add_other_language (Demo.scenario Demo.ok) "Button_1"
             (Demo.configured "JavaScript" "lib") (Json.Str "JavaScript") "lib" "OK" Demo.source
             ltac:(discriminate) (demo_stored _ _ _) eq_refl ltac:(discriminate) eq_refl Hverb
             ltac:(vm_compute; reflexivity) ltac:(split; vm_compute; reflexivity)).
  vm_compute. reflexivity.
Defined.



(** X5: the preference file is overwritten without asking.  When a second
    [setup] runs where a first one has stored its preference, and the file
    can still be written once the second installation is over, the write
    goes through: the file that held the first preference holds the second,
    and the second is what is read from then on. *)
Theorem last_setup_wins (E1 E2 : Env) (w : World) (L1 L2 : choice) (D1 D2 : string) :
  cwd E1 = cwd E2 →
  npm E1 = ExecOk → prompt E1 = inl (mkAnswers L1 D1) →
  writePossible (installed E1 w) (Current.CONFIG_FILE E1) →
  npm E2 = ExecOk → prompt E2 = inl (mkAnswers L2 D2) →
  writePossible (installed E2 (after (Current.run E1 ["setup"]) w)) (Current.CONFIG_FILE E2) →
  files (after (Current.run E1 ["setup"]) w) !! Fs.resolve (Current.CONFIG_FILE E2)
  = Some (Json.stringify [("language", Js.toLowerCase (label L1));
                          ("componentPath", Path.join [D1; "multi-ui"; "components"])])
  ∧ files (after (Current.run E2 ["setup"]) (after (Current.run E1 ["setup"]) w))
      !! Fs.resolve (Current.CONFIG_FILE E2)
    = Some (Json.stringify [("language", Js.toLowerCase (label L2));
                            ("componentPath", Path.join [D2; "multi-ui"; "components"])])
  ∧ result (Current.getPreference E2)
      (after (Current.run E2 ["setup"]) (after (Current.run E1 ["setup"]) w))
    = Ret (Json.Obj [("language", Json.Str (Js.toLowerCase (label L2)));
                     ("componentPath", Json.Str (Path.join [D2; "multi-ui"; "components"]))]).
Proof.
  intros Hcwd Hn1 Hp1 Hw1 Hn2 Hp2 Hw2.
  assert (Hcfg : Current.CONFIG_FILE E1 = Current.CONFIG_FILE E2)
    by (unfold Current.CONFIG_FILE; now rewrite Hcwd).
  split; [| split].
  - unfold after. rewrite (current_setup_run E1 w L1 D1 Hn1 Hp1 Hw1). cbn [snd files].
    rewrite Hcfg. apply lookup_insert_eq.
  - set (w1 := after (Current.run E1 ["setup"]) w) in *.
    unfold after. rewrite (current_setup_run E2 w1 L2 D2 Hn2 Hp2 Hw2). cbn [snd files].
    apply lookup_insert_eq.
  - apply (setup_then_read E2 _ L2 D2 Hn2 Hp2 Hw2).
Qed.

Lemma last_setup_wins_witness :
  cwd (Demo.env Demo.ok JavaScript "lib" ExecOk) = cwd (Demo.env Demo.ok TypeScript "app/" ExecOk)
  ∧ result (Current.getPreference (Demo.env Demo.ok TypeScript "app/" ExecOk))
      (after (Current.run (Demo.env Demo.ok TypeScript "app/" ExecOk) ["setup"])
         (after (Current.run (Demo.env Demo.ok JavaScript "lib" ExecOk) ["setup"]) Demo.project))
    = Ret (Json.Obj [("language", Json.Str "typescript");
                     ("componentPath", Json.Str "app/multi-ui/components")]).
Proof.
  split; [reflexivity |].
  apply (last_setup_wins (Demo.env Demo.ok JavaScript "lib" ExecOk)
           (Demo.env Demo.ok TypeScript "app/" ExecOk) Demo.project
           JavaScript TypeScript "lib" "app/");
    first [reflexivity | split; vm_compute; reflexivity].
Defined.

Section SetupFailures.

Context (E : Env).

Lemma writeFileSync_impossible p content w :
  ¬ writePossible w p → ∃ e, Fs.writeFileSync p content w = (Throw e, w).
Proof.
  intros Hno. unfold Fs.writeFileSync. cbv zeta.
  destruct (Fs.isDir w (Fs.resolve p)) eqn:H1; [eauto |].
  destruct (Fs.isDir w (Fs.parent (Fs.resolve p))) eqn:H2.
  - destruct Hno. now split.
  - destruct (existsb _ _); eauto.
Qed.

(** With the installation over, [setup] goes on in the tree it left. *)
Lemma current_setup_shape w :
  npm E = ExecOk →
  Current.run E ["setup"] w
  = tryCatch (Current.setupProject E)
      (fun error => console_error ("Unexpected error: " +:+ messageOf error))
      (mkWorld (files (installed E w)) (dirs (installed E w))
         (trace w ++ [Exec Current.installCommand])).
Proof.
  intros Hnpm. unfold Current.run, Current.main, tryCatch, argAt. cbn [lookup list_lookup].
  rewrite bool_decide_eq_true_2 by reflexivity.
  unfold bind at 1. unfold Current.installBabelPresets, bind, exec, ret.
  rewrite Hnpm. cbn [fst snd files dirs trace]. reflexivity.
Qed.

(** What [setupProject] itself does to the file system. *)
Lemma current_setupProject_frame w :
  dirs (after (Current.setupProject E) w) = dirs w
  ∧ ∀ k, k ≠ Fs.resolve (Current.CONFIG_FILE E) →
         files (after (Current.setupProject E) w) !! k = files w !! k.
Proof.
  unfold after, Current.setupProject, tryCatch, bind, inquirer_prompt, bind, emit, ret, throw.
  cbn [fst snd]. destruct (prompt E) as [a | e]; [| now split].
  unfold Current.writeConfig.
  match goal with |- context [Fs.writeFileSync ?p ?c ?w0] =>
    destruct (writeFileSync_cases p c w0) as [[e ->] | ->] end; cbn [snd files dirs].
  - now split.
  - split; [reflexivity |]. intros k Hk. now apply lookup_insert_ne.
Qed.

Lemma legacy_setupProject_frame w :
  dirs (after (Legacy.setupProject E) w) = dirs w
  ∧ ∀ k, k ≠ Fs.resolve (Legacy.preferenceFile E) →
         files (after (Legacy.setupProject E) w) !! k = files w !! k.
Proof.
  unfold after, Legacy.setupProject, tryCatch, bind, inquirer_prompt, bind, emit, ret, throw.
  cbn [fst snd]. destruct (prompt E) as [a | e]; [| now split].
  unfold Legacy.writePreference.
  match goal with |- context [Fs.writeFileSync ?p ?c ?w0] =>
    destruct (writeFileSync_cases p c w0) as [[e ->] | ->] end; cbn [snd files dirs].
  - now split.
  - split; [reflexivity |]. intros k Hk. now apply lookup_insert_ne.
Qed.

End SetupFailures.

(** X6: a [setup] that cannot finish says so, and the program itself has
    written nothing.  After a successful installation, when the prompt is
    rejected (the user leaves it) or the preference file cannot be written,
    the run prints one [Setup failed] line on the error stream after the
    installation and the prompt and ends normally; files and directories
    are exactly those the installation left. *)
Theorem setup_failure_reported (E : Env) (w : World) :
  npm E = ExecOk →
  (∀ e, prompt E = inr e →
     Current.run E ["setup"] w
     = (Ret tt, mkWorld (files (installed E w)) (dirs (installed E w))
                  (trace w ++ [Exec Current.installCommand;
                               Asked ["language"; "directory"];
                               Console Stderr ("Setup failed: " +:+ messageOf e)])))
  ∧ (∀ a, prompt E = inl a → ¬ writePossible (installed E w) (Current.CONFIG_FILE E) →
     ∃ detail,
       Current.run E ["setup"] w
       = (Ret tt, mkWorld (files (installed E w)) (dirs (installed E w))
                    (trace w ++ [Exec Current.installCommand;
                                 Asked ["language"; "directory"];
                                 Console Stderr ("Setup failed: " +:+ detail)]))).
Proof.
  intros Hnpm. split.
  - intros e Hp. rewrite (current_setup_shape E w Hnpm).
    unfold tryCatch, bind, Current.setupProject, tryCatch, bind, inquirer_prompt, bind, emit,
      ret, throw, console_error, emit.
    rewrite Hp. cbn [fst snd files dirs trace]. now rewrite <- !app_assoc.
  - intros a Hp Hno. rewrite (current_setup_shape E w Hnpm).
    unfold tryCatch, bind, Current.setupProject, tryCatch, bind, inquirer_prompt, bind, emit, ret.
    rewrite Hp. cbn [fst snd files dirs trace]. unfold Current.writeConfig.
    set (w1 := mkWorld _ _ _).
    assert (Hno1 : ¬ writePossible w1 (Current.CONFIG_FILE E))
      by (intros H; apply Hno; eapply writePossible_same; [| exact H]; reflexivity).
    destruct (writeFileSync_impossible (Current.CONFIG_FILE E)
                (Json.stringify (Current.configOf (Js.toLowerCase (label (language a)))
                                   (Path.join [directory a; "multi-ui"; "components"])))
                w1 Hno1) as [e ->].
    unfold console_error, emit. subst w1. cbn [fst snd files dirs trace].
    eexists. now rewrite <- !app_assoc.
Qed.

Lemma setup_failure_reported_witness :
  npm (mkEnv "/home/user/project" (fun _ => Demo.ok) Demo.transform
         (inr (Err "ExitPromptError" "User force closed the prompt" None)) ExecOk
         Demo.npmInstall) = ExecOk
  ∧ trace (after (Current.run
                    (mkEnv "/home/user/project" (fun _ => Demo.ok) Demo.transform
                       (inr (Err "ExitPromptError" "User force closed the prompt" None)) ExecOk
                       Demo.npmInstall)
                    ["setup"]) Demo.project)
    = [Exec Current.installCommand; Asked ["language"; "directory"];
       Console Stderr "Setup failed: User force closed the prompt"].
Proof.
  split; [reflexivity |]. unfold after.
  rewrite (proj1 (setup_failure_reported
                    (mkEnv "/home/user/project" (fun _ => Demo.ok) Demo.transform
                       (inr (Err "ExitPromptError" "User force closed the prompt" None)) ExecOk
                       Demo.npmInstall)
                    Demo.project eq_refl) _ eq_refl).
  reflexivity.
Defined.

(** X7: what [setup] itself does to the file system happens in one place.
    In the current program, once the installation has succeeded, the
    directories after the run are those the installation left, and every
    path other than the preference file holds what the installation left
    there; in the legacy program, which installs nothing, the same holds of
    the world the run started in, whatever the environment. *)
Theorem setup_touches_only_preference (E : Env) (w : World) :
  (npm E = ExecOk →
   dirs (after (Current.run E ["setup"]) w) = dirs (installed E w)
   ∧ ∀ k, k ≠ Fs.resolve (Current.CONFIG_FILE E) →
          files (after (Current.run E ["setup"]) w) !! k = files (installed E w) !! k)
  ∧ (dirs (after (Legacy.run E ["setup"]) w) = dirs w
     ∧ ∀ k, k ≠ Fs.resolve (Legacy.preferenceFile E) →
            files (after (Legacy.run E ["setup"]) w) !! k = files w !! k).
Proof.
  split.
  - intros Hnpm. unfold after at 1 2. rewrite (current_setup_shape E w Hnpm).
    set (w0 := mkWorld _ _ _).
    destruct (current_setupProject_frame E w0) as [Hd Hf].
    assert (Hrun : ∀ r, snd (tryCatch (Current.setupProject E)
               (fun error => console_error ("Unexpected error: " +:+ messageOf error)) w0)
             = r → dirs r = dirs (after (Current.setupProject E) w0)
                   ∧ files r = files (after (Current.setupProject E) w0)).
    { intros r <-. unfold tryCatch, after.
      destruct (Current.setupProject E w0) as [[[] | e] w1]; now split. }
    destruct (Hrun _ eq_refl) as [-> ->]. split; [exact Hd | exact Hf].
  - unfold Legacy.run, Legacy.main, argAt. cbn [lookup list_lookup].
    rewrite bool_decide_eq_true_2 by reflexivity.
    apply legacy_setupProject_frame.
Qed.

Lemma setup_touches_only_preference_witness :
  npm (Demo.scenario Demo.ok) = ExecOk
  ∧ dirs (after (Current.run (Demo.scenario Demo.ok) ["setup"]) Demo.project)
    = dirs (installed (Demo.scenario Demo.ok) Demo.project)
  ∧ files (after (Current.run (Demo.scenario Demo.ok) ["setup"]) Demo.project)
      !! (Demo.home ++ ["node_modules"; ".package-lock.json"])
    = Some "{ lock }".
Proof.
  split; [reflexivity |].
  destruct (proj1 (setup_touches_only_preference (Demo.scenario Demo.ok) Demo.project) eq_refl)
    as [Hdirs Hfiles].
  split; [exact Hdirs |].
  rewrite Hfiles; [vm_compute; reflexivity | vm_compute; discriminate].
Defined.

Section AddFootprint.

Context (E : Env).

(** The try block of [createComponent], with its handler, leaves the files
    as they were or writes the one component file. *)
Lemma tryBlock_files N lang dir w (h : thrown → M unit) :
  (∀ e w0, files (after (h e) w0) = files w0) →
  files (after (tryCatch (Current.tryBlock E N lang dir) h) w) = files w
  ∨ ∃ content,
      files (after (tryCatch (Current.tryBlock E N lang dir) h) w)
      = <[Fs.resolve (Current.componentFileOf dir N (Current.extensionOf lang)) := content]>
          (files w).
Proof.
  intros Hh. unfold after, tryCatch, Current.tryBlock, bind. cbv zeta.
  unfold Fs.ensureDirSync.
  destruct (mkdirp_cases "mkdir" dir w) as [[e ->] | ->].
  { left. apply Hh. }
  unfold console_log, emit. rewrite fetch_run.
  destruct (result (Current.fetchComponentFromGitHub E N) _) as [code | e].
  2: { left. unfold after in Hh. rewrite Hh. reflexivity. }
  set (w3 := requested _ _).
  assert (Hw : ∀ content,
            files (snd (match
                     (match Fs.writeFileSync
                              (Current.componentFileOf dir N (Current.extensionOf lang))
                              content w3 with
                      | (Ret _, w') =>
                          (Ret tt, mkWorld (files w') (dirs w')
                                     (trace w' ++ [Console Stdout
                                        ("Component created at: "
                                         +:+ Current.componentFileOf dir N
                                               (Current.extensionOf lang))]))
                      | (Throw e, w') => (Throw e, w')
                      end) with
                   | (Ret a, w') => (Ret a, w')
                   | (Throw e, w') => h e w'
                   end)) = files w
            ∨ files (snd (match
                     (match Fs.writeFileSync
                              (Current.componentFileOf dir N (Current.extensionOf lang))
                              content w3 with
                      | (Ret _, w') =>
                          (Ret tt, mkWorld (files w') (dirs w')
                                     (trace w' ++ [Console Stdout
                                        ("Component created at: "
                                         +:+ Current.componentFileOf dir N
                                               (Current.extensionOf lang))]))
                      | (Throw e, w') => (Throw e, w')
                      end) with
                   | (Ret a, w') => (Ret a, w')
                   | (Throw e, w') => h e w'
                   end))
              = <[Fs.resolve (Current.componentFileOf dir N (Current.extensionOf lang))
                  := content]> (files w)).
  { intros content.
    destruct (writeFileSync_cases
                (Current.componentFileOf dir N (Current.extensionOf lang)) content w3)
      as [[e ->] | ->].
    - left. unfold after in Hh. rewrite Hh. reflexivity.
    - right. reflexivity. }
  destruct (Json.isString lang "javascript").
  - unfold Current.convertTsxToJsx, babel_transformSync.
    destruct (babel E code (N +:+ ".tsx")) as [out | msg].
    + unfold ret. destruct (Hw out) as [H | H]; [now left | right; now exists out].
    + left. unfold throw. unfold after in Hh. rewrite Hh. reflexivity.
  - unfold fs_writeFileSync.
    destruct code as [| | | | text | |];
      try (left; unfold throw; unfold after in Hh; rewrite Hh; reflexivity).
    destruct (Hw text) as [H | H]; [now left | right; now exists text].
Qed.

Lemma add_files_cases N w :
  files (after (Current.run E ["add"; N]) w) = files w
  ∨ (N ≠ "" ∧ ∃ lang cp content,
       stored E w lang cp
       ∧ files (after (Current.run E ["add"; N]) w)
         = <[Fs.resolve (Current.componentFileOf (Current.componentDirOf E cp) N
                           (Current.extensionOf lang)) := content]> (files w)).
Proof.
  destruct (decide (N = "")) as [-> | HN]; [left; reflexivity |].
  destruct (getPreference_frame E w) as (Hf & _ & _).
  destruct (result (Current.getPreference E) w) as [pref | e] eqn:Hres.
  2: { left. unfold after. rewrite (run_add E N w _ eq_refl HN).
       unfold tryCatch, Current.createComponent, bind at 1.
       unfold result, after in Hres, Hf.
       destruct (Current.getPreference E w) as [r w1]. cbn [fst snd] in *. subst r.
       exact Hf. }
  destruct (Json.getProp pref "language") as [lang |] eqn:Hlang.
  2: { left. unfold after. rewrite (run_add E N w _ eq_refl HN).
       unfold tryCatch, Current.createComponent, bind at 1.
       unfold result, after in Hres, Hf.
       destruct (Current.getPreference E w) as [r w1]. cbn [fst snd] in *. subst r.
       unfold Current.destructure, bind, orThrow. rewrite Hlang. exact Hf. }
  destruct (Json.getProp pref "componentPath") as [cpv |] eqn:Hcp.
  2: { left. unfold after. rewrite (run_add E N w _ eq_refl HN).
       unfold tryCatch, Current.createComponent, bind at 1.
       unfold result, after in Hres, Hf.
       destruct (Current.getPreference E w) as [r w1]. cbn [fst snd] in *. subst r.
       unfold Current.destructure, bind, orThrow. rewrite Hlang, Hcp. exact Hf. }
  assert (Hstr : (∃ cp, cpv = Json.Str cp) ∨ ∀ cp, cpv ≠ Json.Str cp).
  { destruct cpv; try (right; intros; discriminate). left. eauto. }
  destruct Hstr as [[cp ->] | Hno].
  - assert (Hst : stored E w lang cp) by (exists pref; auto).
    rewrite (run_add_stored E N w lang cp HN Hst).
    destruct (tryBlock_files N lang (Current.componentDirOf E cp)
                (after (Current.getPreference E) w)
                (fun error => console_error ("Error creating component: " +:+ messageOf error)))
      as [H | [content H]].
    + intros e w0. reflexivity.
    + left. now rewrite H.
    + right. split; [exact HN |]. exists lang, cp, content. split; [exact Hst |].
      now rewrite H, Hf.
  - left. unfold after. rewrite (run_add E N w _ eq_refl HN).
    unfold tryCatch, Current.createComponent, bind at 1.
    unfold result, after in Hres, Hf.
    destruct (Current.getPreference E w) as [r w1]. cbn [fst snd] in *. subst r.
    unfold Current.destructure, bind, orThrow. rewrite Hlang, Hcp.
    unfold ret. cbn [fst snd]. rewrite path_join_cwd.
    destruct cpv; try exact Hf. now destruct (Hno s).
Qed.

End AddFootprint.

(** X8: an [add] changes at most one file, and only when everything went
    well.  If any path holds something else after the run than before, then
    a name was given, the preference could be read, the remote host answered
    200, and the path is the component file
    <cwd>/<componentPath>/<name>.<ext>; every other path holds what it
    held. *)
Theorem add_changes_only_target (E : Env) (N : string) (w : World) (k : fspath) :
  files (after (Current.run E ["add"; N]) w) !! k ≠ files w !! k →
  N ≠ ""
  ∧ (∃ txt B, remote E (Current.componentUrl N) = Http 200 txt B)
  ∧ ∃ lang cp,
      stored E w lang cp
      ∧ k = Fs.resolve (Current.componentFileOf (Current.componentDirOf E cp) N
                          (Current.extensionOf lang))
      ∧ ∀ k', k' ≠ k → files (after (Current.run E ["add"; N]) w) !! k' = files w !! k'.
Proof.
  intros Hk.
  destruct (add_files_cases E N w) as [H | (HN & lang & cp & content & Hst & H)].
  { now rewrite H in Hk. }
  split; [exact HN |]. split.
  - destruct (remote E (Current.componentUrl N)) as [st txt B | msg] eqn:Hr.
    + destruct (decide (st = 200)) as [-> | Hst200]; [eauto |].
      destruct Hk. rewrite add_failed_files; [reflexivity |].
      intros txt' B'. rewrite Hr. congruence.
    + destruct Hk. rewrite add_failed_files; [reflexivity |].
      intros txt' B'. rewrite Hr. discriminate.
  - exists lang, cp. split; [exact Hst |].
    destruct (decide (k = Fs.resolve (Current.componentFileOf (Current.componentDirOf E cp) N
                                       (Current.extensionOf lang)))) as [-> | Hne].
    + split; [reflexivity |]. intros k' Hk'. rewrite H. now apply lookup_insert_ne.
    + destruct Hk. rewrite H. now apply lookup_insert_ne.
Qed.

Lemma add_changes_only_target_witness :
  files (after (Current.run (Demo.scenario Demo.ok) ["add"; "Button_1"]) (Demo.configured "typescript" "lib"))
    !! ["home"; "user"; "project"; "lib"; "Button_1.tsx"]
  ≠ files (Demo.configured "typescript" "lib")
      !! ["home"; "user"; "project"; "lib"; "Button_1.tsx"]
  ∧ ∀ k', k' ≠ ["home"; "user"; "project"; "lib"; "Button_1.tsx"] →
          files (after (Current.run (Demo.scenario Demo.ok) ["add"; "Button_1"])
                   (Demo.configured "typescript" "lib")) !! k'
          = files (Demo.configured "typescript" "lib") !! k'.
Proof.
  assert (H : files (after (Current.run (Demo.scenario Demo.ok) ["add"; "Button_1"])
                       (Demo.configured "typescript" "lib"))
                !! ["home"; "user"; "project"; "lib"; "Button_1.tsx"]
              ≠ files (Demo.configured "typescript" "lib")
                  !! ["home"; "user"; "project"; "lib"; "Button_1.tsx"])
    by (vm_compute; discriminate).
  split; [exact H |].
  destruct (add_changes_only_target (Demo.scenario Demo.ok) "Button_1" (Demo.configured "typescript" "lib")
              ["home"; "user"; "project"; "lib"; "Button_1.tsx"] H)
    as (_ & _ & lang & cp & _ & _ & Hrest).
  exact Hrest.
Defined.

Section Requests.

Context (E : Env).

Lemma gets_notGet evs : Forall notGet evs → gets evs = [].
Proof.
  induction 1 as [| e evs He _ IH]; [reflexivity |].
  unfold gets in *. cbn [omap list_omap]. rewrite IH.
  destruct e; try reflexivity. now destruct (He url).
Qed.

Lemma gets_app evs evs' : gets (evs ++ evs') = gets evs ++ gets evs'.
Proof. apply omap_app. Qed.

Lemma atMostOneGet_silent {A} url (m : M A) : emitsOnly notGet m → atMostOneGet url m.
Proof.
  intros H w. destruct (H w) as (evs & Hsaid & Hall).
  exists evs. split; [exact Hsaid | left; now apply gets_notGet].
Qed.

(** Silence first, then at most one request. *)
Lemma atMostOneGet_bind_l {A B} url (m : M A) (k : A → M B) :
  emitsOnly notGet m → (∀ a, atMostOneGet url (k a)) → atMostOneGet url (bind m k).
Proof.
  intros Hm Hk w. destruct (Hm w) as (evs & Hsaid & Hall).
  unfold said, after, bind in *.
  destruct (m w) as [[a | e] w1]; cbn [snd] in *.
  - destruct (Hk a w1) as (evs' & Hsaid' & Hgets). unfold said, after in Hsaid'.
    exists (evs ++ evs'). split; [rewrite Hsaid', Hsaid; now rewrite app_assoc |].
    rewrite gets_app, (gets_notGet evs Hall). exact Hgets.
  - exists evs. split; [exact Hsaid | left; now apply gets_notGet].
Qed.

(** At most one request first, then silence. *)
Lemma atMostOneGet_bind_r {A B} url (m : M A) (k : A → M B) :
  atMostOneGet url m → (∀ a, emitsOnly notGet (k a)) → atMostOneGet url (bind m k).
Proof.
  intros Hm Hk w. destruct (Hm w) as (evs & Hsaid & Hgets).
  unfold said, after, bind in *.
  destruct (m w) as [[a | e] w1]; cbn [snd] in *.
  - destruct (Hk a w1) as (evs' & Hsaid' & Hall). unfold said, after in Hsaid'.
    exists (evs ++ evs'). split; [rewrite Hsaid', Hsaid; now rewrite app_assoc |].
    rewrite gets_app, (gets_notGet evs' Hall), app_nil_r. exact Hgets.
  - now exists evs.
Qed.

Lemma atMostOneGet_tryCatch {A} url (m : M A) (h : thrown → M A) :
  atMostOneGet url m → (∀ e, emitsOnly notGet (h e)) → atMostOneGet url (tryCatch m h).
Proof.
  intros Hm Hh w. destruct (Hm w) as (evs & Hsaid & Hgets).
  unfold said, after, tryCatch in *.
  destruct (m w) as [[a | e] w1]; cbn [snd] in *.
  - now exists evs.
  - destruct (Hh e w1) as (evs' & Hsaid' & Hall). unfold said, after in Hsaid'.
    exists (evs ++ evs'). split; [rewrite Hsaid', Hsaid; now rewrite app_assoc |].
    rewrite gets_app, (gets_notGet evs' Hall), app_nil_r. exact Hgets.
Qed.

(** One step of the syntax-directed proof that a computation asks the
    remote host nothing. *)
Ltac mute :=
  first
    [ apply emitsOnly_ret
    | apply emitsOnly_throw
    | apply emitsOnly_orThrow
    | apply emitsOnly_existsSync
    | apply emitsOnly_readFileSync
    | apply emitsOnly_readdirSync
    | apply emitsOnly_writeFileSync; intros k u; discriminate
    | apply emitsOnly_fs_writeFileSync; intros k u; discriminate
    | apply emitsOnly_exec; intros u; discriminate
    | apply emitsOnly_mkdirAt; intros k u; discriminate
    | apply emitsOnly_outputFileSync; intros k u; discriminate
    | apply emitsOnly_emit; intros u; discriminate
    | apply emitsOnly_bind; [| intros]
    | apply emitsOnly_tryCatch; [| intros]
    | apply emitsOnly_if
    | apply emitsOnly_forEach; intros
    | progress unfold babel_transformSync, inquirer_prompt, console_log, console_warn,
        console_error, JSON_parse, path_join
    | match goal with
      | |- emitsOnly _ (match ?x with _ => _ end) => destruct x
      end ].

Lemma current_fetch_once N :
  atMostOneGet (Current.componentUrl N) (Current.fetchComponentFromGitHub E N).
Proof.
  intros w. exists [HttpGet (Current.componentUrl N)].
  split; [unfold said; now rewrite fetch_world | now right].
Qed.

Lemma legacy_fetch_once N :
  atMostOneGet (Legacy.componentUrl N) (Legacy.fetchComponentFromGitHub E N).
Proof.
  intros w. destruct (legacy_fetch_trace E N w) as (lines & Htrace & Hall).
  exists (HttpGet (Legacy.componentUrl N) :: lines). split; [exact Htrace |].
  right. unfold gets. cbn [omap list_omap]. f_equal. apply gets_notGet.
  eapply Forall_impl; [exact Hall |]. intros e (st & text & ->) u. discriminate.
Qed.

Lemma current_getPreference_mute : emitsOnly notGet (Current.getPreference E).
Proof. unfold Current.getPreference. repeat mute. Qed.

Lemma current_add_once N :
  atMostOneGet (Current.componentUrl N) (Current.createComponent E N).
Proof.
  unfold Current.createComponent.
  apply atMostOneGet_bind_l; [apply current_getPreference_mute | intros pref].
  apply atMostOneGet_bind_l; [unfold Current.destructure; repeat mute | intros lc].
  apply atMostOneGet_bind_l; [repeat mute | intros dir].
  apply atMostOneGet_tryCatch; [| intros e; repeat mute].
  unfold Current.tryBlock. cbv zeta.
  apply atMostOneGet_bind_l;
    [unfold Fs.ensureDirSync, Fs.mkdirp; repeat mute | intros _].
  apply atMostOneGet_bind_l; [repeat mute | intros _].
  apply atMostOneGet_bind_r; [apply current_fetch_once | intros code].
  unfold Current.convertTsxToJsx. repeat mute.
Qed.

Lemma legacy_add_once N :
  atMostOneGet (Legacy.componentUrl N) (Legacy.createComponent E N).
Proof.
  unfold Legacy.createComponent.
  apply atMostOneGet_tryCatch; [| intros e; repeat mute].
  apply atMostOneGet_bind_l; [unfold Legacy.getPreference; repeat mute | intros lang].
  cbv zeta.
  apply atMostOneGet_bind_l; [repeat mute | intros present].
  apply atMostOneGet_bind_l;
    [unfold Fs.mkdirSyncRecursive, Fs.mkdirp; repeat mute | intros _].
  apply atMostOneGet_bind_l; [repeat mute | intros _].
  apply atMostOneGet_bind_r; [apply legacy_fetch_once | intros code].
  unfold Legacy.convertTsxToJsx, Legacy.convertOne. repeat mute.
Qed.

End Requests.

(** X9: no run asks the remote host more than once.  Whatever the
    arguments, the environment and the world, either program issues no GET
    at all or exactly one, and that one goes to the URL of the component
    named by the second argument: there is no retry after a failure and no
    second file is downloaded. *)
Theorem run_requests_at_most_once (E : Env) (argv : list string) :
  atMostOneGet (Current.componentUrl (default "" (argAt argv 1))) (Current.run E argv)
  ∧ atMostOneGet (Legacy.componentUrl (default "" (argAt argv 1))) (Legacy.run E argv).
Proof.
  split.
  - unfold Current.run, Current.main. cbv zeta.
    apply atMostOneGet_tryCatch;
      [| intros e; apply emitsOnly_emit; intros u; discriminate].
    case_bool_decide.
    + apply atMostOneGet_silent.
      unfold Current.installBabelPresets, Current.setupProject, Current.writeConfig,
        inquirer_prompt, console_log, console_error.
      repeat first
        [ apply emitsOnly_ret | apply emitsOnly_throw
        | apply emitsOnly_writeFileSync; intros k u; discriminate
        | apply emitsOnly_exec; intros u; discriminate
        | apply emitsOnly_emit; intros u; discriminate
        | apply emitsOnly_bind; [| intros]
        | apply emitsOnly_tryCatch; [| intros]
        | match goal with |- emitsOnly _ (match ?x with _ => _ end) => destruct x end ].
    + case_bool_decide.
      * destruct (negb (truthy (argAt argv 1))).
        -- apply atMostOneGet_silent, emitsOnly_emit. intros u. discriminate.
        -- apply current_add_once.
      * apply atMostOneGet_silent, emitsOnly_emit. intros u. discriminate.
  - unfold Legacy.run, Legacy.main. cbv zeta.
    case_bool_decide.
    + apply atMostOneGet_silent.
      unfold Legacy.setupProject, Legacy.writePreference, inquirer_prompt,
        console_log, console_error.
      repeat first
        [ apply emitsOnly_ret | apply emitsOnly_throw
        | apply emitsOnly_writeFileSync; intros k u; discriminate
        | apply emitsOnly_emit; intros u; discriminate
        | apply emitsOnly_bind; [| intros]
        | apply emitsOnly_tryCatch; [| intros]
        | match goal with |- emitsOnly _ (match ?x with _ => _ end) => destruct x end ].
    + destruct (bool_decide _ && truthy _).
      * apply legacy_add_once.
      * apply atMostOneGet_silent, emitsOnly_emit. intros u. discriminate.
Qed.

Section LegacyAdd.

Context (E : Env).

Lemma legacy_getPreference_world w :
  ∃ evs, after (Legacy.getPreference E) w = mkWorld (files w) (dirs w) (trace w ++ evs).
Proof.
  assert (Htrace : ∃ evs, trace (after (Legacy.getPreference E) w) = trace w ++ evs).
  { unfold after, Legacy.getPreference, bind, Fs.existsSync, Fs.readFileSync, JSON_parse,
      orThrow, console_warn, emit, ret, throw.
    cbv zeta.
    destruct (Fs.isFile w _ || Fs.isDir w _).
    - exists []. rewrite app_nil_r.
      destruct (files w !! _) as [text|].
      + destruct (Json.parse text) as [v|]; [| reflexivity].
        destruct (Json.getProp v "language"); reflexivity.
      + destruct (Fs.isDir w _); reflexivity.
    - eexists [_]. reflexivity. }
  destruct Htrace as (evs & Htrace). exists evs.
  destruct (legacy_getPreference_frame E w) as (Hf & Hd).
  destruct (after (Legacy.getPreference E) w) as [f d t]. cbn [files dirs trace] in *.
  now subst.
Qed.

Lemma legacy_fetch_ok N w txt B :
  remote E (Legacy.componentUrl N) = Http 200 txt B →
  Legacy.fetchComponentFromGitHub E N w
  = (Ret (responseData B), requested w (Legacy.componentUrl N)).
Proof.
  intros H.
  unfold Legacy.fetchComponentFromGitHub, tryCatch, axios_get, bind, emit, throw, ret.
  cbv zeta. rewrite H. reflexivity.
Qed.

(** The legacy [add] up to the moment the source has arrived. *)
Lemma legacy_add_fetched N w lang txt B :
  N ≠ "" →
  result (Legacy.getPreference E) w = Ret lang →
  remote E (Legacy.componentUrl N) = Http 200 txt B →
  mkdirPossible w (Path.join [cwd E; "multi-ui"; "components"]) →
  ∃ evs,
    Legacy.run E ["add"; N] w
    = tryCatch
        (if Json.isString lang "javascript" then
           let* _ := console_log ("Converting " +:+ N +:+ " to JavaScript...") in
           Legacy.convertTsxToJsx E (Path.join [cwd E; "multi-ui"; "components"; N])
             (Path.join [cwd E; "multi-ui"; "components"; "converted"])
         else
           let* _ := fs_writeFileSync
                       (Path.join [cwd E; "multi-ui"; "components"] +:+ "/" +:+ N +:+ "."
                        +:+ (if Json.isString lang "javascript" then "jsx" else "tsx"))
                       (responseData B) in
           console_log (N +:+ " created at "
                        +:+ (Path.join [cwd E; "multi-ui"; "components"] +:+ "/" +:+ N +:+ "."
                             +:+ (if Json.isString lang "javascript" then "jsx" else "tsx"))))
        (fun error => console_error ("Error creating component: " +:+ inspect error))
        (mkWorld (files w) (dirs (ensured w (Path.join [cwd E; "multi-ui"; "components"])))
           (trace w ++ evs ++ [HttpGet (Legacy.componentUrl N)])).
Proof.
  intros HN Hpref Hrem Hmk.
  unfold Legacy.run, Legacy.main, argAt. cbn [lookup list_lookup].
  rewrite bool_decide_eq_false_2 by discriminate.
  rewrite bool_decide_eq_true_2 by reflexivity.
  unfold truthy. rewrite (string_eqb_neq _ _ HN). cbn [negb andb].
  change (default "" (Some N)) with N.
  destruct (legacy_getPreference_world w) as (evs0 & Hw1).
  unfold Legacy.createComponent, tryCatch, bind at 1.
  unfold result, after in Hpref, Hw1.
  destruct (Legacy.getPreference E w) as [r w1]. cbn [fst snd] in *. subst r w1.
  set (dir := Path.join [cwd E; "multi-ui"; "components"]) in *.
  set (w1 := mkWorld (files w) (dirs w) (trace w ++ evs0)).
  assert (Hnofile : Fs.isFile w1 (Fs.resolve dir) = false).
  { destruct (Fs.isFile w1 (Fs.resolve dir)) eqn:Hfile; [| reflexivity].
    unfold mkdirPossible in Hmk.
    assert (existsb (Fs.isFile w) (Fs.prefixes (Fs.resolve dir)) = true); [| congruence].
    apply existsb_exists. exists (Fs.resolve dir). split; [apply prefixes_self | exact Hfile]. }
  assert (Hstep : ∃ evs1,
            (if negb (Fs.isFile w1 (Fs.resolve dir) || Fs.isDir w1 (Fs.resolve dir))
             then Fs.mkdirSyncRecursive dir else ret tt) w1
            = (Ret tt, mkWorld (files w) (dirs (ensured w dir)) (trace w ++ evs1))).
  { rewrite Hnofile. cbn [orb]. unfold ensured.
    change (Fs.isDir w1 (Fs.resolve dir)) with (Fs.isDir w (Fs.resolve dir)).
    destruct (Fs.isDir w (Fs.resolve dir)) eqn:Hdir; cbn [negb].
    - exists evs0. reflexivity.
    - exists (evs0 ++ [FsMkdir (Fs.resolve dir)]). unfold Fs.mkdirSyncRecursive.
      rewrite (mkdirp_ok "mkdir" dir w1 Hmk). subst w1. unfold madeDir.
      cbn [files dirs trace]. now rewrite <- app_assoc. }
  destruct Hstep as (evs1 & Hstep).
  cbv zeta. unfold bind at 1, Fs.existsSync. cbv zeta. cbv beta iota.
  unfold bind at 1. rewrite Hstep.
  unfold bind at 1, console_log at 1, emit.
  unfold bind at 1. rewrite (legacy_fetch_ok N _ txt B Hrem).
  unfold requested. cbn [files dirs trace].
  exists (evs1 ++ [fetching N]). unfold fetching.
  rewrite <- !app_assoc. cbn [app]. reflexivity.
Qed.

End LegacyAdd.

(** X10: the legacy [add] under a language other than javascript, for a
    name without a separator.  With a preference that can be read, a 200
    answer whose body [B] arrives as it was sent, a component directory that
    can be made and an output file that can be written, the run ends
    normally and the file <cwd>/multi-ui/components/<name>.tsx holds [B]. *)
Theorem legacy_add_stores_source (E : Env) (N : string) (w : World)
  (lang : Json.value) (txt B : string) :
  N ≠ "" →
  Js.contains Path.slash N = false →
  Path.isAbsolute (cwd E) = true →
  result (Legacy.getPreference E) w = Ret lang →
  lang ≠ Json.Str "javascript" →
  remote E (Legacy.componentUrl N) = Http 200 txt B →
  verbatim B →
  mkdirPossible w (Path.join [cwd E; "multi-ui"; "components"]) →
  writePossible (ensured w (Path.join [cwd E; "multi-ui"; "components"]))
    (Path.join [cwd E; "multi-ui"; "components"] +:+ "/" +:+ N +:+ ".tsx") →
  result (Legacy.run E ["add"; N]) w = Ret tt
  ∧ files (after (Legacy.run E ["add"; N]) w)
    = <[Fs.resolve (Path.join [cwd E; "multi-ui"; "components"]) ++ [N +:+ ".tsx"] := B]>
        (files w)
  ∧ ∃ evs,
      said w (after (Legacy.run E ["add"; N]) w)
        (evs ++ [HttpGet (Legacy.componentUrl N);
                 FsWrite (Fs.resolve (Path.join [cwd E; "multi-ui"; "components"])
                          ++ [N +:+ ".tsx"]);
                 Console Stdout
                   (N +:+ " created at "
                    +:+ (Path.join [cwd E; "multi-ui"; "components"] +:+ "/" +:+ N +:+ ".tsx"))]).
Proof.
  intros HN Hslash Habs Hpref Hlang Hrem Hverb Hmk [Hnd Hpd].
  assert (Hpath : Fs.resolve (Path.join [cwd E; "multi-ui"; "components"]
                              +:+ "/" +:+ N +:+ ".tsx")
                  = Fs.resolve (Path.join [cwd E; "multi-ui"; "components"])
                    ++ [N +:+ ".tsx"]).
  { change (Path.join [cwd E; "multi-ui"; "components"] +:+ "/" +:+ N +:+ ".tsx")
      with (Path.join [cwd E; "multi-ui"; "components"]
            +:+ String Path.slash (N +:+ ".tsx")).
    rewrite resolve_app. apply resolveFrom_name.
    change (N +:+ ".tsx") with (N +:+ "." +:+ Current.extensionOf (Json.Str "typescript")).
    now apply file_name_plain. }
  destruct (legacy_add_fetched E N w lang txt B HN Hpref Hrem Hmk) as (evs & Hrun).
  unfold result, after, said. rewrite Hrun. clear Hrun.
  assert (Json.isString lang "javascript" = false) as ->.
  { destruct lang as [| | | | x | |]; try reflexivity.
    cbn [Json.isString]. apply string_eqb_neq. congruence. }
  cbv iota. rewrite Hverb. unfold tryCatch, bind, fs_writeFileSync.
  rewrite writeFileSync_ok; [| exact Hnd | exact Hpd].
  unfold console_log, emit. cbn [fst snd files dirs trace].
  change ("." +:+ "tsx") with ".tsx". rewrite Hpath.
  split; [reflexivity |]. split; [reflexivity |].
  exists evs. now rewrite <- !app_assoc.
Qed.

Lemma legacy_add_stores_source_witness :
  (result (Legacy.getPreference (Demo.scenario Demo.ok)) (Demo.legacyConfigured "TypeScript")
   = Ret (Json.Str "TypeScript")
   ∧ verbatim Demo.source)
  ∧ files (after (Legacy.run (Demo.scenario Demo.ok) ["add"; "Button_1"])
             (Demo.legacyConfigured "TypeScript"))
    !! (Demo.home ++ ["multi-ui"; "components"; "Button_1.tsx"]) = Some Demo.source.
Proof.
  assert (Hverb : verbatim Demo.source) by (vm_compute; reflexivity).
  split; [split; [vm_compute; reflexivity | exact Hverb] |].
  rewrite (proj1 (proj2 (legacy_add_stores_source (Demo.scenario Demo.ok) "Button_1"
             (Demo.legacyConfigured "TypeScript") (Json.Str "TypeScript") "OK" Demo.source
             ltac:(discriminate) eq_refl eq_refl ltac:(vm_compute; reflexivity)
             ltac:(discriminate) eq_refl Hverb
             ltac:(vm_compute; reflexivity) ltac:(split; vm_compute; reflexivity)))).
  vm_compute. reflexivity.
Defined.

(** X11: the legacy [add] under the javascript preference stores nothing of
    what it fetched.  The body is downloaded and dropped; the program then
    reads the directory <cwd>/multi-ui/components/<name>, and when that is
    no directory the run prints the failure on the error stream, ends
    normally and leaves every file as it was. *)
Theorem legacy_add_javascript_discards (E : Env) (N : string) (w : World) (txt B : string) :
  N ≠ "" →
  result (Legacy.getPreference E) w = Ret (Json.Str "javascript") →
  remote E (Legacy.componentUrl N) = Http 200 txt B →
  mkdirPossible w (Path.join [cwd E; "multi-ui"; "components"]) →
  Fs.isDir (ensured w (Path.join [cwd E; "multi-ui"; "components"]))
    (Fs.resolve (Path.join [cwd E; "multi-ui"; "components"; N])) = false →
  result (Legacy.run E ["add"; N]) w = Ret tt
  ∧ files (after (Legacy.run E ["add"; N]) w) = files w
  ∧ ∃ evs detail,
      said w (after (Legacy.run E ["add"; N]) w)
        (evs ++ [HttpGet (Legacy.componentUrl N);
                 Console Stdout ("Converting " +:+ N +:+ " to JavaScript...");
                 Console Stderr ("Error creating component: " +:+ detail)]).
Proof.
  intros HN Hpref Hrem Hmk Hnd.
  destruct (legacy_add_fetched E N w (Json.Str "javascript") txt B HN Hpref Hrem Hmk)
    as (evs & Hrun).
  unfold result, after, said. rewrite Hrun. clear Hrun.
  cbn [Json.isString String.eqb Ascii.eqb Bool.eqb]. cbv iota.
  unfold tryCatch, bind, console_log, emit, Legacy.convertTsxToJsx, bind, Fs.readdirSync.
  cbv zeta. cbn [fst snd].
  match goal with
  | |- context [Fs.isDir ?w0 ?k] =>
      assert (Fs.isDir w0 k = false) as ->
        by (etransitivity; [apply isDir_same | exact Hnd]; reflexivity)
  end.
  match goal with
  | |- context [Fs.isFile ?w0 ?k] => destruct (Fs.isFile w0 k)
  end; unfold console_error, emit; cbn [fst snd files dirs trace];
    (split; [reflexivity |]); (split; [reflexivity |]);
    exists evs; eexists; now rewrite <- !app_assoc.
Qed.

Lemma legacy_add_javascript_discards_witness :
  result (Legacy.getPreference (Demo.scenario Demo.ok)) (Demo.legacyConfigured "javascript")
  = Ret (Json.Str "javascript")
  ∧ files (after (Legacy.run (Demo.scenario Demo.ok) ["add"; "Button_1"])
             (Demo.legacyConfigured "javascript"))
    = files (Demo.legacyConfigured "javascript").
Proof.
  split; [vm_compute; reflexivity |].
  exact (proj1 (proj2 (legacy_add_javascript_discards (Demo.scenario Demo.ok) "Button_1"
             (Demo.legacyConfigured "javascript") "OK" Demo.source
             ltac:(discriminate) ltac:(vm_compute; reflexivity) eq_refl
             ltac:(vm_compute; reflexivity) ltac:(vm_compute; reflexivity)))).
Defined.

(** X12: the legacy conversion looks at [.tsx] files only.  Run on a
    directory none of whose entries has the extension [.tsx], it reads no
    file, calls Babel on nothing, writes nothing and ends normally: the
    world is the one it started in. *)
Theorem legacy_convert_skips_others (E : Env) (inputDir outputDir : string) (w : World) :
  Fs.isDir w (Fs.resolve inputDir) = true →
  Forall (fun file => Path.extname file ≠ ".tsx") (Fs.children w (Fs.resolve inputDir)) →
  Legacy.convertTsxToJsx E inputDir outputDir w = (Ret tt, w).
Proof.
  intros Hdir Hall. unfold Legacy.convertTsxToJsx, bind, Fs.readdirSync. cbv zeta.
  rewrite Hdir.
  induction Hall as [| file l Hfile _ IH]; [reflexivity |].
  cbn [Legacy.forEach]. unfold bind, Legacy.convertOne. cbv zeta.
  rewrite (string_eqb_neq _ _ Hfile). exact IH.
Qed.

Lemma legacy_convert_skips_others_witness :
  Fs.isDir (mkWorld {[ ["in"; "README.md"] := "notes"; ["in"; "index.ts"] := "export {}" ]}
              {[ ["in"] ]} [])
    (Fs.resolve "/in") = true
  ∧ Legacy.convertTsxToJsx (Demo.scenario Demo.ok) "/in" "/out"
      (mkWorld {[ ["in"; "README.md"] := "notes"; ["in"; "index.ts"] := "export {}" ]}
         {[ ["in"] ]} [])
    = (Ret tt,
       mkWorld {[ ["in"; "README.md"] := "notes"; ["in"; "index.ts"] := "export {}" ]}
         {[ ["in"] ]} []).
Proof.
  split; [vm_compute; reflexivity |].
  apply legacy_convert_skips_others; [vm_compute; reflexivity |].
  apply (bool_decide_unpack _). vm_compute. exact I.
Defined.

(* ===================================================================== *)
(** * The bundled components *)
(* ===================================================================== *)

(* ===================================================================== *)
(** * The accordion *)
(* ===================================================================== *)

Section AccordionFacts.

Lemma includes_spec {A} `{EqDecision A} (l : list A) (x : A) : includes l x = true ↔ x ∈ l.
Proof. unfold includes. apply bool_decide_eq_true. Qed.

Lemma includes_false {A} `{EqDecision A} (l : list A) (x : A) : includes l x = false ↔ x ∉ l.
Proof. unfold includes. apply bool_decide_eq_false. Qed.

Lemma without_spec {A} `{EqDecision A} (l : list A) (x y : A) :
  y ∈ without l x ↔ y ∈ l ∧ y ≠ x.
Proof. unfold without. rewrite list_elem_of_filter. tauto. Qed.

Lemma without_absent {A} `{EqDecision A} (l : list A) (x : A) : x ∉ l → without l x = l.
Proof.
  intros Hx. unfold without. induction l as [|a l IH]; [reflexivity |].
  apply not_elem_of_cons in Hx as [Hne Hl].
  rewrite filter_cons_True by congruence. now rewrite IH.
Qed.

Lemma without_NoDup {A} `{EqDecision A} (l : list A) (x : A) : NoDup l → NoDup (without l x).
Proof. apply NoDup_filter. Qed.

(** One click in the mode that allows several open items flips the item
    clicked and leaves the others. *)
Lemma multi_click_member (l : list nat) (i j : nat) :
  j ∈ Accordion.handleClick true l i ↔ (if decide (j = i) then j ∉ l else j ∈ l).
Proof.
  unfold Accordion.handleClick.
  destruct (includes l i) eqn:Hinc.
  - apply includes_spec in Hinc. rewrite without_spec.
    destruct (decide (j = i)) as [-> | Hne]; tauto.
  - apply includes_false in Hinc. rewrite elem_of_app, list_elem_of_singleton.
    destruct (decide (j = i)) as [-> | Hne]; tauto.
Qed.

Lemma multi_click_NoDup (l : list nat) (i : nat) :
  NoDup l → NoDup (Accordion.handleClick true l i).
Proof.
  intros Hnd. unfold Accordion.handleClick.
  destruct (includes l i) eqn:Hinc.
  - now apply without_NoDup.
  - apply includes_false in Hinc. apply NoDup_app. repeat split; [exact Hnd | | apply NoDup_singleton].
    intros x Hx Hx'. apply list_elem_of_singleton in Hx'. now subst.
Qed.

Lemma clicks_snoc b cs i : clicks b (cs ++ [i]) = Accordion.handleClick b (clicks b cs) i.
Proof. unfold clicks. now rewrite fold_left_app. Qed.

End AccordionFacts.

(** X13: with [allowMultiple] off, after any series of clicks on a fresh
    accordion at most one item is open, and it is the item clicked last;
    clicking the open item closes it. *)
Theorem accordion_single_open (cs : list nat) :
  (clicks false cs = [] ∨ ∃ i, last cs = Some i ∧ clicks false cs = [i])
  ∧ ∀ i, Accordion.isOpen (clicks false (cs ++ [i])) i
         = negb (Accordion.isOpen (clicks false cs) i).
Proof.
  split.
  - destruct cs as [|c cs] using rev_ind; [now left |].
    rewrite clicks_snoc. unfold Accordion.handleClick.
    destruct (includes (clicks false cs) c); [now left |].
    right. exists c. split; [apply last_snoc | reflexivity].
  - intros i. rewrite clicks_snoc. unfold Accordion.isOpen, Accordion.handleClick.
    destruct (includes (clicks false cs) i) eqn:Hinc; cbn [negb].
    + apply includes_false. apply not_elem_of_nil.
    + apply includes_spec. apply list_elem_of_singleton. reflexivity.
Qed.

(** X14: with [allowMultiple] on, an item is open after a series of clicks
    on a fresh accordion exactly when it was clicked an odd number of times,
    and no index is ever held twice. *)
Theorem accordion_multi_parity (cs : list nat) (i : nat) :
  (Accordion.isOpen (clicks true cs) i = Nat.odd (count_occ Nat.eq_dec cs i))
  ∧ NoDup (clicks true cs).
Proof.
  split.
  - induction cs as [|c cs IH] using rev_ind; [reflexivity |].
    rewrite clicks_snoc, count_occ_app. cbn [count_occ].
    unfold Accordion.isOpen in *.
    apply eq_true_iff_eq. rewrite includes_spec, multi_click_member.
    destruct (decide (i = c)) as [-> | Hne].
    + destruct (Nat.eq_dec c c) as [_ | Hcc]; [| congruence].
      rewrite Nat.add_1_r, Nat.odd_succ, <- Nat.negb_odd, <- IH.
      destruct (includes (clicks true cs) c) eqn:Hinc; cbn [negb].
      * apply includes_spec in Hinc. split; [tauto | discriminate].
      * apply includes_false in Hinc. tauto.
    + destruct (Nat.eq_dec c i) as [Hci | _]; [congruence |].
      rewrite Nat.add_0_r, <- IH. symmetry. apply includes_spec.
  - induction cs as [|c cs IH] using rev_ind; [apply NoDup_nil_2 |].
    rewrite clicks_snoc. now apply multi_click_NoDup.
Qed.

(* ===================================================================== *)
(** * The dropdown *)
(* ===================================================================== *)

Section DropdownFacts.

Lemma options_NoDup : NoDup Dropdown_5.options.
Proof. apply (bool_decide_unpack (NoDup Dropdown_5.options)). vm_compute. exact I. Qed.

Lemma react_tidy s g : offered g → tidy s → tidy (react s g).
Proof.
  intros Hg [Hnd Hsub]. destruct g as [| b | o | bm ib mm im]; cbn [react].
  - exact (conj Hnd Hsub).
  - unfold Dropdown_5.handleSelectAllChange, tidy. cbn [Dropdown_5.selectedOptions].
    destruct b; [split; [apply options_NoDup | auto] |].
    split; [apply NoDup_nil_2 | intros o Ho; now apply not_elem_of_nil in Ho].
  - unfold Dropdown_5.handleOptionChange, tidy. cbn [Dropdown_5.selectedOptions].
    destruct (includes (Dropdown_5.selectedOptions s) o) eqn:Hinc.
    + split; [now apply without_NoDup |].
      intros o' Ho'. apply without_spec in Ho' as [Ho' _]. auto.
    + apply includes_false in Hinc. split.
      * apply NoDup_app. repeat split; [exact Hnd | | apply NoDup_singleton].
        intros x Hx Hx'. apply list_elem_of_singleton in Hx'. now subst.
      * intros o' Ho'. apply elem_of_app in Ho' as [Ho' | Ho']; [auto |].
        apply list_elem_of_singleton in Ho'. now subst.
  - unfold Dropdown_5.handleClickOutside.
    destruct (bm && negb ib && mm && negb im); exact (conj Hnd Hsub).
Qed.

Lemma fold_react_tidy gs s : Forall offered gs → tidy s → tidy (fold_left react gs s).
Proof.
  revert s. induction gs as [|g gs IH]; intros s Hall Hs; [exact Hs |].
  inversion Hall; subst. cbn [fold_left]. apply IH; [assumption | now apply react_tidy].
Qed.

Lemma fold_react_selectAll gs s :
  Dropdown_5.selectAllChecked (fold_left react gs s)
  = lastSelectAll gs (Dropdown_5.selectAllChecked s).
Proof.
  revert s. induction gs as [|g gs IH]; intros s; [reflexivity |].
  cbn [fold_left lastSelectAll]. rewrite IH.
  destruct g as [| b | o | bm ib mm im]; cbn [react]; try reflexivity.
  unfold Dropdown_5.handleClickOutside.
  now destruct (bm && negb ib && mm && negb im).
Qed.

Lemma option_change_twice o s :
  Dropdown_5.checked s o = false →
  Dropdown_5.handleOptionChange o (Dropdown_5.handleOptionChange o s) = s.
Proof.
  intros Hc. unfold Dropdown_5.checked in Hc.
  destruct s as [op sel fl]. unfold Dropdown_5.handleOptionChange.
  cbn [Dropdown_5.selectedOptions Dropdown_5.isOpen Dropdown_5.selectAllChecked] in *.
  rewrite Hc.
  assert (includes (sel ++ [o]) o = true) as ->
    by (apply includes_spec, elem_of_app; right; now apply list_elem_of_singleton).
  apply includes_false in Hc.
  unfold without. rewrite filter_app. fold (without sel o). rewrite (without_absent _ _ Hc).
  rewrite filter_cons_False by (intros H; now apply H). now rewrite app_nil_r.
Qed.

End DropdownFacts.

(** X15: ticking an option flips that option's checkbox and no other,
    never touches the open flag or the select-all box, keeps the selection
    free of duplicates, and ticking an unselected option twice restores the
    state as it was. *)
Theorem dropdown_option_toggle (o : string) (s : Dropdown_5.state) :
  (∀ o', Dropdown_5.checked (Dropdown_5.handleOptionChange o s) o'
         = if decide (o' = o) then negb (Dropdown_5.checked s o) else Dropdown_5.checked s o')
  ∧ Dropdown_5.isOpen (Dropdown_5.handleOptionChange o s) = Dropdown_5.isOpen s
  ∧ Dropdown_5.selectAllChecked (Dropdown_5.handleOptionChange o s)
    = Dropdown_5.selectAllChecked s
  ∧ (NoDup (Dropdown_5.selectedOptions s) →
     NoDup (Dropdown_5.selectedOptions (Dropdown_5.handleOptionChange o s)))
  ∧ (Dropdown_5.checked s o = false →
     Dropdown_5.handleOptionChange o (Dropdown_5.handleOptionChange o s) = s).
Proof.
  split; [| split; [reflexivity | split; [reflexivity | split; [| apply option_change_twice]]]].
  - intros o'. unfold Dropdown_5.checked, Dropdown_5.handleOptionChange.
    cbn [Dropdown_5.selectedOptions].
    apply eq_true_iff_eq. rewrite includes_spec.
    destruct (includes (Dropdown_5.selectedOptions s) o) eqn:Hinc; cbn [negb].
    + apply includes_spec in Hinc. rewrite without_spec.
      destruct (decide (o' = o)) as [-> | Hne]; [split; [tauto | discriminate] |].
      rewrite includes_spec. tauto.
    + apply includes_false in Hinc. rewrite elem_of_app, list_elem_of_singleton.
      destruct (decide (o' = o)) as [-> | Hne]; [tauto |].
      rewrite includes_spec. tauto.
  - intros Hnd. unfold Dropdown_5.handleOptionChange. cbn [Dropdown_5.selectedOptions].
    destruct (includes (Dropdown_5.selectedOptions s) o) eqn:Hinc.
    + now apply without_NoDup.
    + apply includes_false in Hinc.
      apply NoDup_app. repeat split; [exact Hnd | | apply NoDup_singleton].
      intros x Hx Hx'. apply list_elem_of_singleton in Hx'. now subst.
Qed.

Lemma dropdown_option_toggle_witness :
  Dropdown_5.checked Dropdown_5.initial "Option 3" = false
  ∧ Dropdown_5.handleOptionChange "Option 3"
      (Dropdown_5.handleOptionChange "Option 3" Dropdown_5.initial)
    = Dropdown_5.initial.
Proof.
  split; [reflexivity |].
  apply (dropdown_option_toggle "Option 3" Dropdown_5.initial). reflexivity.
Defined.

(** X16: whatever the user does to a freshly mounted dropdown, the
    selection never holds an option twice, holds only options of the menu,
    and so never more than seven. *)
Theorem dropdown_selection_tidy (gs : list gesture) :
  Forall offered gs →
  NoDup (Dropdown_5.selectedOptions (gestures gs))
  ∧ (∀ o, o ∈ Dropdown_5.selectedOptions (gestures gs) → o ∈ Dropdown_5.options)
  ∧ length (Dropdown_5.selectedOptions (gestures gs)) ≤ 7.
Proof.
  intros Hall.
  assert (Ht : tidy (gestures gs)).
  { apply fold_react_tidy; [exact Hall |]. split; [apply NoDup_nil_2 |].
    intros o Ho. now apply not_elem_of_nil in Ho. }
  destruct Ht as [Hnd Hsub]. split; [exact Hnd |]. split; [exact Hsub |].
  change 7 with (length Dropdown_5.options).
  apply submseteq_length, NoDup_submseteq; assumption.
Qed.

Lemma dropdown_selection_tidy_witness :
  Forall offered [TickSelectAll true; TickOption "Option 2"; PressButton; TickOption "Option 2"]
  ∧ length (Dropdown_5.selectedOptions
              (gestures [TickSelectAll true; TickOption "Option 2"; PressButton;
                         TickOption "Option 2"])) ≤ 7.
Proof.
  assert (H : Forall offered
                [TickSelectAll true; TickOption "Option 2"; PressButton; TickOption "Option 2"]).
  { repeat constructor; cbn [offered];
      apply (bool_decide_unpack _); vm_compute; exact I. }
  split; [exact H |].
  apply (dropdown_selection_tidy _ H).
Defined.

(** X17: the select-all box follows its own ticks only: after any series
    of gestures it shows the value of its last tick (unchecked if it was
    never ticked), whatever happened to the options since.  So unticking one
    option after a select-all leaves the box checked with six options
    selected. *)
Theorem dropdown_select_all_stale (gs : list gesture) (s : Dropdown_5.state) (o : string) :
  Dropdown_5.selectAllChecked (gestures gs) = lastSelectAll gs false
  ∧ (o ∈ Dropdown_5.options →
     Dropdown_5.selectAllChecked
       (Dropdown_5.handleOptionChange o (Dropdown_5.handleSelectAllChange true s)) = true
     ∧ Dropdown_5.checked
         (Dropdown_5.handleOptionChange o (Dropdown_5.handleSelectAllChange true s)) o = false
     ∧ length (Dropdown_5.selectedOptions
                 (Dropdown_5.handleOptionChange o (Dropdown_5.handleSelectAllChange true s)))
       = 6).
Proof.
  split; [apply (fold_react_selectAll gs Dropdown_5.initial) |].
  intros Ho. split; [reflexivity |].
  unfold Dropdown_5.options in Ho.
  repeat (apply elem_of_cons in Ho as [-> | Ho]; [split; reflexivity |]).
  now apply not_elem_of_nil in Ho.
Qed.

Lemma dropdown_select_all_stale_witness :
  "Option 5" ∈ Dropdown_5.options
  ∧ Dropdown_5.selectAllChecked
      (Dropdown_5.handleOptionChange "Option 5"
         (Dropdown_5.handleSelectAllChange true Dropdown_5.initial)) = true.
Proof.
  assert (H : "Option 5" ∈ Dropdown_5.options)
    by (apply (bool_decide_unpack _); vm_compute; exact I).
  split; [exact H |].
  apply (dropdown_select_all_stale [] Dropdown_5.initial "Option 5"). exact H.
Defined.

Section DropdownText.




End DropdownText.


